(** * Project-status pipeline: extraction, EVM derivation, health banding,
      PMBOK guard rails and recommendation validation

    Shallow embedding of
    - [MBA-USP-TCC/schedule_agent_updated.py] (class [ScheduleAgent]),
    - [MBA-USP-TCC/cost_agent_updated.py] (class [CostAgent]),
    - [MBA-USP-TCC/pmbok_guard_rails.py] (class [PMBOKGuardRails]),
    - [MBA-USP-TCC/Agentes/nlp_processor.py] (class [StatusTextProcessor]).

    Conventions.
    - A Python [str] is a list of Unicode code points ([list N]); literals are
      written [py "..."] and decoded from UTF-8.
    - A Python [dict] is a [gmap] keyed by [str].
    - A Python [float] is idealised as a rational ([Qc]): rounding,
      infinities and NaN of binary64 are outside the model.
    - Code that can raise returns [res A]; [try/except] is [catch].
    - What belongs to the Python runtime's number grammar and Unicode
      tables ([float()], [int()], [str.lower()], [\d], case-insensitive
      matching, [format(x, ".2f")]) is the interface [Runtime]; the
      instance [latin1] serves the concrete runs. *)

From Stdlib Require Import QArith Qcanon Qround Qabs Lqa.
From stdpp Require Import gmap strings list fin_maps.

Local Open Scope Z_scope.
Local Open Scope list_scope.

(** ** Python strings *)

Module PyStr.

Definition str := list N.

Definition bytes_of (s : string) : list N :=
  Ascii.N_of_ascii <$> String.list_ascii_of_string s.

(** UTF-8 decoding of a literal (1- to 4-byte sequences). *)
Fixpoint utf8 (bs : list N) : str :=
  match bs with
  | [] => []
  | b :: r =>
      if (b <? 128)%N then b :: utf8 r
      else if (b <? 224)%N then
        match r with
        | c1 :: r1 => ((b mod 32) * 64 + c1 mod 64)%N :: utf8 r1
        | [] => [b]
        end
      else if (b <? 240)%N then
        match r with
        | c1 :: c2 :: r2 =>
            ((b mod 16) * 4096 + (c1 mod 64) * 64 + c2 mod 64)%N :: utf8 r2
        | _ => [b]
        end
      else
        match r with
        | c1 :: c2 :: c3 :: r3 =>
            ((b mod 8) * 262144 + (c1 mod 64) * 4096
             + (c2 mod 64) * 64 + c3 mod 64)%N :: utf8 r3
        | _ => [b]
        end
  end.

Definition py (s : string) : str := utf8 (bytes_of s).

(** [str.isspace] per code point: the whitespace of [strip()], [split()]
    and of the regex class [\s]. *)
Definition is_space (c : N) : bool :=
  ((9 <=? c) && (c <=? 13) || (28 <=? c) && (c <=? 32)
   || (c =? 133) || (c =? 160) || (c =? 5760)
   || (8192 <=? c) && (c <=? 8202) || (c =? 8232) || (c =? 8233)
   || (c =? 8239) || (c =? 8287) || (c =? 12288))%N.

(** [s.startswith(p)] *)
Fixpoint startswith (p s : str) : bool :=
  match p, s with
  | [], _ => true
  | a :: p', b :: s' => (a =? b)%N && startswith p' s'
  | _ :: _, [] => false
  end.

(** [sub in s] *)
Fixpoint contains (sub s : str) : bool :=
  startswith sub s ||
  match s with
  | [] => false
  | _ :: s' => contains sub s'
  end.

(** [s.split(sep)] for a non-empty [sep]: [skip] counts the characters of a
    separator occurrence still to be passed over, [cur] holds the current
    piece in reverse. *)
Fixpoint split_go (sep : str) (skip : nat) (cur s : str) : list str :=
  match s with
  | [] => [rev cur]
  | c :: s' =>
      match skip with
      | S k => split_go sep k cur s'
      | O =>
          if startswith sep s
          then rev cur :: split_go sep (length sep - 1) [] s'
          else split_go sep 0 (c :: cur) s'
      end
  end.

Definition split_on (sep s : str) : list str := split_go sep 0 [] s.

(** [new.join(parts)] *)
Fixpoint join (new : str) (parts : list str) : str :=
  match parts with
  | [] => []
  | [p] => p
  | p :: ps => p ++ new ++ join new ps
  end.

(** [s.replace(old, new)] for a non-empty [old], which Python defines to
    agree with [new.join(s.split(old))]. *)
Definition replace (old new s : str) : str := join new (split_on old s).

Fixpoint lstrip (s : str) : str :=
  match s with
  | c :: s' => if is_space c then lstrip s' else s
  | [] => []
  end.

(** [s.strip()] *)
Definition strip (s : str) : str := rev (lstrip (rev (lstrip s))).

(** [s.split()]: maximal runs of non-whitespace. *)
Fixpoint words_go (cur s : str) : list str :=
  match s with
  | [] => match cur with [] => [] | _ => [rev cur] end
  | c :: s' =>
      if is_space c
      then match cur with [] => words_go [] s' | _ => rev cur :: words_go [] s' end
      else words_go (c :: cur) s'
  end.

Definition words (s : str) : list str := words_go [] s.

End PyStr.
Export PyStr.

(** ** Python values, exceptions *)

Inductive exn :=
| TypeError (msg : str)
| ValueError (msg : str)
| IndexError (msg : str)
| ZeroDivisionError (msg : str)
| AttributeError (msg : str).

(** [str(e)] *)
Definition exn_text (e : exn) : str :=
  match e with
  | TypeError m | ValueError m | IndexError m | ZeroDivisionError m
  | AttributeError m => m
  end.

Inductive res (A : Type) :=
| Ok (a : A)
| Raise (e : exn).
Arguments Ok {A} a.
Arguments Raise {A} e.

#[global] Instance res_ret : MRet res := λ A a, Ok a.
#[global] Instance res_bind : MBind res := λ A B f c,
  match c with Ok a => f a | Raise e => Raise e end.

(** [try: c  except: h] *)
Definition catch {A} (c : res A) (h : exn → A) : A :=
  match c with Ok a => a | Raise e => h e end.

Inductive value :=
| VNone
| VBool (b : bool)
| VInt (z : Z)
| VFloat (q : Qc)
| VStr (s : str)
| VList (l : list str)
| VCats (m : gmap str (Qc * option Qc)).

(** A Python dict with [str] keys. *)
Abbreviation dict := (gmap str value).

(** [d.get(k)] and [d.get(k, dflt)] *)
Definition get (d : dict) (k : str) : value := default VNone (d !! k).
Definition get_or (d : dict) (k : str) (dflt : value) : value :=
  default dflt (d !! k).

Definition is_None (v : value) : bool :=
  match v with VNone => true | _ => false end.

(** Truth value of an object, as [if v:] and [not v] take it. *)
Definition truthy (v : value) : bool :=
  match v with
  | VNone => false
  | VBool b => b
  | VInt z => negb (z =? 0)
  | VFloat q => negb (bool_decide (q = 0%Qc))
  | VStr s => negb (bool_decide (s = []))
  | VList l => negb (bool_decide (l = []))
  | VCats m => negb (bool_decide (m = ∅))
  end.

Definition type_name (v : value) : str :=
  match v with
  | VNone => py "NoneType"
  | VBool _ => py "bool"
  | VInt _ => py "int"
  | VFloat _ => py "float"
  | VStr _ => py "str"
  | VList _ => py "list"
  | VCats _ => py "dict"
  end.

(** A decimal literal of the source as a float. *)
Definition fl (q : Q) : Qc := Q2Qc q.

(** The number a numeric object stands for in arithmetic and comparisons
    ([bool] is a subclass of [int]). *)
Definition as_number (v : value) : option Qc :=
  match v with
  | VBool b => Some (if b then 1%Qc else 0%Qc)
  | VInt z => Some (Q2Qc (inject_Z z))
  | VFloat q => Some q
  | _ => None
  end.

Definition not_supported (op : string) (a b : value) : exn :=
  TypeError (py "'" ++ py op ++ py "' not supported between instances of '"
             ++ type_name a ++ py "' and '" ++ type_name b ++ py "'").

(** [a < b] and [a > b] between a value and a number. *)
Definition py_lt (a b : value) : res bool :=
  match as_number a, as_number b with
  | Some x, Some y => Ok (bool_decide (x < y)%Qc)
  | _, _ => Raise (not_supported "<" a b)
  end.

Definition py_gt (a b : value) : res bool :=
  match as_number a, as_number b with
  | Some x, Some y => Ok (bool_decide (y < x)%Qc)
  | _, _ => Raise (not_supported ">" a b)
  end.

(** [a / b] (true division) *)
Definition py_truediv (a b : value) : res value :=
  match as_number a, as_number b with
  | Some x, Some y =>
      if decide (y = 0%Qc) then Raise (ZeroDivisionError (py "division by zero"))
      else Ok (VFloat (x / y)%Qc)
  | _, _ =>
      Raise (TypeError (py "unsupported operand type(s) for /: '" ++ type_name a
                        ++ py "' and '" ++ type_name b ++ py "'"))
  end.

(** [len(v)] *)
Definition py_len (v : value) : res Z :=
  match v with
  | VStr s => Ok (Z.of_nat (length s))
  | VList l => Ok (Z.of_nat (length l))
  | VCats m => Ok (Z.of_nat (size m))
  | _ => Raise (TypeError (py "object of type '" ++ type_name v
                           ++ py "' has no len()"))
  end.

(** [x * v] for a float [x]. *)
Definition float_mul (x : Qc) (v : value) : res value :=
  match as_number v with
  | Some y => Ok (VFloat (x * y)%Qc)
  | None =>
      match v with
      | VStr _ | VList _ =>
          Raise (TypeError (py "can't multiply sequence by non-int of type 'float'"))
      | _ =>
          Raise (TypeError (py "unsupported operand type(s) for *: 'float' and '"
                            ++ type_name v ++ py "'"))
      end
  end.

(** The runtime services the sources call. [None] from [py_float] and
    [py_int] stands for the [ValueError] of a failed conversion. *)
Class Runtime := {
  py_float : str → option Qc;
  py_int : str → option Z;
  py_lower : str → str;
  py_fmt2 : Qc → str;
  uni_decimal : N → bool;
  uni_ieq : N → N → bool;
}.

Definition float_of `{Runtime} (s : str) : res Qc :=
  match py_float s with
  | Some q => Ok q
  | None => Raise (ValueError (py "could not convert string to float"))
  end.

Definition int_of `{Runtime} (s : str) : res Z :=
  match py_int s with
  | Some z => Ok z
  | None => Raise (ValueError (py "invalid literal for int() with base 10"))
  end.

(** [l[i]] *)
Definition index {A} (l : list A) (i : nat) : res A :=
  match l !! i with
  | Some a => Ok a
  | None => Raise (IndexError (py "list index out of range"))
  end.

(** ** HealthClassifier *)

Inductive health_status :=
| unknown | excellent | good | warning | critical | severe.

Record health := {
  status : health_status;
  description : str;
}.

Section Health.
Context `{Runtime}.

(** [ScheduleAgent._evaluate_schedule_health]
    (schedule_agent_updated.py, lines 192-232). *)
Definition _evaluate_schedule_health (spi : option Qc) : health :=
  match spi with
  | None =>
      {| status := unknown;
         description := py "Não foi possível determinar o status do cronograma devido à falta de informações." |}
  | Some spi =>
      if decide (fl 1.05 ≤ spi)%Qc then
        {| status := excellent;
           description := py "O projeto está significativamente adiantado (SPI = " ++ py_fmt2 spi
             ++ py "). Verifique se a qualidade está sendo mantida e considere realocar recursos." |}
      else if decide (fl 0.95 ≤ spi)%Qc then
        {| status := good;
           description := py "O projeto está no cronograma ou levemente adiantado (SPI = " ++ py_fmt2 spi
             ++ py "). Continue monitorando." |}
      else if decide (fl 0.85 ≤ spi)%Qc then
        {| status := warning;
           description := py "O projeto está levemente atrasado (SPI = " ++ py_fmt2 spi
             ++ py "). Ações preventivas são recomendadas." |}
      else if decide (fl 0.7 ≤ spi)%Qc then
        {| status := critical;
           description := py "O projeto está significativamente atrasado (SPI = " ++ py_fmt2 spi
             ++ py "). Ações corretivas são necessárias." |}
      else
        {| status := severe;
           description := py "O projeto está severamente atrasado (SPI = " ++ py_fmt2 spi
             ++ py "). Ações corretivas urgentes são necessárias." |}
  end.

(** [CostAgent._evaluate_cost_health]
    (cost_agent_updated.py, lines 201-241). *)
Definition _evaluate_cost_health (cpi : option Qc) : health :=
  match cpi with
  | None =>
      {| status := unknown;
         description := py "Não foi possível determinar o status dos custos devido à falta de informações." |}
  | Some cpi =>
      if decide (fl 1.1 ≤ cpi)%Qc then
        {| status := excellent;
           description := py "O projeto está significativamente abaixo do orçamento (CPI = " ++ py_fmt2 cpi
             ++ py "). Verifique se a qualidade está sendo mantida e considere realocar recursos." |}
      else if decide (fl 1.0 ≤ cpi)%Qc then
        {| status := good;
           description := py "O projeto está dentro do orçamento ou levemente abaixo (CPI = " ++ py_fmt2 cpi
             ++ py "). Continue monitorando." |}
      else if decide (fl 0.9 ≤ cpi)%Qc then
        {| status := warning;
           description := py "O projeto está levemente acima do orçamento (CPI = " ++ py_fmt2 cpi
             ++ py "). Ações preventivas são recomendadas." |}
      else if decide (fl 0.8 ≤ cpi)%Qc then
        {| status := critical;
           description := py "O projeto está significativamente acima do orçamento (CPI = " ++ py_fmt2 cpi
             ++ py "). Ações corretivas são necessárias." |}
      else
        {| status := severe;
           description := py "O projeto está severamente acima do orçamento (CPI = " ++ py_fmt2 cpi
             ++ py "). Ações corretivas urgentes são necessárias." |}
  end.

End Health.

(** ** FieldExtractor: label-based extraction *)

(** One branch of the [if/elif] chain over a line: the label searched for,
    the key written, whether the branch body sits in [try: ... except: pass],
    and the conversion applied to [line.split(label)[1].strip()]. *)
Record field := {
  label : str;
  key : str;
  guarded : bool;
  convert : str → res value;
}.

Definition text_field (l k : string) : field :=
  {| label := py l; key := py k; guarded := false;
     convert := λ s, Ok (VStr s) |}.

(** The body of a branch: [st[key] = convert(line.split(label)[1].strip())]. *)
Definition branch_body (f : field) (line : str) (st : dict) : res dict :=
  part ← index (split_on (label f) line) 1;
  v ← convert f (strip part);
  mret (<[key f := v]> st).

Definition run_branch (f : field) (line : str) (st : dict) : res dict :=
  if guarded f then Ok (catch (branch_body f line st) (λ _, st))
  else branch_body f line st.

(** The chain: the first branch whose label occurs in the line runs. *)
Fixpoint first_branch (fs : list field) (line : str) (st : dict) : res dict :=
  match fs with
  | [] => Ok st
  | f :: fs' =>
      if contains (label f) line then run_branch f line st
      else first_branch fs' line st
  end.

(** [for line in lines: st = step(line, st)] with exceptions propagated. *)
Fixpoint for_each {S} (step : str → S → res S) (lines : list str) (st : S) : res S :=
  match lines with
  | [] => Ok st
  | l :: ls => st' ← step l st; for_each step ls st'
  end.

(** [content.split('\n')] *)
Definition lines_of (content : str) : list str := split_on [10%N] content.

(** The header test that closes a bullet section. *)
Definition closes_section (line : str) : bool :=
  bool_decide (strip line = []) || startswith (py "RELATÓRIO") line.

Definition is_bullet (line : str) : bool := startswith (py "-") (strip line).

(** [line.strip()[2:].strip()] *)
Definition bullet_text (line : str) : str := strip (drop 2 (strip line)).

Record task_scan := {
  in_critical_section : bool;
  in_delayed_section : bool;
  tarefas_criticas : list str;
  tarefas_atrasadas : list str;
}.

(** Second loop of [_extract_schedule_status] (lines 168-185). *)
Definition task_step (sc : task_scan) (line : str) : task_scan :=
  if contains (py "Tarefas críticas:") line then
    {| in_critical_section := true; in_delayed_section := false;
       tarefas_criticas := tarefas_criticas sc;
       tarefas_atrasadas := tarefas_atrasadas sc |}
  else if contains (py "Tarefas atrasadas:") line then
    {| in_critical_section := false; in_delayed_section := true;
       tarefas_criticas := tarefas_criticas sc;
       tarefas_atrasadas := tarefas_atrasadas sc |}
  else if closes_section line then
    {| in_critical_section := false; in_delayed_section := false;
       tarefas_criticas := tarefas_criticas sc;
       tarefas_atrasadas := tarefas_atrasadas sc |}
  else if in_critical_section sc && is_bullet line then
    {| in_critical_section := in_critical_section sc;
       in_delayed_section := in_delayed_section sc;
       tarefas_criticas := tarefas_criticas sc ++ [bullet_text line];
       tarefas_atrasadas := tarefas_atrasadas sc |}
  else if in_delayed_section sc && is_bullet line then
    {| in_critical_section := in_critical_section sc;
       in_delayed_section := in_delayed_section sc;
       tarefas_criticas := tarefas_criticas sc;
       tarefas_atrasadas := tarefas_atrasadas sc ++ [bullet_text line] |}
  else sc.

Section Extraction.
Context `{Runtime}.

Definition float_field (l k : string) (clean : str → str) : field :=
  {| label := py l; key := py k; guarded := true;
     convert := λ s, q ← float_of (clean s); mret (VFloat q) |}.

(** [x.replace("R$", "").strip()] *)
Definition drop_currency (s : str) : str := strip (replace (py "R$") [] s).

(** First loop of [ScheduleAgent._extract_schedule_status]
    (schedule_agent_updated.py, lines 119-159), branch by branch. *)
Definition schedule_fields : list field := [
  text_field "Status atual:" "status";
  float_field "Percentual de conclusão:" "percentual_conclusao"
    (λ s, replace (py "%") [] s);
  text_field "Data de início:" "data_inicio";
  text_field "Data de término planejada:" "data_termino_planejada";
  text_field "Data de término real/prevista:" "data_termino_real";
  {| label := py "Atraso atual:"; key := py "atraso_dias"; guarded := true;
     convert := λ s, d ← index (split_on (py " dias") s) 0;
                     z ← int_of d; mret (VInt z) |};
  text_field "Motivo do atraso:" "motivo_atraso";
  float_field "Índice de Desempenho de Cronograma (SPI):" "spi" (λ s, s);
  float_field "Valor Planejado (PV):" "valor_planejado" drop_currency;
  float_field "Valor Agregado (EV):" "valor_agregado" drop_currency
].

(** [ScheduleAgent._extract_schedule_status]
    (schedule_agent_updated.py, lines 105-190). *)
Definition _extract_schedule_status (content : str) : res dict :=
  let lines := lines_of content in
  schedule_status ← for_each (first_branch schedule_fields) lines ∅;
  let sc := foldl task_step
              {| in_critical_section := false; in_delayed_section := false;
                 tarefas_criticas := []; tarefas_atrasadas := [] |} lines in
  mret (<[py "tarefas_atrasadas" := VList (tarefas_atrasadas sc)]>
          (<[py "tarefas_criticas" := VList (tarefas_criticas sc)]>
             schedule_status)).

(** First loop of [CostAgent._extract_cost_status]
    (cost_agent_updated.py, lines 119-167). *)
Definition cost_fields : list field := [
  float_field "Orçamento inicial:" "orcamento_inicial" drop_currency;
  float_field "Custo real atual:" "custo_real" drop_currency;
  float_field "Desvio orçamentário:" "desvio_orcamento"
    (λ s, strip (replace (py "%") [] s));
  float_field "Índice de Desempenho de Custo (CPI):" "cpi" (λ s, s);
  float_field "Valor Agregado (EV):" "valor_agregado" drop_currency;
  float_field "Estimativa para conclusão:" "estimativa_conclusao" drop_currency;
  float_field "Estimativa no término (EAC):" "estimativa_termino" drop_currency;
  float_field "Variação no término (VAC):" "variacao_termino" drop_currency
].

(** The [try] body of a category bullet (lines 183-193). *)
Definition category_body (line : str) (cats : gmap str (Qc * option Qc))
  : res (gmap str (Qc * option Qc)) :=
  let parts := split_on (py ":") (drop 2 (strip line)) in
  if decide (2 ≤ length parts)%nat then
    p0 ← index parts 0;
    let categoria := strip p0 in
    p1 ← index parts 1;
    let valor_parts := split_on (py "(") (strip p1) in
    v0 ← index valor_parts 0;
    valor ← float_of (drop_currency v0);
    if decide (1 < length valor_parts)%nat then
      v1 ← index valor_parts 1;
      percentual ← float_of (strip (replace (py "%)") [] v1));
      mret (<[categoria := (valor, Some percentual)]> cats)
    else mret (<[categoria := (valor, None)]> cats)
  else mret cats.

Record category_scan := {
  in_categories_section : bool;
  categorias_custos : gmap str (Qc * option Qc);
}.

(** Second loop of [_extract_cost_status] (lines 173-195). *)
Definition category_step (sc : category_scan) (line : str) : category_scan :=
  if contains (py "Detalhamento por categoria:") line then
    {| in_categories_section := true;
       categorias_custos := categorias_custos sc |}
  else if closes_section line then
    {| in_categories_section := false;
       categorias_custos := categorias_custos sc |}
  else if in_categories_section sc && is_bullet line then
    {| in_categories_section := in_categories_section sc;
       categorias_custos :=
         catch (category_body line (categorias_custos sc))
               (λ _, categorias_custos sc) |}
  else sc.

(** [CostAgent._extract_cost_status]
    (cost_agent_updated.py, lines 105-199). *)
Definition _extract_cost_status (content : str) : res dict :=
  let lines := lines_of content in
  cost_status ← for_each (first_branch cost_fields) lines ∅;
  let sc := foldl category_step
              {| in_categories_section := false; categorias_custos := ∅ |}
              lines in
  mret (<[py "categorias_custos" := VCats (categorias_custos sc)]> cost_status).

End Extraction.

(** ** MetricDeriver *)

(** [k in d] *)
Definition has_key (d : dict) (k : str) : bool := bool_decide (is_Some (d !! k)).

(** The derivation step shared by both agents: [ind] is the indicator key,
    [num] and [den] the keys of numerator and denominator. Returns the
    record and the local variable holding the indicator.
    [ScheduleAgent.analyze_schedule_file], lines 50-56, and
    [CostAgent.analyze_cost_file], lines 50-56. *)
Definition derive (ind num den : str) (st : dict) : res (dict * value) :=
  let x := get_or st ind VNone in
  if is_None x && has_key st num && has_key st den then
    let ev := get_or st num (VInt 0) in
    let d := get_or st den (VInt 0) in
    pos ← py_gt d (VInt 0);
    if (pos : bool) then
      r ← py_truediv ev d;
      mret (<[ind := r]> st, r)
    else mret (st, x)
  else mret (st, x).

Definition derive_spi : dict → res (dict * value) :=
  derive (py "spi") (py "valor_agregado") (py "valor_planejado").

Definition derive_cpi : dict → res (dict * value) :=
  derive (py "cpi") (py "valor_agregado") (py "custo_real").

(** ** Pattern-based extraction: a backtracking matcher for [re.search] *)

Module Re.

(** The fragment of Python's regular expressions that the pattern catalogue
    uses. Quantifiers are greedy and alternatives are tried left to right,
    as the [re] module does. *)
Inductive regex :=
| Eps
| Chr (c : N)                         (* a literal character *)
| Digit                               (* \d *)
| Space                               (* \s *)
| Set_ (cs : list N) (digits : bool)  (* [...]: literal characters, and \d *)
| Seq (r1 r2 : regex)
| Alt (r1 r2 : regex)
| Opt (r : regex)                     (* r? *)
| Star (r : regex)                    (* r* *)
| Group (r : regex).                  (* ( r ), the capturing group 1 *)

(** A literal string. *)
Fixpoint lit (s : str) : regex :=
  match s with
  | [] => Eps
  | [c] => Chr c
  | c :: s' => Seq (Chr c) (lit s')
  end.

(** r+ *)
Definition Plus (r : regex) : regex := Seq r (Star r).

(** r{0,n} and r{lo,lo+extra} *)
Fixpoint upto (n : nat) (r : regex) : regex :=
  match n with
  | O => Eps
  | S n' => Opt (Seq r (upto n' r))
  end.

Fixpoint rep (lo extra : nat) (r : regex) : regex :=
  match lo with
  | O => upto extra r
  | S lo' => Seq r (rep lo' extra r)
  end.

Section Matcher.
Context `{Runtime}.

(** Does the class or literal [r] accept the character [x] under
    [re.IGNORECASE]? *)
Definition accepts (r : regex) (x : N) : bool :=
  match r with
  | Chr c => uni_ieq c x
  | Digit => uni_decimal x
  | Space => is_space x
  | Set_ cs digits => existsb (λ c, uni_ieq c x) cs || digits && uni_decimal x
  | _ => false
  end.

(** [rmatch r s cap k]: match [r] at the head of [s], then continue with
    [k] on the rest; [cap] is the text of group 1 so far. The first
    success in backtracking order is returned. *)
Fixpoint rmatch {A} (r : regex) (s : str) (cap : option str)
    (k : str → option str → option A) : option A :=
  match r with
  | Eps => k s cap
  | Chr _ | Digit | Space | Set_ _ _ =>
      match s with
      | x :: s' => if accepts r x then k s' cap else None
      | [] => None
      end
  | Seq r1 r2 => rmatch r1 s cap (λ s1 cap1, rmatch r2 s1 cap1 k)
  | Alt r1 r2 =>
      match rmatch r1 s cap k with
      | Some a => Some a
      | None => rmatch r2 s cap k
      end
  | Opt r1 =>
      match rmatch r1 s cap k with
      | Some a => Some a
      | None => k s cap
      end
  | Star r1 =>
      (fix loop (fuel : nat) (s : str) (cap : option str) : option A :=
         match fuel with
         | O => k s cap
         | S fuel' =>
             match rmatch r1 s cap
                     (λ s' cap', if (length s' <? length s)%nat
                                 then loop fuel' s' cap' else None) with
             | Some a => Some a
             | None => k s cap
             end
         end) (length s) s cap
  | Group r1 =>
      rmatch r1 s cap (λ s' _, k s' (Some (take (length s - length s') s)))
  end.

(** [re.search(r, s, re.IGNORECASE)]: the leftmost match; the result is
    [match.group(1)]. *)
Fixpoint search (r : regex) (s : str) : option (option str) :=
  match rmatch r s None (λ _ cap, Some cap) with
  | Some g => Some g
  | None =>
      match s with
      | [] => None
      | _ :: s' => search r s'
      end
  end.

End Matcher.
End Re.

(** ** StatusTextProcessor (Agentes/nlp_processor.py) *)

Module StatusTextProcessor.
Import Re.

Inductive pattern_key :=
| k_project_id | k_completion_percentage | k_spi | k_cpi
| k_budget | k_actual_cost | k_delay_days.

Definition ws : regex := Star Space.
(** (?:\s*[:=-])? *)
Definition sep : regex := Opt (Seq ws (Set_ (py ":=-") false)).
(** \d+(?:[.,]\d{1,2})? *)
Definition decimal : regex :=
  Seq (Plus Digit) (Opt (Seq (Set_ (py ".,") false) (rep 1 1 Digit))).
(** R\$ *([\d.,]+) *)
Definition amount : regex :=
  Seq (lit (py "R$")) (Seq (Star (Chr 32)) (Group (Plus (Set_ (py ".,") true)))).

(** [self.patterns] (lines 19-29), entry by entry. *)
Definition patterns (key : pattern_key) : regex :=
  match key with
  | k_project_id =>
      (* PROJ[ -]?(\d+) *)
      Seq (lit (py "PROJ")) (Seq (Opt (Set_ (py " -") false)) (Group (Plus Digit)))
  | k_completion_percentage =>
      (* (\d{1,3}(?:[.,]\d{1,2})?)\s*%\s*(?:conclu[ií]do|completo|de progresso) *)
      Seq (Group (Seq (rep 1 2 Digit)
                      (Opt (Seq (Set_ (py ".,") false) (rep 1 1 Digit)))))
        (Seq ws (Seq (Chr 37) (Seq ws
          (Alt (Seq (lit (py "conclu")) (Seq (Set_ (py "ií") false) (lit (py "do"))))
            (Alt (lit (py "completo")) (lit (py "de progresso")))))))
  | k_spi =>
      (* SPI(?:\s*[:=-])?\s*(\d+(?:[.,]\d{1,2})?) *)
      Seq (lit (py "SPI")) (Seq sep (Seq ws (Group decimal)))
  | k_cpi =>
      (* CPI(?:\s*[:=-])?\s*(\d+(?:[.,]\d{1,2})?) *)
      Seq (lit (py "CPI")) (Seq sep (Seq ws (Group decimal)))
  | k_budget =>
      (* or[çc]amento(?:\s*total)?(?:\s*[:=-])?\s*R\$ *([\d.,]+) *)
      Seq (lit (py "or")) (Seq (Set_ (py "çc") false) (Seq (lit (py "amento"))
        (Seq (Opt (Seq ws (lit (py "total")))) (Seq sep (Seq ws amount)))))
  | k_actual_cost =>
      (* custo\s*atual(?:\s*[:=-])?\s*R\$ *([\d.,]+) *)
      Seq (lit (py "custo")) (Seq ws (Seq (lit (py "atual"))
        (Seq sep (Seq ws amount))))
  | k_delay_days =>
      (* atraso(?:\s*de)?\s*(\d+)\s*dias? *)
      Seq (lit (py "atraso")) (Seq (Opt (Seq ws (lit (py "de"))))
        (Seq ws (Seq (Group (Plus Digit)) (Seq ws
          (Seq (lit (py "dia")) (Opt (Chr 115)))))))
  end.

Definition scope_change_keywords : list str :=
  [py "mudan[cç]a de escopo"; py "altera[cç][aã]o de escopo"; py "escopo alterado"].

Definition risk_keywords : list str :=
  [py "risco identificado"; py "novo risco"; py "amea[cç]a"; py "problema potencial"].

Section Processor.
Context `{Runtime}.

Definition is_money (key : pattern_key) : bool :=
  match key with k_budget | k_actual_cost => true | _ => false end.

Definition is_numeric (key : pattern_key) : bool :=
  match key with
  | k_completion_percentage | k_spi | k_cpi | k_delay_days => true
  | _ => false
  end.

(** [match.group(1).replace(...)]: a group that took no part is [None]. *)
Definition group1 (g : option str) : res str :=
  match g with
  | Some s => Ok s
  | None => Raise (AttributeError (py "'NoneType' object has no attribute 'replace'"))
  end.

(** [StatusTextProcessor._extract_with_regex] (lines 31-41). *)
Definition _extract_with_regex (text : str) (key : pattern_key) : res value :=
  match search (patterns key) text with
  | Some g =>
      if is_money key then
        s ← group1 g;
        let value_str := replace (py ",") (py ".") (replace (py ".") [] s) in
        q ← float_of value_str; mret (VFloat q)
      else if is_numeric key then
        s ← group1 g;
        q ← float_of (replace (py ",") (py ".") s); mret (VFloat q)
      else mret (from_option VStr VNone g)
  | None => mret VNone
  end.

(** [any(keyword in text.lower() for keyword in keywords)] *)
Definition any_keyword (keywords : list str) (text : str) : bool :=
  existsb (λ keyword, contains keyword (py_lower text)) keywords.

(** [{k: v for k, v in metrics.items() if v is not None}] *)
Definition drop_none (metrics : dict) : dict :=
  filter (λ kv, is_None kv.2 = false) metrics.

(** The metrics of [StatusTextProcessor.process_status_file] (lines 85-97)
    for the text [text] read from the file. *)
Definition metrics_of (text : str) : res dict :=
  completion_percentage ← _extract_with_regex text k_completion_percentage;
  spi ← _extract_with_regex text k_spi;
  cpi ← _extract_with_regex text k_cpi;
  budget ← _extract_with_regex text k_budget;
  actual_cost ← _extract_with_regex text k_actual_cost;
  delay_days ← _extract_with_regex text k_delay_days;
  let metrics : dict :=
    <[py "risk_detected" := VBool (any_keyword risk_keywords text)]>
    (<[py "scope_change_detected" := VBool (any_keyword scope_change_keywords text)]>
    (<[py "delay_days" := delay_days]>
    (<[py "actual_cost" := actual_cost]>
    (<[py "budget" := budget]>
    (<[py "cpi" := cpi]>
    (<[py "spi" := spi]>
    (<[py "completion_percentage" := completion_percentage]> ∅))))))) in
  mret (drop_none metrics).

(** What a successful [process_status_file] returns, the spaCy entities
    left out. *)
Record processed := {
  project_id : value;
  metrics : dict;
}.

(** [StatusTextProcessor.process_status_file] (lines 61-103) on a file that
    was read as [text]. *)
Definition process_status_file (text : str) : res processed :=
  pid ← _extract_with_regex text k_project_id;
  m ← metrics_of text;
  mret {| project_id := pid; metrics := m |}.

End Processor.
End StatusTextProcessor.

(** ** A concrete runtime for texts in ASCII and Latin-1 *)

Module Latin1.

(** Lower case of a code point of the Basic Latin and Latin-1 blocks. *)
Definition lower_char (c : N) : N :=
  if ((65 <=? c) && (c <=? 90)
      || (192 <=? c) && (c <=? 222) && negb (c =? 215))%N
  then (c + 32)%N else c.

Definition is_digit (c : N) : bool := ((48 <=? c) && (c <=? 57))%N.

(** A run of ASCII digits: its value, its length and the rest. *)
Fixpoint digits (acc : Z) (n : nat) (s : str) : Z * nat * str :=
  match s with
  | c :: s' =>
      if is_digit c then digits (10 * acc + Z.of_N (c - 48)) (S n) s'
      else (acc, n, s)
  | [] => (acc, n, s)
  end.

(** An optional sign: [true] for minus. *)
Definition sign (s : str) : bool * str :=
  match s with
  | 45%N :: s' => (true, s')
  | 43%N :: s' => (false, s')
  | _ => (false, s)
  end.

Definition pow10 (e : Z) : Q :=
  if (0 <=? e) then inject_Z (10 ^ e) else / inject_Z (10 ^ (- e)).

(** [float(s)] on decimal literals: surrounding whitespace, a sign, digits
    with an optional fraction, an optional exponent. *)
Definition parse_float (s : str) : option Qc :=
  let '(neg, s1) := sign (strip s) in
  let '(ip, ni, s2) := digits 0 0 s1 in
  let '(fp, nf, s3) :=
    match s2 with
    | 46%N :: s' => digits 0 0 s'
    | _ => (0, 0%nat, s2)
    end in
  if (ni + nf =? 0)%nat then None else
  let mant := (inject_Z ip + inject_Z fp * pow10 (- Z.of_nat nf))%Q in
  let signed := if neg then (- mant)%Q else mant in
  match s3 with
  | [] => Some (Q2Qc signed)
  | c :: s4 =>
      if ((c =? 101) || (c =? 69))%N then
        let '(eneg, s5) := sign s4 in
        let '(e, ne, s6) := digits 0 0 s5 in
        match ne, s6 with
        | S _, [] => Some (Q2Qc (signed * pow10 (if eneg then - e else e)))
        | _, _ => None
        end
      else None
  end.

(** [int(s)] on decimal literals. *)
Definition parse_int (s : str) : option Z :=
  let '(neg, s1) := sign (strip s) in
  let '(v, n, s2) := digits 0 0 s1 in
  match n, s2 with
  | S _, [] => Some (if neg then - v else v)
  | _, _ => None
  end.

(** The decimal digits of a natural number. *)
Fixpoint digits_of (fuel : nat) (n : Z) (acc : str) : str :=
  match fuel with
  | O => acc
  | S fuel' =>
      let acc' := Z.to_N (48 + n mod 10) :: acc in
      if n <? 10 then acc' else digits_of fuel' (n / 10) acc'
  end.

Definition show_nat (n : Z) : str := digits_of (S (Z.to_nat (Z.log2 n))) n [].

(** [format(q, ".2f")], rounding the hundredths half up. *)
Definition fmt2 (q : Qc) : str :=
  let h := Qfloor (Qabs q * 100 + (1 # 2))%Q in
  let frac := h mod 100 in
  (if decide (q < 0)%Qc then py "-" else [])
  ++ show_nat (h / 100) ++ py "."
  ++ (if frac <? 10 then py "0" else []) ++ show_nat frac.

Definition latin1 : Runtime := {|
  py_float := parse_float;
  py_int := parse_int;
  py_lower := map lower_char;
  py_fmt2 := fmt2;
  uni_decimal := is_digit;
  uni_ieq := λ a b, (lower_char a =? lower_char b)%N;
|}.

End Latin1.

(** ** RuleEngine and RecommendationValidator (pmbok_guard_rails.py) *)

Module PMBOKGuardRails.

Inductive action := notify | require | recommend | error.

#[global] Instance action_eq_dec : EqDecision action.
Proof. solve_decision. Defined.

(** A rule of the catalogue: the dict with keys [id], [name],
    [description], [condition], [action], [message]. *)
Record rule := {
  r_id : str;
  r_name : str;
  r_description : str;
  r_condition : dict → res bool;
  r_action : action;
  r_message : str;
}.

(** An element of the [messages] list: the bare string of the
    invalid-domain result, or the dict appended for a rule. *)
Inductive msg :=
| MsgText (s : str)
| MsgRule (rule_id rule_name message : str) (act : action).

Record validation := {
  valid : bool;
  messages : list msg;
  validation_date : str;
}.

Record recommendation_validation := {
  rv_valid : bool;
  missing_topics : list str;
  additional_recommendations : list str;
  validation_messages : list msg;
  rv_validation_date : str;
}.

(** [a and b] where evaluating [a] or [b] can raise. *)
Definition and_ (a b : res bool) : res bool :=
  x ← a; if (x : bool) then b else mret false.
Infix "&&&" := and_ (at level 40, left associativity).

(** [data.get(k) is not None] *)
Definition present (data : dict) (k : string) : res bool :=
  mret (negb (is_None (get data (py k)))).

(** [data.get(k) < c] and [data.get(k) > c] *)
Definition below (data : dict) (k : string) (c : value) : res bool :=
  py_lt (get data (py k)) c.
Definition above (data : dict) (k : string) (c : value) : res bool :=
  py_gt (get data (py k)) c.

(** [len(data.get(k)) > 0] *)
Definition nonempty (data : dict) (k : string) : res bool :=
  n ← py_len (get data (py k)); mret (0 <? n).

(** [data.get(k) == s] *)
Definition equals_str (data : dict) (k s : string) : res bool :=
  mret (match get data (py k) with
        | VStr x => bool_decide (x = py s)
        | _ => false
        end).

(** [data.get(k) is True] *)
Definition is_True (data : dict) (k : string) : res bool :=
  mret (match get data (py k) with VBool true => true | _ => false end).

Definition mk (i n d : string) (c : dict → res bool) (a : action) (m : string)
  : rule :=
  {| r_id := py i; r_name := py n; r_description := py d;
     r_condition := c; r_action := a; r_message := py m |}.

(** [_load_schedule_rules] (lines 25-73). *)
Definition _load_schedule_rules : list rule := [
  mk "SCH-001" "Notificação para SPI crítico"
     "Qualquer SPI < 0.8 requer notificação imediata ao gerente do projeto"
     (λ data, present data "spi" &&& below data "spi" (VFloat (fl 0.8)))
     notify
     "ALERTA CRÍTICO: O SPI está abaixo de 0.8, indicando atraso significativo no cronograma. Notifique imediatamente o gerente do projeto.";
  mk "SCH-002" "Plano de recuperação para SPI baixo"
     "Qualquer SPI < 0.9 requer um plano de recuperação documentado"
     (λ data, present data "spi" &&& below data "spi" (VFloat (fl 0.9)))
     require
     "REQUISITO: O SPI está abaixo de 0.9. Um plano de recuperação documentado é necessário.";
  mk "SCH-003" "Aprovação para extensão de prazo"
     "Extensões de prazo > 10% da duração original requerem aprovação formal"
     (λ data, present data "atraso_dias" &&& present data "duracao_planejada"
              &&& (limit ← float_mul (fl 0.1) (get data (py "duracao_planejada"));
                   above data "atraso_dias" limit))
     require
     "REQUISITO: A extensão de prazo excede 10% da duração original do projeto. Aprovação formal é necessária.";
  mk "SCH-004" "Revisão da linha de base para replanejamento"
     "Replanejamento de cronograma requer revisão da linha de base"
     (λ data, is_True data "replanejamento")
     require
     "REQUISITO: O replanejamento do cronograma requer revisão formal da linha de base.";
  mk "SCH-005" "Monitoramento diário para tarefas críticas"
     "Tarefas críticas devem ter monitoramento diário quando SPI < 0.9"
     (λ data, present data "spi" &&& below data "spi" (VFloat (fl 0.9))
              &&& present data "tarefas_criticas"
              &&& nonempty data "tarefas_criticas")
     recommend
     "RECOMENDAÇÃO: Implemente monitoramento diário para todas as tarefas críticas devido ao SPI baixo."
].

(** [_load_cost_rules] (lines 75-123). *)
Definition _load_cost_rules : list rule := [
  mk "COST-001" "Notificação para CPI crítico"
     "Qualquer CPI < 0.8 requer notificação imediata ao gerente do projeto"
     (λ data, present data "cpi" &&& below data "cpi" (VFloat (fl 0.8)))
     notify
     "ALERTA CRÍTICO: O CPI está abaixo de 0.8, indicando desvio significativo nos custos. Notifique imediatamente o gerente do projeto.";
  mk "COST-002" "Plano de recuperação para CPI baixo"
     "Qualquer CPI < 0.9 requer um plano de recuperação documentado"
     (λ data, present data "cpi" &&& below data "cpi" (VFloat (fl 0.9)))
     require
     "REQUISITO: O CPI está abaixo de 0.9. Um plano de recuperação documentado é necessário.";
  mk "COST-003" "Aprovação para gastos adicionais"
     "Gastos adicionais > 10% do orçamento requerem aprovação formal"
     (λ data, present data "desvio_orcamento"
              &&& above data "desvio_orcamento" (VInt 10))
     require
     "REQUISITO: Os gastos adicionais excedem 10% do orçamento. Aprovação formal é necessária.";
  mk "COST-004" "Aprovação para realocação de orçamento"
     "Realocação de orçamento entre categorias > 5% requer aprovação"
     (λ data, present data "realocacao_orcamento"
              &&& above data "realocacao_orcamento" (VInt 5))
     require
     "REQUISITO: A realocação de orçamento entre categorias excede 5%. Aprovação formal é necessária.";
  mk "COST-005" "Recálculo semanal da EAC"
     "Estimativa no término (EAC) deve ser recalculada semanalmente quando CPI < 0.9"
     (λ data, present data "cpi" &&& below data "cpi" (VFloat (fl 0.9)))
     recommend
     "RECOMENDAÇÃO: Recalcule a Estimativa no Término (EAC) semanalmente devido ao CPI baixo."
].

(** [_load_scope_rules] (lines 125-173). *)
Definition _load_scope_rules : list rule := [
  mk "SCOPE-001" "Documentação formal para mudanças de escopo"
     "Todas as mudanças de escopo requerem documentação formal"
     (λ data, equals_str data "mudanca_escopo" "Sim")
     require
     "REQUISITO: Todas as mudanças de escopo requerem documentação formal.";
  mk "SCOPE-002" "Revisão da linha de base para impacto no cronograma"
     "Mudanças com impacto no cronograma > 10 dias requerem revisão da linha de base"
     (λ data, present data "impacto_cronograma"
              &&& above data "impacto_cronograma" (VInt 10))
     require
     "REQUISITO: A mudança de escopo tem impacto significativo no cronograma. Revisão da linha de base é necessária.";
  mk "SCOPE-003" "Revisão do orçamento para impacto no custo"
     "Mudanças com impacto no custo > 5% requerem revisão do orçamento"
     (λ data, present data "impacto_custo_percentual"
              &&& above data "impacto_custo_percentual" (VInt 5))
     require
     "REQUISITO: A mudança de escopo tem impacto significativo no custo. Revisão do orçamento é necessária.";
  mk "SCOPE-004" "Revisão do plano para múltiplas mudanças"
     "Mais de 3 mudanças de escopo requerem revisão do plano de gerenciamento do projeto"
     (λ data, present data "num_mudancas_escopo"
              &&& above data "num_mudancas_escopo" (VInt 3))
     require
     "REQUISITO: Múltiplas mudanças de escopo foram identificadas. Revisão do plano de gerenciamento do projeto é necessária.";
  mk "SCOPE-005" "Análise de impacto para mudanças de escopo"
     "Todas as mudanças de escopo devem incluir análise de impacto em cronograma e custos"
     (λ data, equals_str data "mudanca_escopo" "Sim")
     require
     "REQUISITO: Todas as mudanças de escopo devem incluir análise de impacto em cronograma e custos."
].

(** [_load_risk_rules] (lines 175-223). *)
Definition _load_risk_rules : list rule := [
  mk "RISK-001" "Planos de mitigação para riscos altos"
     "Riscos com nível 'Alto' requerem planos de mitigação documentados"
     (λ data, present data "riscos_altos" &&& nonempty data "riscos_altos")
     require
     "REQUISITO: Todos os riscos de nível 'Alto' requerem planos de mitigação documentados.";
  mk "RISK-002" "Planos de contingência para riscos críticos"
     "Riscos com probabilidade >= 4 e impacto >= 4 requerem planos de contingência"
     (λ data, present data "riscos_criticos" &&& nonempty data "riscos_criticos")
     require
     "REQUISITO: Todos os riscos críticos (probabilidade >= 4 e impacto >= 4) requerem planos de contingência.";
  mk "RISK-003" "Revisão quinzenal do registro de riscos"
     "Registro de riscos deve ser revisado pelo menos quinzenalmente"
     (λ data, mret true)
     recommend
     "RECOMENDAÇÃO: O registro de riscos deve ser revisado pelo menos quinzenalmente.";
  mk "RISK-004" "Notificação para novos riscos altos"
     "Novos riscos identificados com nível 'Alto' requerem notificação imediata ao gerente do projeto"
     (λ data, present data "novos_riscos_altos"
              &&& nonempty data "novos_riscos_altos")
     notify
     "ALERTA: Novos riscos de nível 'Alto' foram identificados. Notifique imediatamente o gerente do projeto.";
  mk "RISK-005" "Monitoramento semanal para riscos de alta exposição"
     "Riscos com valor de exposição (probabilidade * impacto) >= 12 requerem monitoramento semanal"
     (λ data, present data "riscos_alta_exposicao"
              &&& nonempty data "riscos_alta_exposicao")
     recommend
     "RECOMENDAÇÃO: Implemente monitoramento semanal para todos os riscos com valor de exposição >= 12."
].

(** [self.rules] (lines 18-23). *)
Definition rules : gmap str (list rule) :=
  <[py "riscos" := _load_risk_rules]>
  (<[py "escopo" := _load_scope_rules]>
  (<[py "custos" := _load_cost_rules]>
  (<[py "cronograma" := _load_schedule_rules]> ∅))).

(** [_check_requirement_met] (lines 274-287). *)
Definition _check_requirement_met (r : rule) (data : dict) : value :=
  let requirement_key := py "requirement_" ++ r_id r ++ py "_met" in
  get_or data requirement_key (VBool false).

Definition fired_message (r : rule) : msg :=
  MsgRule (r_id r) (r_name r) (r_message r) (r_action r).

Definition error_message (r : rule) (e : exn) : msg :=
  MsgRule (r_id r) (r_name r) (py "Erro ao aplicar regra: " ++ exn_text e) error.

(** One turn of the loop of [validate] (lines 247-266) on the pair
    [(messages, valid)]. *)
Definition validate_rule (data : dict) (st : list msg * bool) (r : rule)
  : list msg * bool :=
  match r_condition r data with
  | Ok true =>
      let messages' := st.1 ++ [fired_message r] in
      if bool_decide (r_action r = require)
         && negb (truthy (_check_requirement_met r data))
      then (messages', false)
      else (messages', st.2)
  | Ok false => st
  | Raise e => (st.1 ++ [error_message r e], st.2)
  end.

(** [PMBOKGuardRails.validate] (lines 225-272); [now] is the reading of
    the clock. *)
Definition validate (domain : str) (data : dict) (now : str) : validation :=
  match rules !! domain with
  | None =>
      {| valid := false;
         messages := [MsgText (py "Domínio inválido: " ++ domain)];
         validation_date := now |}
  | Some rs =>
      let st := foldl (validate_rule data) ([], true) rs in
      {| valid := st.2; messages := st.1; validation_date := now |}
  end.

(** [message["action"]] and [message["rule_name"]] *)
Definition msg_action (m : msg) : res action :=
  match m with
  | MsgRule _ _ _ a => Ok a
  | MsgText _ => Raise (TypeError (py "string indices must be integers"))
  end.

Definition msg_rule_name (m : msg) : res str :=
  match m with
  | MsgRule _ n _ _ => Ok n
  | MsgText _ => Raise (TypeError (py "string indices must be integers"))
  end.

Definition msg_message (m : msg) : res str :=
  match m with
  | MsgRule _ _ t _ => Ok t
  | MsgText _ => Raise (TypeError (py "string indices must be integers"))
  end.

Definition stop_words : list str :=
  [py "para"; py "com"; py "que"; py "deve"; py "quando"; py "requer"].

Section Validator.
Context `{Runtime}.

(** [_extract_keywords] (lines 351-363). *)
Definition _extract_keywords (topic : str) : list str :=
  filter (λ word, (4 < length word)%nat ∧ word ∉ stop_words)
         (words (py_lower topic)).

(** [_topic_covered_in_recommendations] (lines 330-349). *)
Fixpoint covered_by (keywords : list str) (recommendations : list str) : bool :=
  match recommendations with
  | [] => false
  | recommendation :: rest =>
      let recommendation_lower := py_lower recommendation in
      if existsb (λ keyword, contains keyword recommendation_lower) keywords
      then true
      else covered_by keywords rest
  end.

Definition _topic_covered_in_recommendations (topic : str)
    (recommendations : list str) : bool :=
  covered_by (_extract_keywords topic) recommendations.

(** First loop of [validate_recommendations] (lines 305-308). *)
Fixpoint required_topics_of (ms : list msg) (acc : list str) : res (list str) :=
  match ms with
  | [] => mret acc
  | m :: ms' =>
      a ← msg_action m;
      if bool_decide (a = require)
      then n ← msg_rule_name m; required_topics_of ms' (acc ++ [n])
      else required_topics_of ms' acc
  end.

(** Second loop (lines 311-314). *)
Definition missing_of (required_topics recommendations : list str) : list str :=
  foldl (λ missing topic,
           if negb (_topic_covered_in_recommendations topic recommendations)
           then missing ++ [topic] else missing)
        [] required_topics.

(** Third loop (lines 317-320). *)
Fixpoint additional_of (ms : list msg) (missing : list str) (acc : list str)
  : res (list str) :=
  match ms with
  | [] => mret acc
  | m :: ms' =>
      a ← msg_action m;
      if bool_decide (a = recommend) then
        t ← msg_message m; additional_of ms' missing (acc ++ [t])
      else if bool_decide (a = require) then
        n ← msg_rule_name m;
        if bool_decide (n ∈ missing)
        then t ← msg_message m; additional_of ms' missing (acc ++ [t])
        else additional_of ms' missing acc
      else additional_of ms' missing acc
  end.

(** [PMBOKGuardRails.validate_recommendations] (lines 289-328); [now1] and
    [now2] are the clock readings of the two [datetime.now()] calls. *)
Definition validate_recommendations (domain : str) (recommendations : list str)
    (data : dict) (now1 now2 : str) : res recommendation_validation :=
  let validation_results := validate domain data now1 in
  required_topics ← required_topics_of (messages validation_results) [];
  let missing := missing_of required_topics recommendations in
  additional ← additional_of (messages validation_results) missing [];
  mret {| rv_valid := bool_decide (length missing = 0%nat);
          missing_topics := missing;
          additional_recommendations := additional;
          validation_messages := messages validation_results;
          rv_validation_date := now2 |}.

End Validator.
End PMBOKGuardRails.

(** ** Auxiliary notions used in the statements *)

(** The branch of the chain that a line selects. *)
Fixpoint selected (fs : list field) (line : str) : option field :=
  match fs with
  | [] => None
  | f :: fs' => if contains (label f) line then Some f else selected fs' line
  end.

(** A branch that cannot let an exception escape: it is guarded, or its
    label is non-empty and its conversion never fails. *)
Definition field_safe (f : field) : Prop :=
  guarded f = true ∨ (label f ≠ [] ∧ ∀ s, ∃ v, convert f s = Ok v).

(** The value a line would store: the conversion of what follows the label. *)
Definition line_value (f : field) (line : str) : res value :=
  part ← index (split_on (label f) line) 1; convert f (strip part).

(** The EVM keys of a record hold floats when present, as the extractors
    store them. *)
Definition float_or_absent (st : dict) (k : str) : bool :=
  match st !! k with
  | None | Some (VFloat _) => true
  | Some _ => false
  end.

Definition evm_keys : list str :=
  [py "spi"; py "cpi"; py "valor_agregado"; py "valor_planejado"; py "custo_real"].

Definition evm_typed (st : dict) : bool := forallb (float_or_absent st) evm_keys.

(** A branch that stores under an EVM key stores a float. *)
Definition field_typed (f : field) : Prop :=
  key f ∉ evm_keys ∨ ∀ s v, convert f s = Ok v → ∃ q, v = VFloat q.

(** A schedule report whose SPI line does not parse. *)
Definition report_text : str :=
  py "Status atual: Em andamento
Percentual de conclusão: 45.5%
Atraso atual: 12 dias
Índice de Desempenho de Cronograma (SPI): abc
Valor Planejado (PV): R$ 250000.00
Valor Agregado (EV): R$ 212500.00
Tarefas críticas:
- Tarefa A
- Tarefa B

Tarefas atrasadas:
- T3
".

(** The spec's derivation example: EV = 212500, PV = 250000. *)
Definition record_ev_pv : dict :=
  <[py "valor_planejado" := VFloat (fl 250000)]>
    (<[py "valor_agregado" := VFloat (fl 212500)]> ∅).

(** Notions for the statements about the rule engine. *)
Module GuardRailSpec.
Import PMBOKGuardRails.

(** The rule's condition evaluates to true on the data. *)
Definition fires (data : dict) (r : rule) : bool :=
  match r_condition r data with Ok true => true | _ => false end.

(** What one rule contributes to the message list. *)
Definition rule_outcome (data : dict) (r : rule) : option msg :=
  match r_condition r data with
  | Ok true => Some (fired_message r)
  | Ok false => None
  | Raise e => Some (error_message r e)
  end.

(** [requirement_<rule_id>_met] is present and truthy in the data. *)
Definition requirement_flag_set (data : dict) (r : rule) : Prop :=
  ∃ v, data !! (py "requirement_" ++ r_id r ++ py "_met") = Some v
       ∧ truthy v = true.

(** A fired rule that does not invalidate the result. *)
Definition rule_ok (data : dict) (r : rule) : bool :=
  negb (fires data r && bool_decide (r_action r = require)
        && negb (truthy (_check_requirement_met r data))).

Definition known_domains : list str :=
  [py "cronograma"; py "custos"; py "escopo"; py "riscos"].

Definition is_record (m : msg) : Prop :=
  match m with MsgRule _ _ _ _ => True | MsgText _ => False end.

(** The topic is covered by the recommendations. *)
Definition covered `{Runtime} (topic : str) (recommendations : list str) : Prop :=
  _topic_covered_in_recommendations topic recommendations = true.

#[global] Instance covered_dec `{Runtime} (topic : str)
    (recommendations : list str) : Decision (covered topic recommendations).
Proof. unfold covered. apply _. Defined.

(** Example data: test_system.py, lines 372-378, and variations. *)
Definition schedule_data : dict :=
  <[py "replanejamento" := VBool true]>
  (<[py "tarefas_criticas" := VList [py "Tarefa 1"; py "Tarefa 2"]]>
  (<[py "duracao_planejada" := VInt 100]>
  (<[py "atraso_dias" := VInt 15]>
  (<[py "spi" := VFloat (fl 0.75)]> ∅)))).

Definition broken_data : dict :=
  <[py "replanejamento" := VBool true]>
  (<[py "duracao_planejada" := VInt 100]>
  (<[py "atraso_dias" := VStr (py "quinze")]> ∅)).

Definition flagged_data : dict :=
  <[py "requirement_SCH-002_met" := VBool true]>
  (<[py "spi" := VFloat (fl 0.85)]> ∅).

Definition unflagged_data : dict := <[py "spi" := VFloat (fl 0.85)]> ∅.

(** test_system.py, lines 399-403. *)
Definition schedule_recommendations : list str :=
  [py "Revisar o caminho crítico e identificar oportunidades de fast-tracking";
   py "Alocar recursos adicionais para as tarefas críticas";
   py "Implementar horas extras para recuperar o atraso"].

End GuardRailSpec.

(** Notions for the statements about pattern-based extraction. *)
Module ProcessorSpec.
Import StatusTextProcessor.

(** The numeric entries of the metrics dict and their patterns. *)
Definition numeric_metrics : list (str * pattern_key) :=
  [(py "completion_percentage", k_completion_percentage);
   (py "spi", k_spi); (py "cpi", k_cpi); (py "budget", k_budget);
   (py "actual_cost", k_actual_cost); (py "delay_days", k_delay_days)].

(** The performance index stored under [k], if any. *)
Definition index_at (d : dict) (k : str) : option Qc := d !! k ≫= as_number.

(** The spec's end-to-end text. *)
Definition scenario_text : str :=
  py "50% concluído... SPI de 0.85... Atraso de 10 dias".

(** The example of the source (nlp_processor.py, line 109) and the sample
    file it writes (lines 119-121). *)
Definition comment_text : str :=
  py "Status do PROJ-001: 50% concluído. SPI de 0.8. Atraso de 10 dias.".

Definition sample_text : str :=
  py "Status do PROJ-001: O projeto está 50% concluído. O SPI atual é de 0.85. Temos um atraso de 10 dias. O orçamento é R$ 100.000,00 e o custo atual R$ 60.000,00. Foi identificado um novo risco. Gerente: João Silva. Data do relatório: 10/07/2025.".

(** The same report with the index written after a separator. *)
Definition labelled_text : str :=
  py "50% concluído... SPI: 0.85... Atraso de 10 dias".

(** A monetary amount followed by a comma. *)
Definition comma_text : str := py "O custo atual R$ 2,5, sem atraso".

(** The amounts of the source's sample file (lines 119-121), the last one
    followed by a comma. *)
Definition comma_report : str :=
  py "O orçamento é R$ 100.000,00 e o custo atual R$ 60.000,00, dentro do previsto.".

(** The amount of [comma_text] on a labelled line of a cost report. *)
Definition comma_cost_line : str := py "Custo real atual: R$ 2,5,".

End ProcessorSpec.

(** ** Further notions for the extractors and classifiers *)

(** The two label-based extractors side by side. *)
Inductive report_kind := Schedule | Cost.

Definition fields_of `{Runtime} (k : report_kind) : list field :=
  match k with Schedule => schedule_fields | Cost => cost_fields end.

Definition extract `{Runtime} (k : report_kind) : str → res dict :=
  match k with
  | Schedule => _extract_schedule_status
  | Cost => _extract_cost_status
  end.

(** The health statuses from worst to best. *)
Definition rank (s : health_status) : nat :=
  match s with
  | unknown => 0
  | severe => 1
  | critical => 2
  | warning => 3
  | good => 4
  | excellent => 5
  end.

(** A report with two SPI lines and a second, unparsable, PV line. *)
Definition revised_report : str :=
  py "Índice de Desempenho de Cronograma (SPI): 0.80
Valor Planejado (PV): 1000
Índice de Desempenho de Cronograma (SPI): 0.95
Valor Planejado (PV): mil".

(** ** Further notions for the rule engine *)

Module GuardRailMore.
Import PMBOKGuardRails GuardRailSpec.

(** The ids of the rules whose own message (not an error message) is in
    the list. *)
Definition fired_ids (ms : list msg) : list str :=
  omap (λ m, match m with
             | MsgRule i _ _ a => if bool_decide (a = error) then None else Some i
             | MsgText _ => None
             end) ms.

(** The key of a rule's requirement flag. *)
Definition requirement_key (r : rule) : str :=
  py "requirement_" ++ r_id r ++ py "_met".

(** The data with the requirement flag of every rule of [rs] set. *)
Definition with_flags (rs : list rule) (data : dict) : dict :=
  foldr (λ r d, <[requirement_key r := VBool true]> d) data rs.

(** The value under [k] is a number below (above) [c]. *)
Definition reads_below (data : dict) (k : string) (c : Qc) : Prop :=
  ∃ q, as_number (get data (py k)) = Some q ∧ (q < c)%Qc.

Definition reads_above (data : dict) (k : string) (c : Qc) : Prop :=
  ∃ q, as_number (get data (py k)) = Some q ∧ (c < q)%Qc.

End GuardRailMore.

(** A status text that speaks of a scope change and of a threat. *)
Definition scope_change_report : str :=
  py "Houve mudança de escopo e alteração de escopo; há uma ameaça ao prazo.".

(** ** The rest of the agents: header, recommendations, analysis *)

(** [ScheduleAgent._extract_project_info] and
    [CostAgent._extract_project_info] (lines 76-103 of both files; the two
    bodies are the same). One turn of the loop over the first lines: *)
Definition project_step (line : str) (project_info : dict) : res dict :=
  if contains (py "Projeto:") line then
    p ← index (split_on (py "Projeto:") line) 1;
    let parts := split_on (py "(") (strip p) in
    if decide (1 < length parts)%nat then
      p0 ← index parts 0;
      p1 ← index parts 1;
      mret (<[py "id" := VStr (strip (replace (py ")") [] p1))]>
              (<[py "nome" := VStr (strip p0)]> project_info))
    else
      p0 ← index parts 0;
      mret (<[py "nome" := VStr (strip p0)]> project_info)
  else if contains (py "Data:") line then
    p ← index (split_on (py "Data:") line) 1;
    mret (<[py "data_relatorio" := VStr (strip p)]> project_info)
  else if contains (py "Gerente:") line then
    p ← index (split_on (py "Gerente:") line) 1;
    mret (<[py "gerente" := VStr (strip p)]> project_info)
  else mret project_info.

Definition _extract_project_info (content : str) : res dict :=
  for_each project_step (take 10 (lines_of content)) ∅.

Definition project_keys : list str :=
  [py "nome"; py "id"; py "data_relatorio"; py "gerente"].

(** The shape of a header record. *)
Definition header_shaped (info : dict) : Prop :=
  (∀ k v, info !! k = Some v → k ∈ project_keys ∧ ∃ s, v = VStr s) ∧
  (is_Some (info !! py "id") → is_Some (info !! py "nome")).

(** [s[i]] on a string. *)
Definition char_at (s : str) (i : nat) : res N :=
  match s !! i with
  | Some c => Ok c
  | None => Raise (IndexError (py "string index out of range"))
  end.

(** The test of [_extract_recommendations_from_llm] on a stripped line. *)
Definition numbered_or_bullet (line : str) : bool :=
  startswith (py "1.") line || startswith (py "2.") line
  || startswith (py "3.") line || startswith (py "4.") line
  || startswith (py "5.") line || startswith (py "-") line.

(** [ScheduleAgent._extract_recommendations_from_llm] (lines 336-357) and
    [CostAgent._extract_recommendations_from_llm] (lines 360-381), the same
    body. One turn of the loop: *)
Definition recommendation_step (line : str) (recommendations : list str)
  : res (list str) :=
  let line := strip line in
  if numbered_or_bullet line then
    c ← char_at line 1;
    let clean_line :=
      if (c =? 46)%N then strip (drop 2 line) else strip (drop 1 line) in
    mret (recommendations ++ [clean_line])
  else mret recommendations.

Definition _extract_recommendations_from_llm (llm_response : str)
  : res (list str) :=
  for_each recommendation_step (lines_of llm_response) [].

(** What is kept of a stripped line that passes the test. *)
Definition clean_item (line : str) : str :=
  match line !! 1%nat with
  | Some c => if (c =? 46)%N then strip (drop 2 line) else strip (drop 1 line)
  | None => strip (drop 1 line)
  end.

(** *** Failures and services of the LLM branch *)

(** The exceptions of [exn], and the [KeyError] of a dict subscript and of
    [str.format]. *)
Inductive failure :=
| Exn (e : exn)
| KeyError (key : str).

Inductive outcome (A : Type) :=
| Returns (a : A)
| Raises (f : failure).
Arguments Returns {A} a.
Arguments Raises {A} f.

#[global] Instance outcome_ret : MRet outcome := λ A a, Returns a.
#[global] Instance outcome_bind : MBind outcome := λ A B f c,
  match c with Returns a => f a | Raises e => Raises e end.

Definition lift {A} (c : res A) : outcome A :=
  match c with Ok a => Returns a | Raise e => Raises (Exn e) end.

(** What the agents take from outside: [str(v)] of a value that is not a
    string; [format(v, spec)] other than of a string with the empty
    specification; [PMBOKRAGSystem.query] (rag_system_pmbok.py, lines
    343-372), which runs the embedding model and the index and returns
    documents as dicts; the order in which a dict of categories is
    iterated. *)
Class Services := {
  py_str : value → str;
  py_format : value → str → outcome str;
  query : str → outcome (list dict);
  items : gmap str (Qc * option Qc) → list (str * (Qc * option Qc));
}.

(** A format string, parsed: literal texts and replacement fields
    [{name:spec}]. *)
Inductive piece :=
| Text (s : str)
| Field (name spec : str).

Definition nl : str := [10%N].
Definition pad (n : nat) : str := repeat 32%N n.

(** [d[k]] on a dict. *)
Definition subscript (d : dict) (k : str) : outcome value :=
  match d !! k with
  | Some v => Returns v
  | None => Raises (KeyError k)
  end.

Section Prompt.
Context `{Runtime} `{Services}.

(** [f"{v}"]: [format(v, "")], which is [str(v)]. *)
Definition to_text (v : value) : str :=
  match v with VStr s => s | _ => py_str v end.

(** [f"{v:.2f}"] *)
Definition to_fixed2 (v : value) : outcome str :=
  match v with
  | VFloat q => Returns (py_fmt2 q)
  | _ => py_format v (py ".2f")
  end.

(** [format(v, spec)] as [str.format] applies it to the value of a field. *)
Definition format_field (v : value) (spec : str) : outcome str :=
  match v, spec with
  | VStr s, [] => Returns s
  | _, _ => py_format v spec
  end.

(** [template.format] with the keyword arguments [kwargs]: the fields are
    looked up and formatted from left to right. *)
Fixpoint str_format (template : list piece) (kwargs : dict) : outcome str :=
  match template with
  | [] => Returns []
  | Text s :: rest => r ← str_format rest kwargs; mret (s ++ r)
  | Field name spec :: rest =>
      v ← subscript kwargs name;
      s ← format_field v spec;
      r ← str_format rest kwargs;
      mret (s ++ r)
  end.

(** The default template of [augment_prompt] (lines 395-404). *)
Definition default_template : list piece := [
  Text (nl ++ pad 12 ++ py "Com base nas melhores práticas do PMBOK para gerenciamento de ");
  Field (py "domain") [];
  Text (py ", analise a seguinte situação:" ++ nl ++ pad 12 ++ nl ++ pad 12);
  Field (py "query") [];
  Text (nl ++ pad 12 ++ nl ++ pad 12 ++ py "Conhecimento relevante do PMBOK:" ++ nl ++ pad 12);
  Field (py "knowledge") [];
  Text (nl ++ pad 12 ++ nl ++ pad 12 ++ py "Considerando as melhores práticas acima, forneça uma análise detalhada e recomendações:" ++ nl ++ pad 12)
].

(** The loop of [augment_prompt] over the documents (lines 389-391). *)
Fixpoint knowledge_of (relevant_docs : list dict) (knowledge : str)
  : outcome str :=
  match relevant_docs with
  | [] => Returns knowledge
  | doc :: rest =>
      title ← subscript doc (py "title");
      content ← subscript doc (py "content");
      knowledge_of rest
        (knowledge ++ py "- " ++ to_text title ++ py ": " ++ to_text content
         ++ nl ++ nl)
  end.

(** [PMBOKRAGSystem.augment_prompt] (rag_system_pmbok.py, lines 374-413);
    [domain] is [self.domain]. *)
Definition augment_prompt (domain : str) (query_text : str)
    (template : option (list piece)) : outcome str :=
  relevant_docs ← query query_text;
  knowledge ← knowledge_of relevant_docs [];
  let template := default default_template template in
  str_format template
    (<[py "knowledge" := VStr knowledge]>
       (<[py "query" := VStr query_text]>
          (<[py "domain" := VStr domain]> ∅))).

(** [', '.join(v)]: the strings that iterating over [v] gives. *)
Definition joined (v : value) : outcome (list str) :=
  match v with
  | VList l => Returns l
  | VStr s => Returns ((λ c, [c]) <$> s)
  | VCats m => Returns ((items m).*1)
  | _ => Raises (Exn (TypeError (py "can only join an iterable")))
  end.


End Prompt.

(** *** ScheduleAgent *)

Module ScheduleAgent.

Definition advice_none : list str :=
  [py "Estabelecer métricas de valor agregado (EV) e valor planejado (PV) para calcular o SPI";
   py "Implementar um sistema de monitoramento de cronograma mais detalhado";
   py "Revisar o plano de gerenciamento do cronograma"].

Definition advice_below_070 : list str :=
  [py "Realizar reunião de emergência com a equipe do projeto e stakeholders";
   py "Revisar o caminho crítico e identificar oportunidades de fast-tracking";
   py "Alocar recursos adicionais para as tarefas críticas";
   py "Considerar a revisão da linha de base do cronograma";
   py "Implementar monitoramento diário das tarefas críticas";
   py "Avaliar a possibilidade de redução de escopo (com aprovação dos stakeholders)"].

Definition advice_below_085 : list str :=
  [py "Revisar o caminho crítico e identificar oportunidades de otimização";
   py "Implementar horas extras para recuperar o atraso";
   py "Monitorar de perto as tarefas críticas";
   py "Revisar as dependências entre tarefas para otimização";
   py "Comunicar o status aos stakeholders e discutir estratégias de recuperação"].

Definition advice_below_095 : list str :=
  [py "Monitorar de perto as tarefas críticas";
   py "Identificar potenciais riscos que possam causar mais atrasos";
   py "Revisar a alocação de recursos para otimização";
   py "Implementar reuniões de acompanhamento mais frequentes"].

Definition advice_below_105 : list str :=
  [py "Manter o monitoramento regular do cronograma";
   py "Continuar com as práticas atuais de gerenciamento";
   py "Documentar lições aprendidas para projetos futuros"].

Definition advice_otherwise : list str :=
  [py "Verificar se a qualidade está sendo mantida apesar do avanço rápido";
   py "Considerar realocação de recursos para outros projetos prioritários";
   py "Documentar as práticas bem-sucedidas para projetos futuros";
   py "Revisar as estimativas para projetos futuros"].

(** The template handed to [augment_prompt] (lines 312-322). *)
Definition template : list piece := [
  Text (nl ++ pad 16 ++ py "Com base nas melhores práticas do PMBOK para gerenciamento de cronograma, analise a seguinte situação:" ++ nl ++ pad 16 ++ nl ++ pad 16);
  Field (py "query") [];
  Text (nl ++ pad 16 ++ nl ++ pad 16 ++ py "Conhecimento relevante do PMBOK:" ++ nl ++ pad 16);
  Field (py "knowledge") [];
  Text (nl ++ pad 16 ++ nl ++ pad 16 ++ py "Considerando as melhores práticas acima e o SPI de ");
  Field (py "spi") (py ".2f");
  Text (py ", forneça 3-5 recomendações específicas e acionáveis para melhorar o desempenho do cronograma:" ++ nl ++ pad 16)
].

Section Agent.
Context `{Runtime} `{Services}.

(** The chain on the SPI (lines 249-292). *)
Definition advice (spi : value) : outcome (list str) :=
  if is_None spi then mret advice_none
  else
    b ← lift (py_lt spi (VFloat (fl 0.7)));
    if (b : bool) then mret advice_below_070 else
    b ← lift (py_lt spi (VFloat (fl 0.85)));
    if (b : bool) then mret advice_below_085 else
    b ← lift (py_lt spi (VFloat (fl 0.95)));
    if (b : bool) then mret advice_below_095 else
    b ← lift (py_lt spi (VFloat (fl 1.05)));
    if (b : bool) then mret advice_below_105 else
    mret advice_otherwise.

(** The recommendation on the delayed tasks (lines 294-296). *)
Definition focus_on_delayed (schedule_status : dict)
    (recommendations : list str) : outcome (list str) :=
  let tarefas := get schedule_status (py "tarefas_atrasadas") in
  if truthy tarefas then
    n ← lift (py_len tarefas);
    if 0 <? n then
      names ← joined tarefas;
      mret (recommendations
            ++ [py "Focar nas tarefas atrasadas: " ++ join (py ", ") names])
    else mret recommendations
  else mret recommendations.

(** The query sent to the RAG system (lines 300-307). *)
Definition context (spi : value) (schedule_status project_info : dict)
  : outcome str :=
  let unspecified := VStr (py "Não especificado") in
  spi_text ← to_fixed2 spi;
  mret (nl ++ pad 12 ++ py "Projeto: "
        ++ to_text (get_or project_info (py "nome") unspecified)
        ++ nl ++ pad 12 ++ py "Status atual: "
        ++ to_text (get_or schedule_status (py "status") unspecified)
        ++ nl ++ pad 12 ++ py "SPI: " ++ spi_text
        ++ nl ++ pad 12 ++ py "Percentual de conclusão: "
        ++ to_text (get_or schedule_status (py "percentual_conclusao") unspecified)
        ++ py "%" ++ nl ++ pad 12 ++ py "Atraso: "
        ++ to_text (get_or schedule_status (py "atraso_dias") unspecified)
        ++ py " dias" ++ nl ++ pad 12 ++ py "Motivo do atraso: "
        ++ to_text (get_or schedule_status (py "motivo_atraso") unspecified)
        ++ nl ++ pad 12).

(** [ScheduleAgent._generate_recommendations] (lines 234-334);
    [llm_interface] is [self.llm_interface], an object with the method
    [generate_text], or [None]. *)
Definition _generate_recommendations
    (llm_interface : option (str → outcome str))
    (schedule_status project_info : dict) : outcome (list str) :=
  let spi := get schedule_status (py "spi") in
  recommendations ← advice spi;
  recommendations ← focus_on_delayed schedule_status recommendations;
  match llm_interface with
  | Some generate_text =>
      if negb (is_None spi) then
        context ← context spi schedule_status project_info;
        augmented_prompt ←
          augment_prompt (py "cronograma") context (Some template);
        llm_response ← generate_text augmented_prompt;
        llm_recommendations ←
          lift (_extract_recommendations_from_llm llm_response);
        if bool_decide (llm_recommendations = [])
        then mret recommendations
        else mret (recommendations ++ llm_recommendations)
      else mret recommendations
  | None => mret recommendations
  end.

(** The result of a successful analysis. *)
Record analysis := {
  project_info : dict;
  schedule_status : dict;
  schedule_health : health;
  recommendations : list str;
  analysis_date : str;
}.


End Agent.
End ScheduleAgent.

(** *** CostAgent *)

Module CostAgent.

Definition advice_none : list str :=
  [py "Estabelecer métricas de valor agregado (EV) e custo real (AC) para calcular o CPI";
   py "Implementar um sistema de monitoramento de custos mais detalhado";
   py "Revisar o plano de gerenciamento dos custos"].

Definition advice_below_07 : list str :=
  [py "Realizar reunião de emergência com a equipe do projeto e stakeholders";
   py "Revisar todas as categorias de custo para identificar áreas de maior desvio";
   py "Implementar controles mais rigorosos para aprovação de despesas";
   py "Considerar a revisão do orçamento base";
   py "Avaliar a possibilidade de redução de escopo (com aprovação dos stakeholders)";
   py "Renegociar contratos com fornecedores"].

Definition advice_below_08 : list str :=
  [py "Revisar as categorias de custo com maior desvio";
   py "Implementar medidas de economia sem impactar a qualidade";
   py "Monitorar de perto todas as despesas futuras";
   py "Revisar processos para identificar ineficiências";
   py "Comunicar o status aos stakeholders e discutir estratégias de recuperação"].

Definition advice_below_09 : list str :=
  [py "Monitorar de perto as categorias de custo com maior desvio";
   py "Identificar potenciais riscos que possam causar mais desvios";
   py "Revisar a alocação de recursos para otimização";
   py "Implementar reuniões de acompanhamento de custos mais frequentes"].

Definition advice_below_10 : list str :=
  [py "Manter o monitoramento regular dos custos";
   py "Implementar pequenas medidas de economia";
   py "Revisar estimativas para atividades futuras"].

Definition advice_below_11 : list str :=
  [py "Manter o monitoramento regular dos custos";
   py "Continuar com as práticas atuais de gerenciamento";
   py "Documentar lições aprendidas para projetos futuros"].

Definition advice_otherwise : list str :=
  [py "Verificar se a qualidade está sendo mantida apesar dos custos reduzidos";
   py "Considerar realocação de recursos para outros projetos prioritários";
   py "Documentar as práticas bem-sucedidas para projetos futuros";
   py "Revisar as estimativas para projetos futuros"].

(** The template handed to [augment_prompt] (lines 336-346). *)
Definition template : list piece := [
  Text (nl ++ pad 16 ++ py "Com base nas melhores práticas do PMBOK para gerenciamento de custos, analise a seguinte situação:" ++ nl ++ pad 16 ++ nl ++ pad 16);
  Field (py "query") [];
  Text (nl ++ pad 16 ++ nl ++ pad 16 ++ py "Conhecimento relevante do PMBOK:" ++ nl ++ pad 16);
  Field (py "knowledge") [];
  Text (nl ++ pad 16 ++ nl ++ pad 16 ++ py "Considerando as melhores práticas acima e o CPI de ");
  Field (py "cpi") (py ".2f");
  Text (py ", forneça 3-5 recomendações específicas e acionáveis para melhorar o desempenho dos custos:" ++ nl ++ pad 16)
].

(** The loop over the categories (lines 313-318): the name and the value
    of the first category of largest positive value. *)
Definition largest_category (categories : list (str * (Qc * option Qc)))
  : option str * Qc :=
  foldl (λ acc entry,
           if bool_decide (acc.2 < entry.2.1)%Qc
           then (Some entry.1, entry.2.1) else acc)
        (None, 0%Qc) categories.

Section Agent.
Context `{Runtime} `{Services}.

(** The chain on the CPI (lines 258-306). *)
Definition advice (cpi : value) : outcome (list str) :=
  if is_None cpi then mret advice_none
  else
    b ← lift (py_lt cpi (VFloat (fl 0.7)));
    if (b : bool) then mret advice_below_07 else
    b ← lift (py_lt cpi (VFloat (fl 0.8)));
    if (b : bool) then mret advice_below_08 else
    b ← lift (py_lt cpi (VFloat (fl 0.9)));
    if (b : bool) then mret advice_below_09 else
    b ← lift (py_lt cpi (VFloat (fl 1.0)));
    if (b : bool) then mret advice_below_10 else
    b ← lift (py_lt cpi (VFloat (fl 1.1)));
    if (b : bool) then mret advice_below_11 else
    mret advice_otherwise.

(** [cost_status['categorias_custos'].items()] *)
Definition items_of (v : value) : outcome (list (str * (Qc * option Qc))) :=
  match v with
  | VCats m => Returns (items m)
  | _ => Raises (Exn (AttributeError (py "'" ++ type_name v
                        ++ py "' object has no attribute 'items'")))
  end.

(** The recommendation on the largest category (lines 308-321). *)
Definition focus_on_category (cost_status : dict) (cpi : value)
    (recommendations : list str) : outcome (list str) :=
  let categorias := get cost_status (py "categorias_custos") in
  if truthy categorias then
    categories ← items_of categorias;
    match (largest_category categories).1 with
    | Some maior_categoria =>
        if bool_decide (maior_categoria ≠ []) then
          b ← lift (py_lt cpi (VFloat (fl 0.9)));
          if (b : bool)
          then mret (recommendations
                     ++ [py "Focar na redução de custos na categoria: "
                         ++ maior_categoria])
          else mret recommendations
        else mret recommendations
    | None => mret recommendations
    end
  else mret recommendations.

(** The query sent to the RAG system (lines 325-331). *)
Definition context (cpi : value) (cost_status project_info : dict)
  : outcome str :=
  let unspecified := VStr (py "Não especificado") in
  cpi_text ← to_fixed2 cpi;
  mret (nl ++ pad 12 ++ py "Projeto: "
        ++ to_text (get_or project_info (py "nome") unspecified)
        ++ nl ++ pad 12 ++ py "CPI: " ++ cpi_text
        ++ nl ++ pad 12 ++ py "Orçamento inicial: R$ "
        ++ to_text (get_or cost_status (py "orcamento_inicial") unspecified)
        ++ nl ++ pad 12 ++ py "Custo real atual: R$ "
        ++ to_text (get_or cost_status (py "custo_real") unspecified)
        ++ nl ++ pad 12 ++ py "Desvio orçamentário: "
        ++ to_text (get_or cost_status (py "desvio_orcamento") unspecified)
        ++ py "%" ++ nl ++ pad 12).

(** [CostAgent._generate_recommendations] (lines 243-358). *)
Definition _generate_recommendations
    (llm_interface : option (str → outcome str))
    (cost_status project_info : dict) : outcome (list str) :=
  let cpi := get cost_status (py "cpi") in
  recommendations ← advice cpi;
  recommendations ← focus_on_category cost_status cpi recommendations;
  match llm_interface with
  | Some generate_text =>
      if negb (is_None cpi) then
        context ← context cpi cost_status project_info;
        augmented_prompt ←
          augment_prompt (py "custos") context (Some template);
        llm_response ← generate_text augmented_prompt;
        llm_recommendations ←
          lift (_extract_recommendations_from_llm llm_response);
        if bool_decide (llm_recommendations = [])
        then mret recommendations
        else mret (recommendations ++ llm_recommendations)
      else mret recommendations
  | None => mret recommendations
  end.

Record analysis := {
  project_info : dict;
  cost_status : dict;
  cost_health : health;
  recommendations : list str;
  analysis_date : str;
}.


End Agent.
End CostAgent.

(** A plain instance of the services for the concrete runs: no document is
    retrieved, a category dict is iterated in the order of its keys. *)
Definition plain_services : Services := {|
  py_str := λ _, py "?";
  py_format := λ _ _, Raises (Exn (ValueError (py "Invalid format specifier")));
  query := λ _, Returns [];
  items := map_to_list;
|}.

(** An LLM interface that always answers with the same numbered list. *)
Definition canned_answer : str → outcome str :=
  λ _, Returns (py "1. Revisar o caminho crítico
2. Alocar recursos adicionais").

Definition canned_llm : option (str → outcome str) := Some canned_answer.

(** An answer of an LLM with a separator line made of a single hyphen. *)
Definition answer_with_rule : str :=
  py "Recomendações:
-
1. Revisar o caminho crítico".

(** A cost report with a category but no index and no earned value. *)
Definition categories_only_report : str :=
  py "Projeto: Portal (PROJ-7)
Detalhamento por categoria:
- Pessoal: R$ 100.00 (50%)
".

(** *** Notions for the statements about the recommendations *)


(** The schedule advice by health status. *)
Definition schedule_advice_of (s : health_status) : list str :=
  match s with
  | unknown => ScheduleAgent.advice_none
  | severe => ScheduleAgent.advice_below_070
  | critical => ScheduleAgent.advice_below_085
  | warning => ScheduleAgent.advice_below_095
  | good => ScheduleAgent.advice_below_105
  | excellent => ScheduleAgent.advice_otherwise
  end.

(** The recommendation on the delayed tasks of a record. *)
Definition delayed_note (st : dict) : list str :=
  match get st (py "tarefas_atrasadas") with
  | VList (t :: ts) =>
      [py "Focar nas tarefas atrasadas: " ++ join (py ", ") (t :: ts)]
  | _ => []
  end.

(** The cost advice by health status; the [severe] band has two lists,
    split at 0.7. *)
Definition cost_advice_of (s : health_status) (cpi : Qc) : list str :=
  match s with
  | unknown => CostAgent.advice_none
  | severe => if decide (cpi < fl 0.7)%Qc then CostAgent.advice_below_07
              else CostAgent.advice_below_08
  | critical => CostAgent.advice_below_09
  | warning => CostAgent.advice_below_10
  | good => CostAgent.advice_below_11
  | excellent => CostAgent.advice_otherwise
  end.

(** The name of the largest category of a record, when it has one and the
    name is not empty. *)
Definition named_largest `{Services} (st : dict) : option str :=
  match get st (py "categorias_custos") with
  | VCats m =>
      if decide (m = ∅) then None
      else match (CostAgent.largest_category (items m)).1 with
           | Some name => if decide (name = []) then None else Some name
           | None => None
           end
  | _ => None
  end.


Definition category_note (name : str) : list str :=
  [py "Focar na redução de custos na categoria: " ++ name].

(** A document with a title and a content, as [augment_prompt] reads it. *)
Definition titled (doc : dict) : Prop :=
  is_Some (doc !! py "title") ∧ is_Some (doc !! py "content").

(** A cost record with one category and no index. *)
Definition categories_record : dict :=
  <[py "categorias_custos" := VCats (<[py "Pessoal" := (fl 100, Some (fl 50))]> ∅)]> ∅.

(** A schedule record with an index and two delayed tasks. *)
Definition delayed_record : dict :=
  <[py "tarefas_atrasadas" := VList [py "T1"; py "T2"]]>
    (<[py "spi" := VFloat (fl 0.8)]> ∅).

(** The cost record with an index below the warning band. *)
Definition over_budget_record : dict :=
  <[py "cpi" := VFloat (fl 0.85)]> categories_record.

(** * Theorems *)

(** A computed entry of a mapping; two floats are equal when their
    fractions are. *)
Ltac computed_entry :=
  vm_compute;
  first [ reflexivity | do 2 f_equal; apply Qc_is_canon; reflexivity ].

Lemma Ok_inj {A} (a b : A) : Ok a = Ok b → a = b.
Proof. by intros [= ->]. Qed.

Section HealthFacts.
Context `{Runtime}.

(** Order facts between an index and the decimal thresholds, by linear
    arithmetic over [Q]. *)
Ltac qc_order :=
  unfold Qcle, Qclt, fl in *; cbn [this Q2Qc] in *;
  repeat match goal with
    | H : context [Qred ?q] |- _ =>
        let r := eval vm_compute in (Qred q) in change (Qred q) with r in H
    | |- context [Qred ?q] =>
        let r := eval vm_compute in (Qred q) in change (Qred q) with r
    end;
  lra.

Ltac bands :=
  repeat case_decide; simpl; split; intros Hb;
  try discriminate Hb; try reflexivity;
  try match type of Hb with _ ∧ _ => destruct Hb end;
  first [ split; qc_order | exfalso; qc_order | qc_order ].

Lemma cost_bands (cpi : Qc) :
  let s := status (_evaluate_cost_health (Some cpi)) in
  (s = excellent ↔ (fl 1.10 ≤ cpi)%Qc) ∧
  (s = good ↔ (fl 1.00 ≤ cpi < fl 1.10)%Qc) ∧
  (s = warning ↔ (fl 0.90 ≤ cpi < fl 1.00)%Qc) ∧
  (s = critical ↔ (fl 0.80 ≤ cpi < fl 0.90)%Qc) ∧
  (s = severe ↔ (cpi < fl 0.80)%Qc).
Proof.
  cbv zeta. unfold _evaluate_cost_health. repeat split_and; bands.
Qed.

Lemma schedule_bands (spi : Qc) :
  let s := status (_evaluate_schedule_health (Some spi)) in
  (s = excellent ↔ (fl 1.05 ≤ spi)%Qc) ∧
  (s = good ↔ (fl 0.95 ≤ spi < fl 1.05)%Qc) ∧
  (s = warning ↔ (fl 0.85 ≤ spi < fl 0.95)%Qc) ∧
  (s = critical ↔ (fl 0.70 ≤ spi < fl 0.85)%Qc) ∧
  (s = severe ↔ (spi < fl 0.70)%Qc).
Proof.
  cbv zeta. unfold _evaluate_schedule_health. repeat split_and; bands.
Qed.

End HealthFacts.

(** C1. Health classification follows the ordered banding with inclusive
    lower bounds, the first matching band winning. Cost: an absent index
    gives [unknown]; CPI >= 1.10 gives [excellent], 1.00 <= CPI < 1.10
    [good], 0.90 <= CPI < 1.00 [warning], 0.80 <= CPI < 0.90 [critical],
    CPI < 0.80 [severe]. Schedule: an absent index gives [unknown]; SPI >=
    1.05 gives [excellent], 0.95 <= SPI < 1.05 [good], 0.85 <= SPI < 0.95
    [warning], 0.70 <= SPI < 0.85 [critical], SPI < 0.70 [severe]. Each
    status is returned on its band and nowhere else, for every index value;
    in particular CPI = 1.10 is [excellent], CPI = 1.099999 is [good],
    SPI = 0.70 is [critical] and SPI = 0.699999 is [severe]. *)
Theorem health_banding `{Runtime} :
  status (_evaluate_cost_health None) = unknown ∧
  status (_evaluate_schedule_health None) = unknown ∧
  (∀ cpi : Qc,
     let s := status (_evaluate_cost_health (Some cpi)) in
     (s = excellent ↔ (fl 1.10 ≤ cpi)%Qc) ∧
     (s = good ↔ (fl 1.00 ≤ cpi < fl 1.10)%Qc) ∧
     (s = warning ↔ (fl 0.90 ≤ cpi < fl 1.00)%Qc) ∧
     (s = critical ↔ (fl 0.80 ≤ cpi < fl 0.90)%Qc) ∧
     (s = severe ↔ (cpi < fl 0.80)%Qc)) ∧
  (∀ spi : Qc,
     let s := status (_evaluate_schedule_health (Some spi)) in
     (s = excellent ↔ (fl 1.05 ≤ spi)%Qc) ∧
     (s = good ↔ (fl 0.95 ≤ spi < fl 1.05)%Qc) ∧
     (s = warning ↔ (fl 0.85 ≤ spi < fl 0.95)%Qc) ∧
     (s = critical ↔ (fl 0.70 ≤ spi < fl 0.85)%Qc) ∧
     (s = severe ↔ (spi < fl 0.70)%Qc)) ∧
  status (_evaluate_cost_health (Some (fl 1.10))) = excellent ∧
  status (_evaluate_cost_health (Some (fl 1.099999))) = good ∧
  status (_evaluate_schedule_health (Some (fl 0.70))) = critical ∧
  status (_evaluate_schedule_health (Some (fl 0.699999))) = severe.
Proof.
  split_and!; try reflexivity.
  - apply cost_bands.
  - apply schedule_bands.
Qed.

(** ** Strings *)

Lemma split_go_length (sep : str) (s : str) :
  ∀ skip cur, (1 ≤ length (split_go sep skip cur s))%nat.
Proof.
  induction s as [|c s IH]; intros skip cur; simpl; [lia|].
  destruct skip; [|apply IH].
  destruct (startswith sep (c :: s)); [simpl; lia | apply IH].
Qed.

Lemma split_go_contains (sep : str) (s : str) :
  sep ≠ [] → contains sep s = true →
  ∀ cur, (2 ≤ length (split_go sep 0 cur s))%nat.
Proof.
  intros Hsep. induction s as [|c s IH]; intros Hc cur.
  - destruct sep; [done | discriminate].
  - cbn [split_go]. cbn [contains] in Hc.
    destruct (startswith sep (c :: s)) eqn:E.
    + pose proof (split_go_length sep s (length sep - 1) []). simpl. lia.
    + apply IH. exact Hc.
Qed.

(** After [label in line], [line.split(label)[1]] exists. *)
Lemma split_on_second (sep line : str) :
  sep ≠ [] → contains sep line = true →
  ∃ part, index (split_on sep line) 1 = Ok part.
Proof.
  intros Hsep Hc. unfold index, split_on.
  pose proof (split_go_contains sep line Hsep Hc []) as Hlen.
  destruct (lookup_lt_is_Some_2 (split_go sep 0 [] line) 1 ltac:(lia)) as [p Hp].
  exists p. by rewrite Hp.
Qed.

(** ** Label-based extraction *)

Lemma first_branch_selected fs line st :
  first_branch fs line st =
  match selected fs line with
  | Some f => run_branch f line st
  | None => Ok st
  end.
Proof.
  induction fs as [|f fs IH]; simpl; [done|].
  destruct (contains (label f) line); done.
Qed.

Lemma selected_elem fs line f :
  selected fs line = Some f → f ∈ fs ∧ contains (label f) line = true.
Proof.
  induction fs as [|g fs IH]; simpl; [done|].
  destruct (contains (label g) line) eqn:E.
  - intros [= ->]. split; [left | done].
  - intros Hs. destruct (IH Hs). split; [by right | done].
Qed.

Lemma run_branch_total f line st :
  field_safe f → contains (label f) line = true →
  ∃ st', run_branch f line st = Ok st'.
Proof.
  intros [Hg | [Hl Hc]] Hin; unfold run_branch.
  - rewrite Hg. eauto.
  - destruct (guarded f); [eauto|].
    unfold branch_body.
    destruct (split_on_second _ _ Hl Hin) as [part ->]. simpl.
    destruct (Hc (strip part)) as [v ->]. simpl. eauto.
Qed.

Lemma first_branch_total fs :
  Forall field_safe fs → ∀ line st, ∃ st', first_branch fs line st = Ok st'.
Proof.
  intros Hfs line st. rewrite first_branch_selected.
  destruct (selected fs line) as [f|] eqn:Hs; [|eauto].
  apply selected_elem in Hs as [Hf Hin].
  rewrite Forall_forall in Hfs. by apply run_branch_total; [apply Hfs|].
Qed.

Lemma for_each_total {S} (step : str → S → res S) :
  (∀ l st, ∃ st', step l st = Ok st') →
  ∀ lines st, ∃ st', for_each step lines st = Ok st'.
Proof.
  intros Hstep lines. induction lines as [|l ls IH]; intros st; simpl; [eauto|].
  destruct (Hstep l st) as [st' ->]. simpl. apply IH.
Qed.

Lemma branch_body_value f line st :
  branch_body f line st = (v ← line_value f line; mret (<[key f := v]> st)).
Proof.
  unfold branch_body, line_value.
  destruct (index (split_on (label f) line) 1); simpl; [|done].
  destruct (convert f (strip a)); done.
Qed.

(** A line whose conversion raises leaves the mapping as it was. *)
Lemma first_branch_failed fs line f e st :
  Forall field_safe fs →
  selected fs line = Some f →
  line_value f line = Raise e →
  first_branch fs line st = Ok st.
Proof.
  intros Hfs Hs Hv. rewrite first_branch_selected, Hs.
  pose proof (selected_elem _ _ _ Hs) as [Hf Hin].
  rewrite Forall_forall in Hfs. specialize (Hfs f Hf).
  unfold run_branch. rewrite branch_body_value, Hv. simpl.
  destruct Hfs as [-> | [Hl Hc]]; [done|].
  exfalso. unfold line_value in Hv.
  destruct (split_on_second _ _ Hl Hin) as [part Hp]. rewrite Hp in Hv.
  simpl in Hv. destruct (Hc (strip part)) as [v Hcv]. by rewrite Hcv in Hv.
Qed.

(** A key that no line stores successfully stays absent. *)
Lemma first_branch_keeps_absent fs line st st' k :
  Forall field_safe fs →
  (∀ f, selected fs line = Some f → key f = k → ∃ e, line_value f line = Raise e) →
  first_branch fs line st = Ok st' →
  st !! k = None → st' !! k = None.
Proof.
  intros Hfs Hfail Hrun Hk.
  destruct (selected fs line) as [f|] eqn:Hs.
  - destruct (decide (key f = k)) as [Hkey|Hkey].
    + destruct (Hfail f eq_refl Hkey) as [e He].
      rewrite (first_branch_failed fs line f e st Hfs Hs He) in Hrun.
      by injection Hrun as <-.
    + rewrite first_branch_selected, Hs in Hrun.
      unfold run_branch in Hrun. rewrite branch_body_value in Hrun.
      destruct (line_value f line) as [v|e]; simpl in Hrun.
      * assert (st' = <[key f := v]> st) as ->
          by (destruct (guarded f); by injection Hrun as <-).
        by rewrite lookup_insert_ne.
      * destruct (guarded f); [by injection Hrun as <- | done].
  - rewrite first_branch_selected, Hs in Hrun. by injection Hrun as <-.
Qed.

Lemma for_each_keeps_absent fs k lines :
  Forall field_safe fs →
  (∀ line f, line ∈ lines → selected fs line = Some f → key f = k →
             ∃ e, line_value f line = Raise e) →
  ∀ st st', for_each (first_branch fs) lines st = Ok st' →
            st !! k = None → st' !! k = None.
Proof.
  intros Hfs. induction lines as [|l ls IH]; intros Hfail st st' Hrun Hk.
  - simpl in Hrun. by injection Hrun as <-.
  - simpl in Hrun.
    destruct (first_branch fs l st) as [st1|] eqn:H1; [|done]. simpl in Hrun.
    eapply (IH (λ line f Hin, Hfail line f (list_elem_of_further _ _ _ Hin)));
      [exact Hrun|].
    eapply first_branch_keeps_absent; [done| |exact H1|done].
    intros f. apply Hfail. left.
Qed.

Section ExtractionFacts.
Context `{Runtime}.

Ltac safe_fields :=
  repeat (apply List.Forall_cons;
          [ first [ left; reflexivity
                  | right; split;
                    [by vm_compute | intros s; eexists; reflexivity] ] | ]);
  apply List.Forall_nil.

Lemma schedule_fields_safe : Forall field_safe schedule_fields.
Proof. unfold schedule_fields. safe_fields. Qed.

Lemma cost_fields_safe : Forall field_safe cost_fields.
Proof. unfold cost_fields. safe_fields. Qed.

Lemma _extract_schedule_status_returns content :
  ∃ st0,
    for_each (first_branch schedule_fields) (lines_of content) ∅ = Ok st0 ∧
    ∃ tc ta,
      _extract_schedule_status content =
      Ok (<[py "tarefas_atrasadas" := VList ta]>
            (<[py "tarefas_criticas" := VList tc]> st0)).
Proof.
  destruct (for_each_total _ (first_branch_total _ schedule_fields_safe)
              (lines_of content) ∅) as [st0 H0].
  exists st0. split; [done|]. unfold _extract_schedule_status.
  rewrite H0. simpl. eauto.
Qed.

Lemma _extract_cost_status_returns content :
  ∃ st0,
    for_each (first_branch cost_fields) (lines_of content) ∅ = Ok st0 ∧
    ∃ cats,
      _extract_cost_status content =
      Ok (<[py "categorias_custos" := VCats cats]> st0).
Proof.
  destruct (for_each_total _ (first_branch_total _ cost_fields_safe)
              (lines_of content) ∅) as [st0 H0].
  exists st0. split; [done|]. unfold _extract_cost_status.
  rewrite H0. simpl. eauto.
Qed.

End ExtractionFacts.

(** C7. Label-based status extraction is total: for every input text both
    extractors return a field mapping and raise nothing. A line that selects
    a branch of the chain and whose value fails to convert leaves the
    mapping as it was; hence a key that no line converts successfully is
    absent from the result (no placeholder, no error). *)
Theorem label_extraction_total `{Runtime} :
  (∀ content, ∃ st, _extract_schedule_status content = Ok st) ∧
  (∀ content, ∃ st, _extract_cost_status content = Ok st) ∧
  (∀ fs, fs = schedule_fields ∨ fs = cost_fields →
     ∀ f line e st,
       selected fs line = Some f →
       line_value f line = Raise e →
       first_branch fs line st = Ok st) ∧
  (∀ content st k,
     _extract_schedule_status content = Ok st →
     k ≠ py "tarefas_criticas" → k ≠ py "tarefas_atrasadas" →
     (∀ line f, line ∈ lines_of content →
                selected schedule_fields line = Some f → key f = k →
                ∃ e, line_value f line = Raise e) →
     st !! k = None) ∧
  (∀ content st k,
     _extract_cost_status content = Ok st →
     k ≠ py "categorias_custos" →
     (∀ line f, line ∈ lines_of content →
                selected cost_fields line = Some f → key f = k →
                ∃ e, line_value f line = Raise e) →
     st !! k = None).
Proof.
  split_and!.
  - intros content.
    destruct (_extract_schedule_status_returns content) as (?&?&?&?&->). eauto.
  - intros content.
    destruct (_extract_cost_status_returns content) as (?&?&?&->). eauto.
  - intros fs [-> | ->] f line e st Hs Hv.
    + eapply first_branch_failed; eauto using schedule_fields_safe.
    + eapply first_branch_failed; eauto using cost_fields_safe.
  - intros content st k Hrun Hk1 Hk2 Hfail.
    destruct (_extract_schedule_status_returns content) as (st0&H0&tc&ta&Heq).
    rewrite Heq in Hrun. injection Hrun as <-.
    rewrite !lookup_insert_ne by done.
    eapply for_each_keeps_absent;
      [apply schedule_fields_safe | exact Hfail | exact H0 | done].
  - intros content st k Hrun Hk1 Hfail.
    destruct (_extract_cost_status_returns content) as (st0&H0&cats&Heq).
    rewrite Heq in Hrun. injection Hrun as <-.
    rewrite lookup_insert_ne by done.
    eapply for_each_keeps_absent;
      [apply cost_fields_safe | exact Hfail | exact H0 | done].
Qed.

Section ExtractionExample.
#[local] Existing Instance Latin1.latin1.

(** A report whose SPI line does not parse: the other fields are stored,
    [spi] is absent. *)
Example unparsable_spi_is_absent :
  ∃ st, _extract_schedule_status report_text = Ok st ∧
        st !! py "spi" = None ∧
        st !! py "atraso_dias" = Some (VInt 12) ∧
        st !! py "valor_agregado" = Some (VFloat (fl 212500)) ∧
        st !! py "tarefas_criticas" = Some (VList [py "Tarefa A"; py "Tarefa B"]).
Proof.
  eexists. split; [vm_compute; reflexivity|].
  split_and!; computed_entry.
Qed.

End ExtractionExample.

(** ** Metric derivation *)

Lemma has_key_Some (st : dict) k v : st !! k = Some v → has_key st k = true.
Proof. intros Hk. unfold has_key. rewrite Hk. by apply bool_decide_eq_true_2. Qed.

Lemma has_key_None (st : dict) k : st !! k = None → has_key st k = false.
Proof.
  intros Hk. unfold has_key. rewrite Hk. apply bool_decide_eq_false_2.
  by intros [? ?].
Qed.

Lemma py_gt_float_zero (p : Qc) :
  py_gt (VFloat p) (VInt 0) = Ok (bool_decide (0 < p)%Qc).
Proof. reflexivity. Qed.

Lemma py_truediv_floats (e p : Qc) :
  (0 < p)%Qc → py_truediv (VFloat e) (VFloat p) = Ok (VFloat (e / p)%Qc).
Proof.
  intros Hp. unfold py_truediv. simpl. case_decide as Hz; [|done].
  subst p. by apply Qclt_not_eq in Hp.
Qed.

(** The indicator is derived when it is absent and the denominator is positive. *)
Lemma derive_fills (ind num den : str) (st : dict) (ev pv : Qc) :
  st !! ind = None →
  st !! num = Some (VFloat ev) →
  st !! den = Some (VFloat pv) →
  (0 < pv)%Qc →
  derive ind num den st
  = Ok (<[ind := VFloat (ev / pv)%Qc]> st, VFloat (ev / pv)%Qc).
Proof.
  intros Hi Hn Hd Hp. unfold derive, get_or.
  rewrite Hi, (has_key_Some _ _ _ Hn), (has_key_Some _ _ _ Hd), Hn, Hd.
  cbn [default from_option id is_None andb]. rewrite py_gt_float_zero.
  rewrite bool_decide_eq_true_2 by done. cbn [mbind res_bind].
  rewrite py_truediv_floats by done. reflexivity.
Qed.

(** It stays absent when the denominator is absent or zero. *)
Lemma derive_guard (ind num den : str) (st : dict) :
  st !! ind = None →
  st !! den = None ∨ st !! den = Some (VFloat 0%Qc) →
  derive ind num den st = Ok (st, VNone).
Proof.
  intros Hi Hd. unfold derive, get_or. rewrite Hi. cbn [default from_option id is_None andb].
  destruct Hd as [Hd | Hd].
  - rewrite (has_key_None _ _ Hd). by rewrite andb_false_r.
  - rewrite Hd. cbn [default from_option id].
    destruct (has_key st num && has_key st den); reflexivity.
Qed.

Lemma derive_idempotent (ind num den : str) (st : dict) :
  float_or_absent st ind = true →
  float_or_absent st num = true →
  float_or_absent st den = true →
  ∃ st' v, derive ind num den st = Ok (st', v)
           ∧ derive ind num den st' = Ok (st', v).
Proof.
  unfold float_or_absent. intros Hi Hn Hd.
  destruct (st !! ind) as [[| | |x| | |]|] eqn:Ei; try discriminate.
  { exists st, (VFloat x). unfold derive, get_or. rewrite Ei. by simpl. }
  destruct (st !! num) as [[| | |e| | |]|] eqn:En; try discriminate;
  [destruct (st !! den) as [[| | |p| | |]|] eqn:Ed; try discriminate|].
  - destruct (decide (0 < p)%Qc) as [Hp|Hp].
    + exists (<[ind := VFloat (e / p)%Qc]> st), (VFloat (e / p)%Qc).
      split; [by apply derive_fills|].
      unfold derive, get_or. rewrite lookup_insert_eq. by simpl.
    + exists st, VNone. split; unfold derive, get_or;
        rewrite Ei, (has_key_Some _ _ _ En), (has_key_Some _ _ _ Ed), En, Ed;
        cbn [default from_option id is_None andb]; rewrite py_gt_float_zero;
        by rewrite bool_decide_eq_false_2.
  - exists st, VNone. split; unfold derive, get_or;
      rewrite Ei, (has_key_None _ _ Ed); cbn [default from_option id is_None andb];
      by rewrite andb_false_r.
  - exists st, VNone. split; unfold derive, get_or;
      rewrite Ei, (has_key_None _ _ En); by cbn [default from_option id is_None andb].
Qed.

Lemma evm_typed_key (st : dict) k :
  evm_typed st = true → k ∈ evm_keys → float_or_absent st k = true.
Proof.
  unfold evm_typed. rewrite forallb_forall. intros Hall Hk.
  apply Hall. by apply list_elem_of_In.
Qed.

(** C2. Metric derivation. Schedule: if [spi] is absent and
    [valor_agregado] and [valor_planejado] are present with planned value
    > 0, then [spi] is set to earned value / planned value. Cost: if [cpi]
    is absent and [valor_agregado] and [custo_real] are present with actual
    cost > 0, then [cpi] is set to earned value / actual cost. Whenever the
    denominator is absent or zero the step returns the record unchanged and
    the indicator stays absent: no zero, no other value, no exception. This
    holds for every record. *)
Theorem derivation_rule (st : dict) :
  (∀ ev pv : Qc,
     st !! py "spi" = None →
     st !! py "valor_agregado" = Some (VFloat ev) →
     st !! py "valor_planejado" = Some (VFloat pv) →
     (0 < pv)%Qc →
     derive_spi st
     = Ok (<[py "spi" := VFloat (ev / pv)%Qc]> st, VFloat (ev / pv)%Qc)) ∧
  (st !! py "spi" = None →
   st !! py "valor_planejado" = None
   ∨ st !! py "valor_planejado" = Some (VFloat 0%Qc) →
   derive_spi st = Ok (st, VNone)) ∧
  (∀ ev ac : Qc,
     st !! py "cpi" = None →
     st !! py "valor_agregado" = Some (VFloat ev) →
     st !! py "custo_real" = Some (VFloat ac) →
     (0 < ac)%Qc →
     derive_cpi st
     = Ok (<[py "cpi" := VFloat (ev / ac)%Qc]> st, VFloat (ev / ac)%Qc)) ∧
  (st !! py "cpi" = None →
   st !! py "custo_real" = None
   ∨ st !! py "custo_real" = Some (VFloat 0%Qc) →
   derive_cpi st = Ok (st, VNone)).
Proof.
  split_and!.
  - intros ev pv. apply derive_fills.
  - apply derive_guard.
  - intros ev ac. apply derive_fills.
  - apply derive_guard.
Qed.

Lemma py_truediv_float (a b r : value) :
  py_truediv a b = Ok r → ∃ q, r = VFloat q.
Proof.
  unfold py_truediv. destruct (as_number a), (as_number b); try done.
  case_decide; [done|]. intros [= <-]. eauto.
Qed.

(** A second run changes nothing, whatever the record holds. *)
Lemma derive_stable (ind num den : str) (st st' : dict) (v : value) :
  derive ind num den st = Ok (st', v) →
  derive ind num den st' = Ok (st', v).
Proof.
  unfold derive.
  destruct (is_None (get_or st ind VNone) && has_key st num && has_key st den)
    eqn:E.
  - destruct (py_gt _ _) as [[|]|] eqn:G; simpl; [| |done].
    + destruct (py_truediv _ _) as [r|] eqn:D; simpl; [|done].
      intros Heq%Ok_inj. injection Heq as <- <-.
      apply py_truediv_float in D as [q ->].
      unfold get_or. rewrite lookup_insert_eq. reflexivity.
    + intros Heq%Ok_inj. injection Heq as <- <-. rewrite E, G. reflexivity.
  - intros Heq%Ok_inj. injection Heq as <- <-. rewrite E. reflexivity.
Qed.

(** C6. Metric derivation is idempotent. For every record, when the SPI
    step (or the CPI step) returns a record, running the step again on that
    record returns exactly the same record and the same indicator value: the
    step writes the indicator only where it is absent. On every record whose
    EVM keys hold floats when present, as the extractors produce them, both
    steps do return. *)
Theorem derivation_idempotent (st : dict) :
  (∀ st' v, derive_spi st = Ok (st', v) → derive_spi st' = Ok (st', v)) ∧
  (∀ st' v, derive_cpi st = Ok (st', v) → derive_cpi st' = Ok (st', v)) ∧
  (evm_typed st = true →
   (∃ st' v, derive_spi st = Ok (st', v) ∧ derive_spi st' = Ok (st', v)) ∧
   (∃ st' v, derive_cpi st = Ok (st', v) ∧ derive_cpi st' = Ok (st', v))).
Proof.
  split_and!.
  - intros st' v. apply derive_stable.
  - intros st' v. apply derive_stable.
  - intros Hty. split; apply derive_idempotent; apply evm_typed_key; try done;
      unfold evm_keys; set_solver.
Qed.

(** ** Records produced by the extractors are well typed *)

Lemma float_or_absent_insert (st : dict) (k k' : str) (v : value) :
  float_or_absent (<[k' := v]> st) k
  = if decide (k' = k) then match v with VFloat _ => true | _ => false end
    else float_or_absent st k.
Proof.
  unfold float_or_absent. rewrite lookup_insert. case_decide; [|done].
  by destruct v.
Qed.

Lemma evm_typed_insert (st : dict) (k : str) (v : value) :
  evm_typed st = true →
  (k ∉ evm_keys ∨ ∃ q, v = VFloat q) →
  evm_typed (<[k := v]> st) = true.
Proof.
  unfold evm_typed. rewrite !forallb_forall. intros Hst Hk x Hx.
  rewrite float_or_absent_insert. case_decide as Heq; [|by apply Hst].
  subst x. destruct Hk as [Hk | [q ->]]; [|done].
  exfalso. apply Hk. by apply list_elem_of_In.
Qed.

Lemma first_branch_typed (fs : list field) (line : str) (st st' : dict) :
  Forall field_typed fs →
  first_branch fs line st = Ok st' →
  evm_typed st = true → evm_typed st' = true.
Proof.
  intros Hfs Hrun Hst. rewrite first_branch_selected in Hrun.
  destruct (selected fs line) as [f|] eqn:Hs; [|by injection Hrun as <-].
  apply selected_elem in Hs as [Hf _].
  rewrite Forall_forall in Hfs. specialize (Hfs f Hf).
  unfold run_branch in Hrun. rewrite branch_body_value in Hrun.
  unfold line_value in Hrun.
  destruct (index (split_on (label f) line) 1) as [part|]; simpl in Hrun;
    [|destruct (guarded f); [by injection Hrun as <- | done]].
  destruct (convert f (strip part)) as [v|] eqn:Hc; simpl in Hrun;
    [|destruct (guarded f); [by injection Hrun as <- | done]].
  assert (st' = <[key f := v]> st) as ->
    by (destruct (guarded f); by injection Hrun as <-).
  apply evm_typed_insert; [done|].
  destruct Hfs as [Hk | Hv]; [by left | right; eauto].
Qed.

Lemma for_each_typed fs lines :
  Forall field_typed fs →
  ∀ st st' : dict, for_each (first_branch fs) lines st = Ok st' →
                   evm_typed st = true → evm_typed st' = true.
Proof.
  intros Hfs. induction lines as [|l ls IH]; intros st st' Hrun Hst; simpl in Hrun.
  - by injection Hrun as <-.
  - destruct (first_branch fs l st) as [st1|] eqn:H1; [|done].
    eapply IH; [exact Hrun|]. eapply first_branch_typed; eauto.
Qed.

Section TypedExtraction.
Context `{Runtime}.

Lemma float_field_typed l k clean : field_typed (float_field l k clean).
Proof.
  right. intros s v. unfold float_field; simpl. unfold float_of.
  destruct (py_float (clean s)); simpl; [|done]. intros [= <-]. eauto.
Qed.

Ltac not_evm_key := apply (bool_decide_unpack _); vm_compute; exact I.

Ltac typed_fields :=
  repeat (apply List.Forall_cons;
          [ first [ apply float_field_typed
                  | left; not_evm_key ] | ]);
  apply List.Forall_nil.

Lemma schedule_fields_typed : Forall field_typed schedule_fields.
Proof. unfold schedule_fields. typed_fields. Qed.

Lemma cost_fields_typed : Forall field_typed cost_fields.
Proof. unfold cost_fields. typed_fields. Qed.

(** What [_extract_schedule_status] and [_extract_cost_status] return holds
    floats under the EVM keys. *)
Lemma _extract_schedule_status_typed content st :
  _extract_schedule_status content = Ok st → evm_typed st = true.
Proof.
  destruct (_extract_schedule_status_returns content) as (st0&H0&tc&ta&->).
  intros [= <-].
  apply evm_typed_insert; [|left; not_evm_key].
  apply evm_typed_insert; [|left; not_evm_key].
  eapply for_each_typed; [apply schedule_fields_typed | exact H0 | done].
Qed.

Lemma _extract_cost_status_typed content st :
  _extract_cost_status content = Ok st → evm_typed st = true.
Proof.
  destruct (_extract_cost_status_returns content) as (st0&H0&cats&->).
  intros [= <-].
  apply evm_typed_insert; [|left; not_evm_key].
  eapply for_each_typed; [apply cost_fields_typed | exact H0 | done].
Qed.

End TypedExtraction.

Lemma derivation_rule_witness :
  derive_spi record_ev_pv
  = Ok (<[py "spi" := VFloat (fl 212500 / fl 250000)%Qc]> record_ev_pv,
        VFloat (fl 212500 / fl 250000)%Qc).
Proof.
  apply (proj1 (derivation_rule record_ev_pv)); vm_compute; reflexivity.
Defined.

Lemma derivation_idempotent_witness :
  evm_typed record_ev_pv = true ∧
  (∃ st' v, derive_spi record_ev_pv = Ok (st', v)
            ∧ derive_spi st' = Ok (st', v)) ∧
  (∃ st' v, derive_cpi record_ev_pv = Ok (st', v)
            ∧ derive_cpi st' = Ok (st', v)).
Proof.
  split; [vm_compute; reflexivity|].
  apply (proj2 (proj2 (derivation_idempotent record_ev_pv))).
  vm_compute; reflexivity.
Defined.

(** EV = 212500 and PV = 250000 give SPI = 0.85. *)
Example spi_of_spec_example : (fl 212500 / fl 250000)%Qc = fl 0.85.
Proof. apply Qc_is_canon. reflexivity. Qed.

(** ** Rule engine *)

Section RuleEngineFacts.
Import PMBOKGuardRails GuardRailSpec.

Lemma validate_rule_step (data : dict) (ms : list msg) (b : bool) (r : rule) :
  validate_rule data (ms, b) r
  = (ms ++ option_list (rule_outcome data r), b && rule_ok data r).
Proof.
  unfold validate_rule, rule_outcome, rule_ok, fires. simpl.
  destruct (r_condition r data) as [[|]|e]; simpl.
  - destruct (bool_decide (r_action r = require)
              && negb (truthy (_check_requirement_met r data))); simpl.
    + by rewrite andb_false_r.
    + by rewrite andb_true_r.
  - by rewrite app_nil_r, andb_true_r.
  - by rewrite andb_true_r.
Qed.

(** The loop of [validate] as a whole. *)
Lemma validate_loop (data : dict) (rs : list rule) :
  ∀ ms b,
    foldl (validate_rule data) (ms, b) rs
    = (ms ++ omap (rule_outcome data) rs, b && forallb (rule_ok data) rs).
Proof.
  induction rs as [|r rs IH]; intros ms b; simpl.
  - by rewrite app_nil_r, andb_true_r.
  - rewrite validate_rule_step, IH, <- app_assoc, <- andb_assoc. f_equal.
    f_equal. by destruct (rule_outcome data r).
Qed.

Lemma validate_known (domain : str) (rs : list rule) (data : dict) (now : str) :
  rules !! domain = Some rs →
  validate domain data now
  = {| valid := forallb (rule_ok data) rs;
       messages := omap (rule_outcome data) rs;
       validation_date := now |}.
Proof.
  intros Hd. unfold validate. rewrite Hd, validate_loop. reflexivity.
Qed.

Lemma truthy_flag (data : dict) (r : rule) :
  truthy (_check_requirement_met r data) = true ↔ requirement_flag_set data r.
Proof.
  unfold _check_requirement_met, get_or, requirement_flag_set.
  destruct (data !! _) as [v|]; simpl.
  - split; [eauto | by intros (v' & [= <-] & Hv)].
  - split; [done | by intros (v' & ? & _)].
Qed.

Lemma rule_ok_spec (data : dict) (r : rule) :
  rule_ok data r = true ↔
  (r_condition r data = Ok true → r_action r = require →
   requirement_flag_set data r).
Proof.
  unfold rule_ok, fires. rewrite <- truthy_flag.
  destruct (r_condition r data) as [[|]|e]; simpl; [|by split..].
  case_bool_decide as Ha; simpl; [|by split].
  destruct (truthy _); simpl; split; try done. intros Hf. by apply Hf.
Qed.

Lemma rule_outcome_is_record (data : dict) (r : rule) (m : msg) :
  rule_outcome data r = Some m → is_record m.
Proof.
  unfold rule_outcome.
  destruct (r_condition r data) as [[|]|e]; [| done |]; by intros [= <-].
Qed.

Lemma known_domain_lookup (domain : str) :
  domain ∉ known_domains → rules !! domain = None.
Proof.
  intros Hd. unfold rules.
  rewrite !lookup_insert_ne, lookup_empty; [done|..];
    intros <-; apply Hd; unfold known_domains; set_solver.
Qed.

End RuleEngineFacts.

Section RuleEngineClaims.
Import PMBOKGuardRails GuardRailSpec.

(** C3. For every known domain and every data mapping, the [valid] field
    of the result of [validate] is true if and only if every rule of the
    domain whose condition fires and whose action is [require] has its flag
    [requirement_<rule_id>_met] present and truthy in the data. Fired
    [notify] and [recommend] rules, rules that do not fire and rules whose
    condition raises put no constraint on [valid]. *)
Theorem valid_iff_requirements_met (domain : str) (rs : list rule)
    (data : dict) (now : str) (Hdom : rules !! domain = Some rs) :
  valid (validate domain data now) = true ↔
  ∀ r, r ∈ rs → r_condition r data = Ok true → r_action r = require →
       requirement_flag_set data r.
Proof.
  rewrite (validate_known _ _ _ _ Hdom). simpl.
  rewrite forallb_forall. split.
  - intros Hall r Hr. apply rule_ok_spec, Hall. by apply list_elem_of_In.
  - intros Hall r Hr. apply rule_ok_spec, Hall. by apply list_elem_of_In.
Qed.

(** C4. Partial-failure isolation. For every known domain and data
    mapping, [validate] returns, and its messages are, in catalogue order,
    what each rule contributes: nothing when its condition is false, its
    own message when it fires, and a message with action [error] carrying
    the exception text when its condition raises. So a raising rule yields
    its error message and every rule that fires still has its message. *)
Theorem failure_isolation (domain : str) (rs : list rule)
    (data : dict) (now : str) (Hdom : rules !! domain = Some rs) :
  messages (validate domain data now) = omap (rule_outcome data) rs ∧
  (∀ r e, r ∈ rs → r_condition r data = Raise e →
     MsgRule (r_id r) (r_name r)
             (py "Erro ao aplicar regra: " ++ exn_text e) error
     ∈ messages (validate domain data now)) ∧
  (∀ r, r ∈ rs → r_condition r data = Ok true →
     MsgRule (r_id r) (r_name r) (r_message r) (r_action r)
     ∈ messages (validate domain data now)).
Proof.
  rewrite (validate_known _ _ _ _ Hdom). simpl. split_and!; [done|..].
  - intros r e Hr He. apply list_elem_of_omap. exists r. split; [done|].
    unfold rule_outcome. by rewrite He.
  - intros r Hr Hf. apply list_elem_of_omap. exists r. split; [done|].
    unfold rule_outcome. by rewrite Hf.
Qed.

(** C8. For every domain string other than cronograma, custos, escopo and
    riscos, and every data mapping, [validate] returns (it does not raise)
    the result with [valid] false and the single message
    "Domínio inválido: <domain>". That message is a bare string, whereas
    every message produced for a known domain is a record with rule id,
    rule name, message and action. *)
Theorem unknown_domain_is_invalid (domain : str) (data : dict) (now : str)
    (Hunknown : domain ∉ known_domains) :
  validate domain data now
  = {| valid := false;
       messages := [MsgText (py "Domínio inválido: " ++ domain)];
       validation_date := now |}
  ∧ ¬ Forall is_record (messages (validate domain data now))
  ∧ ∀ known rs, rules !! known = Some rs →
                Forall is_record (messages (validate known data now)).
Proof.
  assert (validate domain data now
          = {| valid := false;
               messages := [MsgText (py "Domínio inválido: " ++ domain)];
               validation_date := now |}) as Heq.
  { unfold validate. by rewrite (known_domain_lookup _ Hunknown). }
  split_and!; [done| |].
  - rewrite Heq. simpl. intros Hall. by apply Forall_cons in Hall as [? _].
  - intros known rs Hk. rewrite (validate_known _ _ _ _ Hk). simpl.
    apply Forall_forall. intros m Hm.
    apply list_elem_of_omap in Hm as (r & _ & Hr).
    by eapply rule_outcome_is_record.
Qed.

End RuleEngineClaims.

Section RuleEngineWitnesses.
Import PMBOKGuardRails GuardRailSpec.

Lemma valid_iff_requirements_met_witness :
  rules !! py "cronograma" = Some _load_schedule_rules ∧
  (valid (validate (py "cronograma") schedule_data (py "2025-07-10")) = true ↔
   ∀ r, r ∈ _load_schedule_rules →
        r_condition r schedule_data = Ok true → r_action r = require →
        requirement_flag_set schedule_data r).
Proof.
  split; [reflexivity|].
  apply valid_iff_requirements_met. reflexivity.
Defined.

Lemma failure_isolation_witness :
  rules !! py "cronograma" = Some _load_schedule_rules ∧
  messages (validate (py "cronograma") broken_data (py "2025-07-10"))
  = omap (rule_outcome broken_data) _load_schedule_rules.
Proof.
  split; [reflexivity|].
  apply (failure_isolation (py "cronograma") _load_schedule_rules broken_data
           (py "2025-07-10")).
  reflexivity.
Defined.

Lemma unknown_domain_is_invalid_witness :
  (py "qualidade" ∉ known_domains) ∧
  validate (py "qualidade") schedule_data (py "2025-07-10")
  = {| valid := false;
       messages := [MsgText (py "Domínio inválido: " ++ py "qualidade")];
       validation_date := py "2025-07-10" |}.
Proof.
  assert (py "qualidade" ∉ known_domains) as Hq
    by (apply (bool_decide_unpack _); vm_compute; exact I).
  split; [exact Hq|].
  apply (unknown_domain_is_invalid (py "qualidade") schedule_data
           (py "2025-07-10") Hq).
Defined.

(** The spec's rule-firing example: SCH-001, SCH-002 and SCH-003 fire (and,
    with the replanning flag and the critical tasks of the test data,
    SCH-004 and SCH-005); no requirement flag is set, so the result is
    invalid. *)
Example schedule_data_result :
  validate (py "cronograma") schedule_data (py "2025-07-10")
  = {| valid := false;
       messages := fired_message <$> _load_schedule_rules;
       validation_date := py "2025-07-10" |}.
Proof. vm_compute. reflexivity. Qed.

(** One condition raises ([atraso_dias] is a string): its error message
    stands where the rule is in the catalogue, and SCH-004 still fires. *)
Example broken_data_result :
  messages (validate (py "cronograma") broken_data (py "2025-07-10"))
  = [ MsgRule (py "SCH-003") (py "Aprovação para extensão de prazo")
        (py "Erro ao aplicar regra: '>' not supported between instances of 'str' and 'float'")
        error;
      MsgRule (py "SCH-004") (py "Revisão da linha de base para replanejamento")
        (py "REQUISITO: O replanejamento do cronograma requer revisão formal da linha de base.")
        require ].
Proof. vm_compute. reflexivity. Qed.

End RuleEngineWitnesses.

(** ** Recommendation validator *)

Section ValidatorFacts.
Import PMBOKGuardRails GuardRailSpec.
Context `{Runtime}.

Lemma covered_by_spec (keywords recommendations : list str) :
  covered_by keywords recommendations = true ↔
  ∃ rec kw, rec ∈ recommendations ∧ kw ∈ keywords
            ∧ contains kw (py_lower rec) = true.
Proof.
  induction recommendations as [|a recs IH]; simpl.
  - split; [done|]. intros (rec & kw & Hin & _). by apply elem_of_nil in Hin.
  - destruct (existsb _ keywords) eqn:E.
    + split; [intros _ | done].
      apply existsb_exists in E as (kw & Hin & Hc).
      exists a, kw. split_and!; [left | by apply list_elem_of_In | done].
    + rewrite IH. split.
      * intros (rec & kw & Hr & Hk & Hc). exists rec, kw.
        split_and!; [by right | done | done].
      * intros (rec & kw & Hr & Hk & Hc).
        apply elem_of_cons in Hr as [-> | Hr]; [|eauto].
        exfalso. apply not_true_iff_false in E. apply E.
        apply existsb_exists. exists kw. split; [by apply list_elem_of_In | done].
Qed.

Lemma _extract_keywords_spec (topic kw : str) :
  kw ∈ _extract_keywords topic ↔
  kw ∈ words (py_lower topic) ∧ (4 < length kw)%nat ∧ kw ∉ stop_words.
Proof. unfold _extract_keywords. rewrite list_elem_of_filter. tauto. Qed.

Lemma covered_spec (topic : str) (recommendations : list str) :
  covered topic recommendations ↔
  ∃ rec kw, rec ∈ recommendations
            ∧ kw ∈ words (py_lower topic) ∧ (4 < length kw)%nat
            ∧ (kw ∉ stop_words)
            ∧ contains kw (py_lower rec) = true.
Proof.
  unfold covered, _topic_covered_in_recommendations. rewrite covered_by_spec.
  split; intros (rec & kw & Hr & Hk & Hc); exists rec, kw.
  - apply _extract_keywords_spec in Hk. tauto.
  - rewrite _extract_keywords_spec. tauto.
Qed.

Lemma missing_of_loop (recommendations : list str) (topics : list str) :
  ∀ acc,
    foldl (λ missing topic,
             if negb (_topic_covered_in_recommendations topic recommendations)
             then missing ++ [topic] else missing) acc topics
    = acc ++ filter (λ t, ¬ covered t recommendations) topics.
Proof.
  induction topics as [|t ts IH]; intros acc; simpl.
  - by rewrite app_nil_r.
  - rewrite IH, filter_cons. case_decide as Hn; unfold covered in Hn.
    + assert (_topic_covered_in_recommendations t recommendations = false)
        as -> by (by destruct (_topic_covered_in_recommendations t _)).
      simpl. by rewrite <- app_assoc.
    + rewrite Hn. done.
Qed.

Lemma missing_of_filter (topics recommendations : list str) :
  missing_of topics recommendations
  = filter (λ t, ¬ covered t recommendations) topics.
Proof. unfold missing_of. by rewrite missing_of_loop. Qed.

Lemma fires_iff (data : dict) (r : rule) :
  fires data r = true ↔ r_condition r data = Ok true.
Proof.
  unfold fires. destruct (r_condition r data) as [[|]|]; split; done.
Qed.

Lemma required_topics_of_outcomes (data : dict) (rs : list rule) :
  ∀ acc,
    required_topics_of (omap (rule_outcome data) rs) acc
    = Ok (acc ++ (r_name <$>
            filter (λ r, fires data r = true ∧ r_action r = require) rs)).
Proof.
  induction rs as [|r rs IH]; intros acc; simpl.
  - by rewrite app_nil_r.
  - rewrite filter_cons. pose proof (fires_iff data r) as Hf.
    unfold rule_outcome at 1.
    destruct (r_condition r data) as [[|]|e] eqn:E; simpl.
    + case_bool_decide as Ha; simpl.
      * rewrite decide_True by (split; [by apply Hf | done]).
        rewrite IH, fmap_cons, <- app_assoc. done.
      * rewrite decide_False by (by intros [_ ?]). apply IH.
    + rewrite decide_False; [apply IH|]. intros [Hx _]. by apply Hf in Hx.
    + rewrite decide_False; [apply IH|]. intros [Hx _]. by apply Hf in Hx.
Qed.

Lemma additional_of_outcomes (data : dict) (rs : list rule) (missing : list str) :
  ∀ acc,
    additional_of (omap (rule_outcome data) rs) missing acc
    = Ok (acc ++ (r_message <$>
            filter (λ r, fires data r = true
                         ∧ (r_action r = recommend
                            ∨ (r_action r = require ∧ r_name r ∈ missing)))
                   rs)).
Proof.
  induction rs as [|r rs IH]; intros acc; simpl.
  - by rewrite app_nil_r.
  - rewrite filter_cons. pose proof (fires_iff data r) as Hf.
    unfold rule_outcome at 1.
    destruct (r_condition r data) as [[|]|e] eqn:E; simpl.
    + case_bool_decide as Ha; simpl.
      * rewrite decide_True by (split; [by apply Hf | by left]).
        rewrite IH, fmap_cons, <- app_assoc. done.
      * case_bool_decide as Hb; simpl.
        -- case_bool_decide as Hc; simpl.
           ++ rewrite decide_True by (split; [by apply Hf | by right]).
              rewrite IH, fmap_cons, <- app_assoc. done.
           ++ rewrite decide_False by (intros [_ [?|[_ ?]]]; done). apply IH.
        -- rewrite decide_False by (intros [_ [?|[? _]]]; done). apply IH.
    + rewrite decide_False; [apply IH|]. intros [Hx _]. by apply Hf in Hx.
    + rewrite decide_False; [apply IH|]. intros [Hx _]. by apply Hf in Hx.
Qed.

(** [validate_recommendations] on a known domain, in closed form. *)
Lemma validate_recommendations_known (domain : str) (rs : list rule)
    (recommendations : list str) (data : dict) (now1 now2 : str) :
  rules !! domain = Some rs →
  let missing :=
    filter (λ t, ¬ covered t recommendations)
      (r_name <$> filter (λ r, fires data r = true ∧ r_action r = require) rs) in
  validate_recommendations domain recommendations data now1 now2
  = Ok {| rv_valid := bool_decide (length missing = 0%nat);
          missing_topics := missing;
          additional_recommendations :=
            r_message <$>
              filter (λ r, fires data r = true
                           ∧ (r_action r = recommend
                              ∨ (r_action r = require ∧ r_name r ∈ missing)))
                     rs;
          validation_messages := omap (rule_outcome data) rs;
          rv_validation_date := now2 |}.
Proof.
  intros Hd missing. unfold validate_recommendations.
  rewrite (validate_known _ _ _ _ Hd). simpl.
  rewrite required_topics_of_outcomes. simpl.
  rewrite missing_of_filter. fold missing.
  rewrite additional_of_outcomes. reflexivity.
Qed.

End ValidatorFacts.

Section ValidatorClaims.
Import PMBOKGuardRails GuardRailSpec.

(** C5. For every known domain, recommendation list and data mapping,
    [validate_recommendations] returns a result in which: [missing_topics]
    is the list of names of the fired [require] rules that no recommendation
    covers; [additional_recommendations] is the list of messages of the
    fired [recommend] rules and of the fired [require] rules whose name is
    in [missing_topics], in catalogue order; and [valid] tells whether
    [missing_topics] is empty. A topic is covered when some recommendation,
    lowercased, contains as a substring a keyword of the topic: a
    whitespace-separated token of the lowercased rule name, longer than 4
    characters and not in the stop-word list. This [valid] is independent of
    the rule engine's: with the requirement flag set and no recommendation
    the engine says valid and the validator invalid; with the flag unset and
    a recommendation that mentions the topic it is the other way round. *)
Theorem recommendation_validation_spec `{Runtime} (domain : str)
    (rs : list rule) (recommendations : list str) (data : dict)
    (now1 now2 : str) (Hdom : rules !! domain = Some rs) :
  let missing :=
    filter (λ t, ¬ covered t recommendations)
      (r_name <$> filter (λ r, fires data r = true ∧ r_action r = require) rs) in
  (∃ out,
     validate_recommendations domain recommendations data now1 now2 = Ok out
     ∧ missing_topics out = missing
     ∧ additional_recommendations out
       = r_message <$>
           filter (λ r, fires data r = true
                        ∧ (r_action r = recommend
                           ∨ (r_action r = require ∧ r_name r ∈ missing)))
                  rs
     ∧ rv_valid out = bool_decide (missing = [])) ∧
  (∀ topic,
     covered topic recommendations ↔
     ∃ rec kw, rec ∈ recommendations
               ∧ kw ∈ words (py_lower topic) ∧ (4 < length kw)%nat
               ∧ (kw ∉ stop_words)
               ∧ contains kw (py_lower rec) = true) ∧
  (valid (validate (py "cronograma") flagged_data now1) = true
   ∧ ∃ out, validate_recommendations (py "cronograma") [] flagged_data now1 now2
            = Ok out ∧ rv_valid out = false) ∧
  (valid (validate (py "cronograma") unflagged_data now1) = false
   ∧ ∃ out, validate_recommendations (H := Latin1.latin1) (py "cronograma")
              [py "Elaborar um plano de recuperação do cronograma"]
              unflagged_data now1 now2
            = Ok out ∧ rv_valid out = true).
Proof.
  intros missing. split_and!.
  - eexists. split; [by apply validate_recommendations_known|].
    simpl. fold missing. split_and!; [done | done |].
    destruct missing; done.
  - intros topic. apply covered_spec.
  - reflexivity.
  - eexists. split; [by apply validate_recommendations_known|]. reflexivity.
  - reflexivity.
  - eexists. split; [by apply validate_recommendations_known|].
    vm_compute. reflexivity.
Qed.

Lemma recommendation_validation_spec_witness :
  rules !! py "cronograma" = Some _load_schedule_rules ∧
  ∃ out,
    validate_recommendations (H := Latin1.latin1) (py "cronograma")
      schedule_recommendations schedule_data (py "2025-07-10") (py "2025-07-10")
    = Ok out
    ∧ missing_topics out
      = filter (λ t, ¬ covered (H := Latin1.latin1) t schedule_recommendations)
          (r_name <$> filter (λ r, fires schedule_data r = true
                                   ∧ r_action r = require)
                        _load_schedule_rules).
Proof.
  split; [reflexivity|].
  destruct (recommendation_validation_spec (H := Latin1.latin1)
              (py "cronograma") _load_schedule_rules schedule_recommendations
              schedule_data (py "2025-07-10") (py "2025-07-10") eq_refl)
    as [(out & Hout & Hmiss & _) _].
  exists out. split; [exact Hout | exact Hmiss].
Defined.

(** On the test data no recommendation mentions a keyword of the three
    required topics: all are missing, and the messages of the three
    requirements and of the recommendation rule are added. *)
Example schedule_recommendations_result :
  validate_recommendations (H := Latin1.latin1) (py "cronograma")
    schedule_recommendations schedule_data (py "2025-07-10") (py "2025-07-11")
  = Ok {| rv_valid := false;
          missing_topics :=
            [py "Plano de recuperação para SPI baixo";
             py "Aprovação para extensão de prazo";
             py "Revisão da linha de base para replanejamento"];
          additional_recommendations :=
            r_message <$> drop 1 _load_schedule_rules;
          validation_messages := fired_message <$> _load_schedule_rules;
          rv_validation_date := py "2025-07-11" |}.
Proof. vm_compute. reflexivity. Qed.

(** The spec's coverage example. *)
Example coverage_example :
  _topic_covered_in_recommendations (H := Latin1.latin1)
    (py "Notificação para CPI crítico")
    [py "Enviar notificação ao gerente sobre o CPI crítico"] = true ∧
  _topic_covered_in_recommendations (H := Latin1.latin1)
    (py "Notificação para CPI crítico")
    [py "Revisar as categorias de custo com maior desvio"] = false ∧
  _extract_keywords (H := Latin1.latin1) (py "Notificação para CPI crítico")
  = [py "notificação"; py "crítico"].
Proof. vm_compute. done. Qed.

End ValidatorClaims.

(** ** Pattern-based extraction *)

Section ProcessorFacts.
Import Re StatusTextProcessor ProcessorSpec.
Context `{Runtime}.

Lemma drop_none_lookup (m : dict) (k : str) :
  drop_none m !! k
  = match m !! k with
    | Some VNone => None
    | o => o
    end.
Proof.
  unfold drop_none. rewrite map_lookup_filter.
  destruct (m !! k) as [v|]; simpl; [|done].
  destruct v; simpl; by rewrite ?option_guard_True, ?option_guard_False by done.
Qed.

(** A numeric pattern yields [None] exactly when it does not match. *)
Lemma _extract_with_regex_None (text : str) (key : pattern_key) (v : value) :
  is_money key || is_numeric key = true →
  _extract_with_regex text key = Ok v →
  (v = VNone ↔ search (patterns key) text = None)
  ∧ (v = VNone ∨ ∃ q, v = VFloat q).
Proof.
  intros Hk. unfold _extract_with_regex.
  destruct (search (patterns key) text) as [g|]; [|intros [= <-]; split; [done | by left]].
  destruct (is_money key); simpl in *.
  - destruct (group1 g) as [s|]; simpl; [|done].
    destruct (float_of _) as [q|]; simpl; [|done].
    intros [= <-]. split; [done | right; eauto].
  - rewrite Hk. destruct (group1 g) as [s|]; simpl; [|done].
    destruct (float_of _) as [q|]; simpl; [|done].
    intros [= <-]. split; [done | right; eauto].
Qed.

Ltac key_ne := let Heq := fresh in intros Heq; vm_compute in Heq; discriminate Heq.

Lemma metrics_of_lookups (text : str) (m : dict) :
  metrics_of text = Ok m →
  m !! py "scope_change_detected"
    = Some (VBool (any_keyword scope_change_keywords text)) ∧
  m !! py "risk_detected" = Some (VBool (any_keyword risk_keywords text)) ∧
  ∀ name key, (name, key) ∈ numeric_metrics →
    (m !! name = None ↔ search (patterns key) text = None)
    ∧ (m !! name = None ∨ ∃ q, m !! name = Some (VFloat q)).
Proof.
  unfold metrics_of.
  destruct (_extract_with_regex text k_completion_percentage) as [v1|] eqn:E1; [|done].
  destruct (_extract_with_regex text k_spi) as [v2|] eqn:E2; [|done].
  destruct (_extract_with_regex text k_cpi) as [v3|] eqn:E3; [|done].
  destruct (_extract_with_regex text k_budget) as [v4|] eqn:E4; [|done].
  destruct (_extract_with_regex text k_actual_cost) as [v5|] eqn:E5; [|done].
  destruct (_extract_with_regex text k_delay_days) as [v6|] eqn:E6; [|done].
  cbn [mbind res_bind mret res_ret]. intros Hm%Ok_inj. subst m.
  apply _extract_with_regex_None in E1 as [E1 T1]; [|done].
  apply _extract_with_regex_None in E2 as [E2 T2]; [|done].
  apply _extract_with_regex_None in E3 as [E3 T3]; [|done].
  apply _extract_with_regex_None in E4 as [E4 T4]; [|done].
  apply _extract_with_regex_None in E5 as [E5 T5]; [|done].
  apply _extract_with_regex_None in E6 as [E6 T6]; [|done].
  split_and!.
  - rewrite drop_none_lookup.
    rewrite lookup_insert_ne by key_ne. by rewrite lookup_insert_eq.
  - rewrite drop_none_lookup. by rewrite lookup_insert_eq.
  - intros name key Hin. unfold numeric_metrics in Hin.
    repeat (apply elem_of_cons in Hin as [[= -> ->] | Hin]);
      [..|by apply elem_of_nil in Hin];
      rewrite drop_none_lookup;
      repeat (rewrite lookup_insert_ne by key_ne); rewrite lookup_insert_eq.
    + rewrite <- E1. destruct T1 as [-> | [q ->]]; split; eauto; by split.
    + rewrite <- E2. destruct T2 as [-> | [q ->]]; split; eauto; by split.
    + rewrite <- E3. destruct T3 as [-> | [q ->]]; split; eauto; by split.
    + rewrite <- E4. destruct T4 as [-> | [q ->]]; split; eauto; by split.
    + rewrite <- E5. destruct T5 as [-> | [q ->]]; split; eauto; by split.
    + rewrite <- E6. destruct T6 as [-> | [q ->]]; split; eauto; by split.
Qed.

End ProcessorFacts.

Section ProcessorClaims.
Import Re StatusTextProcessor ProcessorSpec.

(** What a returned mapping holds. When [process_status_file] returns for
    a text, the keys [scope_change_detected] and [risk_detected] are
    present in its metrics, each mapped to the boolean its keyword test
    gave: the final filter removes a numeric entry exactly when its pattern
    did not match, and every numeric entry that remains is a float. The
    call does not return for every text: see
    [boolean_metrics_lost_on_raise]. *)
Lemma returned_metrics_keep_booleans `{Runtime} (text : str) (out : processed)
    (Hok : process_status_file text = Ok out) :
  metrics out !! py "scope_change_detected"
    = Some (VBool (any_keyword scope_change_keywords text)) ∧
  metrics out !! py "risk_detected"
    = Some (VBool (any_keyword risk_keywords text)) ∧
  ∀ name key, (name, key) ∈ numeric_metrics →
    (metrics out !! name = None ↔ search (patterns key) text = None)
    ∧ (metrics out !! name = None ∨ ∃ q, metrics out !! name = Some (VFloat q)).
Proof.
  unfold process_status_file in Hok.
  destruct (_extract_with_regex text k_project_id) as [pid|]; [|done].
  destruct (metrics_of text) as [m|] eqn:Hm; [|done].
  injection Hok as <-. simpl. by apply metrics_of_lookups.
Qed.

Example returned_metrics_keep_booleans_run :
  ∃ out,
    process_status_file (H := Latin1.latin1) scenario_text = Ok out ∧
    metrics out !! py "scope_change_detected"
      = Some (VBool (any_keyword (H := Latin1.latin1) scope_change_keywords
                       scenario_text)).
Proof.
  destruct (process_status_file (H := Latin1.latin1) scenario_text)
    as [out|e] eqn:E; [|vm_compute in E; discriminate E].
  exists out. split; [reflexivity|].
  exact (proj1 (returned_metrics_keep_booleans (H := Latin1.latin1)
                  scenario_text out E)).
Qed.

(** C9. The end-to-end scenario, run on the code. For the text
    "50% concluído... SPI de 0.85... Atraso de 10 dias" the extraction
    yields [completion_percentage] = 50.0 and [delay_days] = 10 and detects
    no scope change, but the SPI pattern does not match ("de" stands between
    the label and the number), so [spi] is absent from the metrics and the
    health of the extracted index is [unknown], not [warning]. *)
Theorem scenario_extraction :
  ∃ out,
    process_status_file (H := Latin1.latin1) scenario_text = Ok out ∧
    metrics out !! py "completion_percentage" = Some (VFloat (fl 50)) ∧
    metrics out !! py "delay_days" = Some (VFloat (fl 10)) ∧
    metrics out !! py "scope_change_detected" = Some (VBool false) ∧
    search (H := Latin1.latin1) (patterns k_spi) scenario_text = None ∧
    metrics out !! py "spi" = None ∧
    status (_evaluate_schedule_health (H := Latin1.latin1)
              (index_at (metrics out) (py "spi"))) = unknown.
Proof.
  eexists. split; [vm_compute; reflexivity|].
  split_and!; vm_compute; reflexivity.
Qed.

(** The source's own example sentence and sample file fare the same. *)
Example source_examples_have_no_spi :
  search (H := Latin1.latin1) (patterns k_spi) comment_text = None ∧
  search (H := Latin1.latin1) (patterns k_spi) sample_text = None ∧
  search (H := Latin1.latin1) (patterns k_delay_days) comment_text
    = Some (Some (py "10")).
Proof. vm_compute. done. Qed.

(** With the index after a separator the scenario comes out as the spec
    has it. *)
Example labelled_scenario :
  ∃ out,
    process_status_file (H := Latin1.latin1) labelled_text = Ok out ∧
    metrics out !! py "spi" = Some (VFloat (fl 0.85)) ∧
    status (_evaluate_schedule_health (H := Latin1.latin1)
              (index_at (metrics out) (py "spi"))) = warning.
Proof.
  eexists. split; [vm_compute; reflexivity|].
  split; vm_compute; reflexivity.
Qed.

(** C10. The code on a readable text for which the claim fails. In
    "O custo atual R$ 2,5, sem atraso" the pattern of [actual_cost] matches
    and its group takes the comma after the amount ("2,5,"); the conversion
    of "2.5." by [float] raises [ValueError], which nothing catches, so
    [process_status_file] returns no metrics mapping: the keys
    [scope_change_detected] and [risk_detected] are not present, although
    both keyword tests give false on this text. The sample report of the
    source with a comma after its last amount fares the same. The
    label-based extractor guards the same conversion: on the line
    "Custo real atual: R$ 2,5," it returns, with [custo_real] absent. *)
Theorem boolean_metrics_lost_on_raise :
  search (H := Latin1.latin1) (patterns k_actual_cost) comma_text
    = Some (Some (py "2,5,")) ∧
  process_status_file (H := Latin1.latin1) comma_text
    = Raise (ValueError (py "could not convert string to float")) ∧
  any_keyword (H := Latin1.latin1) scope_change_keywords comma_text = false ∧
  any_keyword (H := Latin1.latin1) risk_keywords comma_text = false ∧
  process_status_file (H := Latin1.latin1) comma_report
    = Raise (ValueError (py "could not convert string to float")) ∧
  ∃ st, _extract_cost_status (H := Latin1.latin1) comma_cost_line = Ok st
        ∧ st !! py "custo_real" = None.
Proof.
  split; [vm_compute; reflexivity|].
  split; [vm_compute; reflexivity|].
  split; [vm_compute; reflexivity|].
  split; [vm_compute; reflexivity|].
  split; [vm_compute; reflexivity|].
  eexists. split; [vm_compute; reflexivity|]. vm_compute. reflexivity.
Qed.

End ProcessorClaims.

(** * Further properties *)

(** ** Label-based extraction: which line decides a field *)

Lemma for_each_app {S} (step : str → S → res S) (l1 l2 : list str) (st : S) :
  for_each step (l1 ++ l2) st = (st1 ← for_each step l1 st; for_each step l2 st1).
Proof.
  revert st. induction l1 as [|l ls IH]; intros st; simpl; [done|].
  destruct (step l st) as [st'|e]; simpl; [apply IH | done].
Qed.

(** A line that does not store under [k] leaves the entry of [k] alone. *)
Lemma first_branch_frame (fs : list field) (line : str) (st st' : dict) (k : str) :
  Forall field_safe fs →
  (∀ f, selected fs line = Some f → key f = k → ∃ e, line_value f line = Raise e) →
  first_branch fs line st = Ok st' →
  st' !! k = st !! k.
Proof.
  intros Hfs Hfail Hrun.
  destruct (selected fs line) as [f|] eqn:Hs.
  - destruct (decide (key f = k)) as [Hkey|Hkey].
    + destruct (Hfail f eq_refl Hkey) as [e He].
      rewrite (first_branch_failed fs line f e st Hfs Hs He) in Hrun.
      by apply Ok_inj in Hrun as <-.
    + rewrite first_branch_selected, Hs in Hrun.
      unfold run_branch in Hrun. rewrite branch_body_value in Hrun.
      destruct (line_value f line) as [v|e]; simpl in Hrun.
      * assert (st' = <[key f := v]> st) as ->
          by (destruct (guarded f); by apply Ok_inj in Hrun as <-).
        by rewrite lookup_insert_ne.
      * destruct (guarded f); [by apply Ok_inj in Hrun as <- | done].
  - rewrite first_branch_selected, Hs in Hrun. by apply Ok_inj in Hrun as <-.
Qed.

Lemma for_each_frame (fs : list field) (k : str) (lines : list str) :
  Forall field_safe fs →
  (∀ line f, line ∈ lines → selected fs line = Some f → key f = k →
             ∃ e, line_value f line = Raise e) →
  ∀ st st' : dict, for_each (first_branch fs) lines st = Ok st' →
                   st' !! k = st !! k.
Proof.
  intros Hfs. induction lines as [|l ls IH]; intros Hfail st st' Hrun.
  - simpl in Hrun. by apply Ok_inj in Hrun as <-.
  - simpl in Hrun.
    destruct (first_branch fs l st) as [st1|] eqn:H1; [|done]. simpl in Hrun.
    rewrite (IH (λ line f Hin, Hfail line f (list_elem_of_further _ _ _ Hin))
               _ _ Hrun).
    eapply first_branch_frame; [done| |exact H1].
    intros f. apply Hfail. left.
Qed.

(** A line that selects [f] and converts stores the value under [key f]. *)
Lemma first_branch_stores (fs : list field) (line : str) (f : field)
    (v : value) (st : dict) :
  selected fs line = Some f → line_value f line = Ok v →
  first_branch fs line st = Ok (<[key f := v]> st).
Proof.
  intros Hs Hv. rewrite first_branch_selected, Hs. unfold run_branch.
  rewrite branch_body_value, Hv. simpl. by destruct (guarded f).
Qed.

Lemma for_each_last_wins (fs : list field) (lines1 lines2 : list str)
    (line : str) (f : field) (v : value) (st0 st : dict) :
  Forall field_safe fs →
  selected fs line = Some f → line_value f line = Ok v →
  (∀ l g, l ∈ lines2 → selected fs l = Some g → key g = key f →
          ∃ e, line_value g l = Raise e) →
  for_each (first_branch fs) (lines1 ++ line :: lines2) st0 = Ok st →
  st !! key f = Some v.
Proof.
  intros Hfs Hs Hv Hlater Hrun. rewrite for_each_app in Hrun.
  destruct (for_each (first_branch fs) lines1 st0) as [st1|]; [|done].
  simpl in Hrun. rewrite (first_branch_stores _ _ _ _ _ Hs Hv) in Hrun.
  simpl in Hrun.
  rewrite (for_each_frame fs (key f) lines2 Hfs Hlater _ _ Hrun).
  apply lookup_insert_eq.
Qed.

Section WhichLine.
Context `{Runtime}.

Lemma fields_of_safe (k : report_kind) : Forall field_safe (fields_of k).
Proof. destruct k; [apply schedule_fields_safe | apply cost_fields_safe]. Qed.

(** The keys written after the first loop are not keys of the chain. *)
Lemma section_keys_apart (k : report_kind) (f : field) :
  f ∈ fields_of k →
  py "tarefas_criticas" ≠ key f ∧ py "tarefas_atrasadas" ≠ key f
  ∧ py "categorias_custos" ≠ key f.
Proof.
  intros Hf.
  assert (Forall (λ g, py "tarefas_criticas" ≠ key g
                       ∧ py "tarefas_atrasadas" ≠ key g
                       ∧ py "categorias_custos" ≠ key g) (fields_of k)) as Hall.
  { destruct k; simpl; unfold schedule_fields, cost_fields;
      repeat (apply List.Forall_cons;
              [split_and!; intros Heq; vm_compute in Heq; discriminate Heq|]);
      apply List.Forall_nil. }
  rewrite Forall_forall in Hall. by apply Hall.
Qed.

Lemma extract_first_loop (k : report_kind) (content : str) (st : dict) :
  extract k content = Ok st →
  ∃ st0, for_each (first_branch (fields_of k)) (lines_of content) ∅ = Ok st0
         ∧ ∀ f, f ∈ fields_of k → st !! key f = st0 !! key f.
Proof.
  destruct k; cbn [extract fields_of].
  - destruct (_extract_schedule_status_returns content) as (st0&H0&tc&ta&->).
    intros Heq%Ok_inj. subst st. exists st0. split; [exact H0|]. intros f Hf.
    destruct (section_keys_apart Schedule f Hf) as (?&?&?).
    rewrite !lookup_insert_ne by assumption. reflexivity.
  - destruct (_extract_cost_status_returns content) as (st0&H0&cats&->).
    intros Heq%Ok_inj. subst st. exists st0. split; [exact H0|]. intros f Hf.
    destruct (section_keys_apart Cost f Hf) as (?&?&?).
    rewrite !lookup_insert_ne by assumption. reflexivity.
Qed.

End WhichLine.

(** X1. When several lines carry the same label, the last one whose value
    converts decides the field: if a line selects a branch and converts, and
    no later line stores under the same key, the result holds that line's
    value (earlier lines are overwritten). Both extractors. *)
Theorem last_converting_line_wins `{Runtime} (k : report_kind) (content : str)
    (lines1 lines2 : list str) (line : str) (f : field) (v : value) (st : dict)
    (Hlines : lines_of content = lines1 ++ line :: lines2)
    (Hsel : selected (fields_of k) line = Some f)
    (Hval : line_value f line = Ok v)
    (Hlater : ∀ l g, l ∈ lines2 → selected (fields_of k) l = Some g →
                     key g = key f → ∃ e, line_value g l = Raise e)
    (Hrun : extract k content = Ok st) :
  st !! key f = Some v.
Proof.
  destruct (extract_first_loop k content st Hrun) as (st0 & H0 & Hsame).
  rewrite Hsame by (apply (selected_elem _ line), Hsel).
  rewrite Hlines in H0.
  exact (for_each_last_wins _ _ _ _ _ _ _ _ (fields_of_safe k) Hsel Hval
           Hlater H0).
Qed.

Lemma last_converting_line_wins_witness :
  ∃ st, extract (H := Latin1.latin1) Schedule revised_report = Ok st
        ∧ st !! py "spi" = Some (VFloat (fl 0.95)).
Proof.
  destruct (_extract_schedule_status_returns (H := Latin1.latin1) revised_report)
    as (st0 & _ & tc & ta & E).
  eexists. split; [exact E|].
  apply (last_converting_line_wins (H := Latin1.latin1) Schedule revised_report
           [py "Índice de Desempenho de Cronograma (SPI): 0.80";
            py "Valor Planejado (PV): 1000"]
           [py "Valor Planejado (PV): mil"]
           (py "Índice de Desempenho de Cronograma (SPI): 0.95")
           (float_field (H := Latin1.latin1)
              "Índice de Desempenho de Cronograma (SPI):" "spi" (λ s, s))
           (VFloat (fl 0.95))).
  - vm_compute. reflexivity.
  - reflexivity.
  - vm_compute. do 2 f_equal.
  - intros l g Hl Hg Hk. apply list_elem_of_singleton in Hl. subst l.
    apply (f_equal (option_map key)) in Hg.
    vm_compute in Hg. vm_compute in Hk. congruence.
  - exact E.
Defined.

(** ** Bullet sections *)

Lemma task_scan_sources (lines : list str) :
  ∀ sc,
    let sc' := foldl task_step sc lines in
    (∀ t, t ∈ tarefas_criticas sc' →
          t ∈ tarefas_criticas sc
          ∨ ∃ l, l ∈ lines ∧ is_bullet l = true ∧ t = bullet_text l) ∧
    (∀ t, t ∈ tarefas_atrasadas sc' →
          t ∈ tarefas_atrasadas sc
          ∨ ∃ l, l ∈ lines ∧ is_bullet l = true ∧ t = bullet_text l).
Proof.
  induction lines as [|l ls IH]; intros sc; cbn [foldl]; [by split; left|].
  destruct (IH (task_step sc l)) as [IHc IHd].
  assert ((∀ t, t ∈ tarefas_criticas (task_step sc l) →
                t ∈ tarefas_criticas sc ∨ (is_bullet l = true ∧ t = bullet_text l))
          ∧ (∀ t, t ∈ tarefas_atrasadas (task_step sc l) →
                  t ∈ tarefas_atrasadas sc ∨ (is_bullet l = true ∧ t = bullet_text l)))
    as [Hc Hd].
  { unfold task_step.
    destruct (contains _ l); [split; intros t Ht; left; exact Ht|].
    destruct (contains _ l); [split; intros t Ht; left; exact Ht|].
    destruct (closes_section l); [split; intros t Ht; left; exact Ht|].
    destruct (is_bullet l) eqn:Hb; rewrite ?andb_false_r, ?andb_true_r;
      [|split; intros t Ht; left; exact Ht].
    destruct (in_critical_section sc); cbn [tarefas_criticas tarefas_atrasadas].
    - split; [|intros t Ht; left; exact Ht].
      intros t Ht. apply elem_of_app in Ht as [Ht|Ht]; [left; exact Ht|].
      apply list_elem_of_singleton in Ht. right. split; [reflexivity|exact Ht].
    - destruct (in_delayed_section sc); cbn [tarefas_criticas tarefas_atrasadas];
        [|split; intros t Ht; left; exact Ht].
      split; [intros t Ht; left; exact Ht|].
      intros t Ht. apply elem_of_app in Ht as [Ht|Ht]; [left; exact Ht|].
      apply list_elem_of_singleton in Ht. right. split; [reflexivity|exact Ht]. }
  split; intros t Ht.
  - destruct (IHc t Ht) as [Ht'|(l'&Hl'&Hb&Heq)].
    + destruct (Hc t Ht') as [?|[Hb Heq]]; [by left|].
      right. exists l. split_and!; [left | done | done].
    + right. exists l'. split_and!; [by right | done | done].
  - destruct (IHd t Ht) as [Ht'|(l'&Hl'&Hb&Heq)].
    + destruct (Hd t Ht') as [?|[Hb Heq]]; [by left|].
      right. exists l. split_and!; [left | done | done].
    + right. exists l'. split_and!; [by right | done | done].
Qed.

Lemma task_scan_no_critical_header (lines : list str) :
  (∀ l, l ∈ lines → contains (py "Tarefas críticas:") l = false) →
  ∀ sc, in_critical_section sc = false →
        tarefas_criticas (foldl task_step sc lines) = tarefas_criticas sc.
Proof.
  induction lines as [|l ls IH]; intros Hno sc Hin; cbn [foldl]; [done|].
  assert (in_critical_section (task_step sc l) = false
          ∧ tarefas_criticas (task_step sc l) = tarefas_criticas sc) as [H1 H2].
  { unfold task_step. rewrite (Hno l) by left.
    destruct (contains _ l); [done|].
    destruct (closes_section l); [done|]. rewrite Hin. cbn [andb].
    destruct (in_delayed_section sc && is_bullet l); done. }
  rewrite IH; [done| |done]. intros l' Hl'. apply Hno. by right.
Qed.

Lemma task_scan_no_delayed_header (lines : list str) :
  (∀ l, l ∈ lines → contains (py "Tarefas atrasadas:") l = false) →
  ∀ sc, in_delayed_section sc = false →
        tarefas_atrasadas (foldl task_step sc lines) = tarefas_atrasadas sc.
Proof.
  induction lines as [|l ls IH]; intros Hno sc Hin; cbn [foldl]; [done|].
  assert (in_delayed_section (task_step sc l) = false
          ∧ tarefas_atrasadas (task_step sc l) = tarefas_atrasadas sc) as [H1 H2].
  { unfold task_step. rewrite (Hno l) by left.
    destruct (contains _ l); [done|].
    destruct (closes_section l); [done|]. rewrite Hin. cbn [andb].
    destruct (in_critical_section sc && is_bullet l); done. }
  rewrite IH; [done| |done]. intros l' Hl'. apply Hno. by right.
Qed.

Section CategoryScan.
Context `{Runtime}.

Lemma category_scan_no_header (lines : list str) :
  (∀ l, l ∈ lines → contains (py "Detalhamento por categoria:") l = false) →
  ∀ sc, in_categories_section sc = false →
        categorias_custos (foldl category_step sc lines) = categorias_custos sc.
Proof.
  induction lines as [|l ls IH]; intros Hno sc Hin; cbn [foldl]; [done|].
  assert (in_categories_section (category_step sc l) = false
          ∧ categorias_custos (category_step sc l) = categorias_custos sc)
    as [H1 H2].
  { unfold category_step. rewrite (Hno l) by left.
    destruct (closes_section l); [done|]. by rewrite Hin. }
  rewrite IH; [done| |done]. intros l' Hl'. apply Hno. by right.
Qed.

End CategoryScan.

(** X2. The section entries are always in the extractors' results, unlike
    the labelled fields: [tarefas_criticas] and [tarefas_atrasadas] (schedule)
    and [categorias_custos] (cost) are present for every text. Every task
    collected is the text of a bullet line of the report; with no
    "Tarefas críticas:" (resp. "Tarefas atrasadas:", "Detalhamento por
    categoria:") line in the report the entry is the empty list (resp. the
    empty mapping): bullets outside a section are never collected. *)
Theorem section_entries_always_present `{Runtime} (content : str) :
  (∃ st tc ta,
     _extract_schedule_status content = Ok st
     ∧ st !! py "tarefas_criticas" = Some (VList tc)
     ∧ st !! py "tarefas_atrasadas" = Some (VList ta)
     ∧ (∀ t, t ∈ tc ++ ta →
             ∃ l, l ∈ lines_of content ∧ is_bullet l = true ∧ t = bullet_text l)
     ∧ ((∀ l, l ∈ lines_of content →
              contains (py "Tarefas críticas:") l = false) → tc = [])
     ∧ ((∀ l, l ∈ lines_of content →
              contains (py "Tarefas atrasadas:") l = false) → ta = [])) ∧
  (∃ st cats,
     _extract_cost_status content = Ok st
     ∧ st !! py "categorias_custos" = Some (VCats cats)
     ∧ ((∀ l, l ∈ lines_of content →
              contains (py "Detalhamento por categoria:") l = false) →
        cats = ∅)).
Proof.
  split.
  - destruct (_extract_schedule_status_returns content) as (st0&H0&_&_&_).
    unfold _extract_schedule_status. rewrite H0. cbn [mbind res_bind mret res_ret].
    set (sc0 := {| in_critical_section := false; in_delayed_section := false;
                   tarefas_criticas := []; tarefas_atrasadas := [] |}).
    eexists _, _, _. split; [reflexivity|].
    split_and!.
    + rewrite lookup_insert_ne by (intros Heq; vm_compute in Heq; discriminate Heq).
      apply lookup_insert_eq.
    + apply lookup_insert_eq.
    + intros t Ht. destruct (task_scan_sources (lines_of content) sc0) as [Hc Hd].
      apply elem_of_app in Ht as [Ht|Ht].
      * destruct (Hc t Ht) as [Hnil|?]; [by apply elem_of_nil in Hnil | done].
      * destruct (Hd t Ht) as [Hnil|?]; [by apply elem_of_nil in Hnil | done].
    + intros Hno. by rewrite (task_scan_no_critical_header _ Hno sc0).
    + intros Hno. by rewrite (task_scan_no_delayed_header _ Hno sc0).
  - destruct (_extract_cost_status_returns content) as (st0&H0&_&_).
    unfold _extract_cost_status. rewrite H0. cbn [mbind res_bind mret res_ret].
    eexists _, _. split; [reflexivity|]. split; [apply lookup_insert_eq|].
    intros Hno. by rewrite (category_scan_no_header _ Hno).
Qed.

(** ** Health is monotone in the index *)

(** Linear arithmetic between indices and decimal thresholds. *)
Ltac threshold_order :=
  unfold Qcle, Qclt, fl in *; cbn [this Q2Qc] in *;
  repeat match goal with
    | H : context [Qred ?q] |- _ =>
        let r := eval vm_compute in (Qred q) in change (Qred q) with r in H
    | |- context [Qred ?q] =>
        let r := eval vm_compute in (Qred q) in change (Qred q) with r
    end;
  lra.

Ltac monotone_bands :=
  repeat case_decide; cbn [status rank]; try lia; exfalso; threshold_order.

(** X3. A larger index never gives a worse health status, in both
    classifiers: the bands are ordered. *)
Theorem health_monotone `{Runtime} (x y : Qc) (Hle : (x ≤ y)%Qc) :
  (rank (status (_evaluate_schedule_health (Some x)))
   ≤ rank (status (_evaluate_schedule_health (Some y))))%nat ∧
  (rank (status (_evaluate_cost_health (Some x)))
   ≤ rank (status (_evaluate_cost_health (Some y))))%nat.
Proof.
  split.
  - unfold _evaluate_schedule_health. monotone_bands.
  - unfold _evaluate_cost_health. monotone_bands.
Qed.

Lemma health_monotone_witness :
  (fl 0.7 ≤ fl 0.95)%Qc ∧
  (rank (status (_evaluate_schedule_health (H := Latin1.latin1) (Some (fl 0.7))))
   ≤ rank (status (_evaluate_schedule_health (H := Latin1.latin1)
                     (Some (fl 0.95)))))%nat ∧
  (rank (status (_evaluate_cost_health (H := Latin1.latin1) (Some (fl 0.7))))
   ≤ rank (status (_evaluate_cost_health (H := Latin1.latin1)
                     (Some (fl 0.95)))))%nat.
Proof.
  assert (fl 0.7 ≤ fl 0.95)%Qc as Hle by (vm_compute; discriminate).
  split; [exact Hle|].
  exact (health_monotone (H := Latin1.latin1) (fl 0.7) (fl 0.95) Hle).
Defined.

(** ** Extraction followed by derivation *)

(** On a typed record the step returns, and the indicator it hands on is the
    one the returned record holds. *)
Lemma derive_returns (ind num den : str) (st : dict) :
  float_or_absent st ind = true →
  float_or_absent st num = true →
  float_or_absent st den = true →
  ∃ st' v, derive ind num den st = Ok (st', v)
           ∧ (∀ k, k ≠ ind → st' !! k = st !! k)
           ∧ (st' !! ind = None ∧ v = VNone
              ∨ ∃ q, st' !! ind = Some (VFloat q) ∧ v = VFloat q).
Proof.
  unfold float_or_absent. intros Hi Hn Hd.
  destruct (st !! ind) as [[| | |x| | |]|] eqn:Ei; try discriminate.
  { exists st, (VFloat x). unfold derive, get_or. rewrite Ei.
    split; [reflexivity|]. split; [done|]. right. eauto. }
  assert (derive ind num den st = Ok (st, VNone)
          ∨ ∃ q, derive ind num den st
                 = Ok (<[ind := VFloat q]> st, VFloat q)) as [E|[q E]].
  { destruct (st !! num) as [[| | |e| | |]|] eqn:En; try discriminate;
      [destruct (st !! den) as [[| | |p| | |]|] eqn:Ed; try discriminate|].
    - destruct (decide (0 < p)%Qc) as [Hp|Hp].
      + right. exists (e / p)%Qc. by apply derive_fills.
      + left. unfold derive, get_or.
        rewrite Ei, (has_key_Some _ _ _ En), (has_key_Some _ _ _ Ed), En, Ed.
        cbn [default from_option id is_None andb]. rewrite py_gt_float_zero.
        by rewrite bool_decide_eq_false_2.
    - left. unfold derive, get_or.
      rewrite Ei, (has_key_None _ _ Ed). cbn [default from_option id is_None andb].
      by rewrite andb_false_r.
    - left. unfold derive, get_or.
      rewrite Ei, (has_key_None _ _ En). by cbn [default from_option id is_None andb]. }
  - exists st, VNone. split; [exact E|]. split; [done|]. by left.
  - exists (<[ind := VFloat q]> st), (VFloat q). split; [exact E|].
    split; [intros k Hk; by rewrite lookup_insert_ne|].
    right. exists q. split; [apply lookup_insert_eq | done].
Qed.

Lemma evm_key_spi : py "spi" ∈ evm_keys.
Proof. unfold evm_keys. set_solver. Qed.
Lemma evm_key_cpi : py "cpi" ∈ evm_keys.
Proof. unfold evm_keys. set_solver. Qed.
Lemma evm_key_ev : py "valor_agregado" ∈ evm_keys.
Proof. unfold evm_keys. set_solver. Qed.
Lemma evm_key_pv : py "valor_planejado" ∈ evm_keys.
Proof. unfold evm_keys. set_solver. Qed.
Lemma evm_key_ac : py "custo_real" ∈ evm_keys.
Proof. unfold evm_keys. set_solver. Qed.

(** X4. For every report text, extraction followed by the SPI step (resp.
    the CPI step) returns: the step cannot meet a value of the wrong type.
    The indicator it hands to the health classifier is [None] exactly when
    the returned record has no [spi] (resp. [cpi]) entry, and the float
    stored there otherwise; the step changes no other entry. *)
Theorem extraction_then_derivation_returns `{Runtime} (content : str) :
  (∃ st0 st v,
     _extract_schedule_status content = Ok st0 ∧ derive_spi st0 = Ok (st, v)
     ∧ (∀ k, k ≠ py "spi" → st !! k = st0 !! k)
     ∧ (st !! py "spi" = None ∧ v = VNone
        ∨ ∃ q, st !! py "spi" = Some (VFloat q) ∧ v = VFloat q)) ∧
  (∃ st0 st v,
     _extract_cost_status content = Ok st0 ∧ derive_cpi st0 = Ok (st, v)
     ∧ (∀ k, k ≠ py "cpi" → st !! k = st0 !! k)
     ∧ (st !! py "cpi" = None ∧ v = VNone
        ∨ ∃ q, st !! py "cpi" = Some (VFloat q) ∧ v = VFloat q)).
Proof.
  split.
  - destruct (_extract_schedule_status_returns content) as (?&_&?&?&E).
    pose proof (_extract_schedule_status_typed _ _ E) as Hty.
    destruct (derive_returns (py "spi") (py "valor_agregado")
                (py "valor_planejado") _
                (evm_typed_key _ (py "spi") Hty evm_key_spi)
                (evm_typed_key _ (py "valor_agregado") Hty evm_key_ev)
                (evm_typed_key _ (py "valor_planejado") Hty evm_key_pv))
      as (st & v & Hd & Hrest).
    eexists _, st, v. split; [exact E|]. split; [exact Hd | exact Hrest].
  - destruct (_extract_cost_status_returns content) as (?&_&?&E).
    pose proof (_extract_cost_status_typed _ _ E) as Hty.
    destruct (derive_returns (py "cpi") (py "valor_agregado")
                (py "custo_real") _
                (evm_typed_key _ (py "cpi") Hty evm_key_cpi)
                (evm_typed_key _ (py "valor_agregado") Hty evm_key_ev)
                (evm_typed_key _ (py "custo_real") Hty evm_key_ac))
      as (st & v & Hd & Hrest).
    eexists _, st, v. split; [exact E|]. split; [exact Hd | exact Hrest].
Qed.

(** ** Couplings between the rules of a catalogue *)

(** Case analysis on a rule of a literal catalogue by its id. *)
Ltac rule_cases H Hid :=
  repeat (apply elem_of_cons in H as [-> | H]);
  [.. | by apply elem_of_nil in H];
  try (vm_compute in Hid; discriminate Hid).

Section RuleCouplings.
Import PMBOKGuardRails GuardRailSpec GuardRailMore.

Lemma fired_ids_spec (data : dict) (rs : list rule) (i : str) :
  (∀ r, r ∈ rs → r_action r ≠ error) →
  i ∈ fired_ids (omap (rule_outcome data) rs) ↔
  ∃ r, r ∈ rs ∧ r_id r = i ∧ fires data r = true.
Proof.
  intros Hact. unfold fired_ids. rewrite list_elem_of_omap. split.
  - intros (m & Hm & Hi). apply list_elem_of_omap in Hm as (r & Hr & Ho).
    exists r. split; [done|]. unfold rule_outcome in Ho. unfold fires.
    destruct (r_condition r data) as [[|]|e]; [| done |].
    + apply (inj Some) in Ho. subst m. cbn in Hi.
      case_bool_decide; [done|]. by apply (inj Some) in Hi.
    + apply (inj Some) in Ho. subst m. cbn in Hi.
      by rewrite bool_decide_eq_true_2 in Hi.
  - intros (r & Hr & <- & Hf). exists (fired_message r). split.
    + apply list_elem_of_omap. exists r. split; [done|].
      unfold rule_outcome. unfold fires in Hf.
      by destruct (r_condition r data) as [[|]|e].
    + cbn. rewrite bool_decide_eq_false_2; [done|]. by apply Hact.
Qed.

Lemma and_true (a b : res bool) :
  a &&& b = Ok true ↔ a = Ok true ∧ b = Ok true.
Proof.
  unfold and_. destruct a as [[|]|e]; cbn; split; try done.
  - by intros [_ ?].
  - by intros [? _].
  - by intros [? _].
Qed.

Lemma below_true (data : dict) (k : string) (c : Qc) :
  present data k &&& below data k (VFloat c) = Ok true ↔ reads_below data k c.
Proof.
  rewrite and_true. unfold present, below, reads_below, py_lt.
  destruct (get data (py k)) as [| b | z | q | s | l | m]; cbn;
    try (split; [by intros [? ?] | by intros (? & ? & ?)]).
  all: split;
    [ intros [_ Hlt]; apply Ok_inj, bool_decide_eq_true in Hlt; eauto
    | intros (q' & Hq & Hlt); apply (inj Some) in Hq; subst q'; split; [done|];
      by rewrite bool_decide_eq_true_2 ].
Qed.

Lemma reads_below_weaken (data : dict) (k : string) (c c' : Qc) :
  (c ≤ c')%Qc → reads_below data k c → reads_below data k c'.
Proof.
  intros Hc (q & Hq & Hlt). exists q. split; [done|].
  by eapply Qclt_le_trans.
Qed.

Lemma fires_eq (data : dict) (r : rule) :
  fires data r = true ↔ r_condition r data = Ok true.
Proof. unfold fires. destruct (r_condition r data) as [[|]|]; split; done. Qed.

Lemma fires_mk (data : dict) (i n d : string) (c : dict → res bool)
    (a : action) (m : string) :
  fires data (mk i n d c a m) = true ↔ c data = Ok true.
Proof. apply fires_eq. Qed.

Lemma catalogue_actions (domain : str) (rs : list rule) :
  rules !! domain = Some rs → ∀ r, r ∈ rs → r_action r ≠ error.
Proof.
  unfold rules. intros Hd r Hr.
  repeat (apply lookup_insert_Some in Hd as [[_ <-] | [_ Hd]]);
    [.. | by rewrite lookup_empty in Hd].
  all: unfold _load_risk_rules, _load_scope_rules, _load_cost_rules,
         _load_schedule_rules in Hr;
       repeat (apply elem_of_cons in Hr as [-> | Hr]);
       try (by apply elem_of_nil in Hr); discriminate.
Qed.

Lemma fired_ids_validate (domain : str) (rs : list rule) (data : dict)
    (now i : str) :
  rules !! domain = Some rs →
  i ∈ fired_ids (messages (validate domain data now)) ↔
  ∃ r, r ∈ rs ∧ r_id r = i ∧ fires data r = true.
Proof.
  intros Hd. rewrite (validate_known _ _ _ _ Hd). cbn [messages].
  apply fired_ids_spec. by apply (catalogue_actions domain).
Qed.

(** X5. Rules of a catalogue that fire together, for every data mapping:
    in the schedule domain the SCH-001 alert and the SCH-005 recommendation
    never appear without the SCH-002 requirement; in the cost domain the
    COST-001 alert implies the COST-002 requirement, and COST-002 and
    COST-005 appear together or not at all; in the scope domain SCOPE-001
    and SCOPE-005 appear together or not at all; in the risk domain the
    RISK-003 recommendation is always there. *)
Theorem rule_couplings (data : dict) (now : str) :
  let sch := fired_ids (messages (validate (py "cronograma") data now)) in
  let cost := fired_ids (messages (validate (py "custos") data now)) in
  let scope := fired_ids (messages (validate (py "escopo") data now)) in
  let risk := fired_ids (messages (validate (py "riscos") data now)) in
  (py "SCH-001" ∈ sch → py "SCH-002" ∈ sch) ∧
  (py "SCH-005" ∈ sch → py "SCH-002" ∈ sch) ∧
  (py "COST-001" ∈ cost → py "COST-002" ∈ cost) ∧
  (py "COST-002" ∈ cost ↔ py "COST-005" ∈ cost) ∧
  (py "SCOPE-001" ∈ scope ↔ py "SCOPE-005" ∈ scope) ∧
  py "RISK-003" ∈ risk.
Proof.
  cbv zeta.
  rewrite !(fired_ids_validate (py "cronograma") _load_schedule_rules) by reflexivity.
  rewrite !(fired_ids_validate (py "custos") _load_cost_rules) by reflexivity.
  rewrite !(fired_ids_validate (py "escopo") _load_scope_rules) by reflexivity.
  rewrite !(fired_ids_validate (py "riscos") _load_risk_rules) by reflexivity.
  split_and!.
  - intros (r & Hr & Hid & Hf). unfold _load_schedule_rules in Hr.
    rule_cases Hr Hid. apply fires_eq in Hf. cbn [r_condition mk] in Hf.
    apply below_true in Hf.
    eexists. split; [unfold _load_schedule_rules; right; left|].
    split; [reflexivity|]. apply fires_eq. cbn [r_condition mk].
    apply below_true. eapply reads_below_weaken; [|exact Hf].
    vm_compute. discriminate.
  - intros (r & Hr & Hid & Hf). unfold _load_schedule_rules in Hr.
    rule_cases Hr Hid. apply fires_eq in Hf. cbn [r_condition mk] in Hf.
    apply and_true in Hf as [Hf _]. apply and_true in Hf as [Hf _].
    eexists. split; [unfold _load_schedule_rules; right; left|].
    split; [reflexivity|]. apply fires_eq. cbn [r_condition mk]. exact Hf.
  - intros (r & Hr & Hid & Hf). unfold _load_cost_rules in Hr.
    rule_cases Hr Hid. apply fires_eq in Hf. cbn [r_condition mk] in Hf.
    apply below_true in Hf.
    eexists. split; [unfold _load_cost_rules; right; left|].
    split; [reflexivity|]. apply fires_eq. cbn [r_condition mk].
    apply below_true. eapply reads_below_weaken; [|exact Hf].
    vm_compute. discriminate.
  - split; intros (r & Hr & Hid & Hf); unfold _load_cost_rules in Hr;
      rule_cases Hr Hid; apply fires_mk in Hf; eexists.
    + split; [unfold _load_cost_rules; do 4 right; left|].
      split; [reflexivity|]. apply fires_mk. exact Hf.
    + split; [unfold _load_cost_rules; right; left|].
      split; [reflexivity|]. apply fires_mk. exact Hf.
  - split; intros (r & Hr & Hid & Hf); unfold _load_scope_rules in Hr;
      rule_cases Hr Hid; apply fires_mk in Hf; eexists.
    + split; [unfold _load_scope_rules; do 4 right; left|].
      split; [reflexivity|]. apply fires_mk. exact Hf.
    + split; [unfold _load_scope_rules; left|].
      split; [reflexivity|]. apply fires_mk. exact Hf.
  - eexists. split; [unfold _load_risk_rules; do 2 right; left|].
    split; reflexivity.
Qed.

End RuleCouplings.

(** ** Requirement flags and the rule conditions *)

Section RequirementFlags.
Import PMBOKGuardRails GuardRailSpec GuardRailMore.

Ltac flag_apart :=
  let E := fresh in intros E; vm_compute in E; discriminate E.

(** No condition of the four catalogues reads a key that begins with
    [requirement_]. *)
Lemma condition_ignores_flags (domain : str) (rs : list rule) (r : rule)
    (k : str) (v : value) (data : dict) :
  rules !! domain = Some rs → r ∈ rs →
  r_condition r (<[py "requirement_" ++ k := v]> data) = r_condition r data.
Proof.
  unfold rules. intros Hd Hr.
  repeat (apply lookup_insert_Some in Hd as [[_ <-] | [_ Hd]]);
    [.. | by rewrite lookup_empty in Hd].
  all: unfold _load_risk_rules, _load_scope_rules, _load_cost_rules,
         _load_schedule_rules in Hr;
       repeat (apply elem_of_cons in Hr as [-> | Hr]);
       try (by apply elem_of_nil in Hr);
       cbn [r_condition mk];
       unfold present, below, above, nonempty, equals_str, is_True, get;
       rewrite ?lookup_insert_ne by flag_apart; reflexivity.
Qed.

Lemma rule_outcome_ignores_flags (domain : str) (rs : list rule) (r : rule)
    (k : str) (v : value) (data : dict) :
  rules !! domain = Some rs → r ∈ rs →
  rule_outcome (<[py "requirement_" ++ k := v]> data) r = rule_outcome data r.
Proof.
  intros Hd Hr. unfold rule_outcome.
  rewrite (condition_ignores_flags domain rs r k v data Hd Hr). reflexivity.
Qed.

Lemma outcomes_ignore_flag (domain : str) (rs l : list rule) (k : str)
    (v : value) (data : dict) :
  rules !! domain = Some rs → l ⊆ rs →
  omap (rule_outcome (<[py "requirement_" ++ k := v]> data)) l
  = omap (rule_outcome data) l.
Proof.
  intros Hd. induction l as [|r l IH]; intros Hsub; [reflexivity|].
  assert (r ∈ rs) as Hr by (apply Hsub; left).
  assert (l ⊆ rs) as Hl by (intros x Hx; apply Hsub; right; exact Hx).
  change (omap ?f (r :: l)) with
    (match f r with Some y => y :: omap f l | None => omap f l end).
  rewrite (rule_outcome_ignores_flags domain rs r k v data Hd Hr).
  rewrite (IH Hl). reflexivity.
Qed.

Lemma outcomes_ignore_flags (domain : str) (rs flagged : list rule)
    (data : dict) :
  rules !! domain = Some rs →
  omap (rule_outcome (with_flags flagged data)) rs
  = omap (rule_outcome data) rs.
Proof.
  intros Hd. induction flagged as [|a flagged IH]; [reflexivity|].
  rewrite <- IH. cbn [with_flags foldr]. fold (with_flags flagged data).
  unfold requirement_key.
  apply (outcomes_ignore_flag domain rs rs); [exact Hd | reflexivity].
Qed.

Lemma with_flags_sets (rs : list rule) (data : dict) (r : rule) :
  r ∈ rs → with_flags rs data !! requirement_key r = Some (VBool true).
Proof.
  induction rs as [|a rs IH]; intros Hr; [by apply elem_of_nil in Hr|].
  cbn [with_flags foldr]. fold (with_flags rs data).
  rewrite lookup_insert. case_decide as Hk; [reflexivity|].
  apply IH. apply elem_of_cons in Hr as [-> | Hr]; [congruence | exact Hr].
Qed.

Lemma with_flags_ok (rs : list rule) (data : dict) (r : rule) :
  r ∈ rs → rule_ok (with_flags rs data) r = true.
Proof.
  intros Hr. apply rule_ok_spec. intros _ _. exists (VBool true).
  split; [|reflexivity]. apply (with_flags_sets rs data r Hr).
Qed.

(** X6. Requirement flags are an honour system that the rule conditions
    never read. For every known domain and data mapping, setting the flag
    [requirement_<id>_met] of every rule of the domain leaves the message
    list of [validate] as it was and makes the result valid; and
    [validate_recommendations] returns exactly what it returned without the
    flags. *)
Theorem flags_leave_messages `{Runtime} (domain : str) (rs : list rule)
    (recommendations : list str) (data : dict) (now now1 now2 : str)
    (Hdom : rules !! domain = Some rs) :
  messages (validate domain (with_flags rs data) now)
  = messages (validate domain data now) ∧
  valid (validate domain (with_flags rs data) now) = true ∧
  validate_recommendations domain recommendations (with_flags rs data) now1 now2
  = validate_recommendations domain recommendations data now1 now2.
Proof.
  split_and!.
  - rewrite !(validate_known _ _ _ _ Hdom). cbn [messages].
    apply (outcomes_ignore_flags domain rs rs data Hdom).
  - rewrite (validate_known _ _ _ _ Hdom). cbn [valid].
    apply forallb_forall. intros r Hr. apply with_flags_ok.
    apply list_elem_of_In. exact Hr.
  - unfold validate_recommendations.
    rewrite !(validate_known _ _ _ _ Hdom). cbn [messages].
    rewrite (outcomes_ignore_flags domain rs rs data Hdom). reflexivity.
Qed.

Lemma flags_leave_messages_witness :
  messages (validate (py "cronograma")
              (with_flags _load_schedule_rules unflagged_data) [])
  = messages (validate (py "cronograma") unflagged_data []) ∧
  valid (validate (py "cronograma")
           (with_flags _load_schedule_rules unflagged_data) []) = true ∧
  validate_recommendations (H := Latin1.latin1) (py "cronograma") []
    (with_flags _load_schedule_rules unflagged_data) [] []
  = validate_recommendations (H := Latin1.latin1) (py "cronograma") []
      unflagged_data [] [].
Proof.
  exact (flags_leave_messages (H := Latin1.latin1) (py "cronograma")
           _load_schedule_rules [] unflagged_data [] [] [] eq_refl).
Defined.

End RequirementFlags.

(** ** Recommendation validation: unknown domains and growing lists *)

Section RecommendationFacts.
Context `{Runtime}.
Import PMBOKGuardRails GuardRailSpec.

(** X7. For every domain string other than the four known ones,
    [validate_recommendations] does not return: the message list of the
    invalid-domain result holds a bare string, and reading its ["action"]
    raises a [TypeError]. *)
Theorem recommendations_for_unknown_domain_raise (domain : str)
    (recommendations : list str) (data : dict) (now1 now2 : str)
    (Hunknown : domain ∉ known_domains) :
  ∃ m, validate_recommendations domain recommendations data now1 now2
       = Raise (TypeError m).
Proof.
  unfold validate_recommendations, validate.
  rewrite (known_domain_lookup domain Hunknown). eexists. reflexivity.
Qed.

Lemma covered_mono (topic : str) (recs recs' : list str) :
  recs ⊆ recs' → covered topic recs → covered topic recs'.
Proof.
  intros Hsub. rewrite !covered_spec.
  intros (rec & kw & Hrec & Hrest). exists rec, kw.
  split; [apply Hsub; exact Hrec | exact Hrest].
Qed.

(** X8. Adding recommendations never makes the verdict worse. For a known
    domain, when [recommendations] is included in [recommendations'], the
    topics missing under the larger list are among those missing under the
    smaller one, the additional recommendations likewise, and a list that
    was valid stays valid. *)
Theorem more_recommendations_cover_more (domain : str) (rs : list rule)
    (recommendations recommendations' : list str) (data : dict)
    (now1 now2 : str) (out out' : recommendation_validation)
    (Hdom : rules !! domain = Some rs)
    (Hsub : recommendations ⊆ recommendations')
    (Hout : validate_recommendations domain recommendations data now1 now2
            = Ok out)
    (Hout' : validate_recommendations domain recommendations' data now1 now2
             = Ok out') :
  missing_topics out' ⊆ missing_topics out ∧
  additional_recommendations out' ⊆ additional_recommendations out ∧
  (rv_valid out = true → rv_valid out' = true).
Proof.
  rewrite (validate_recommendations_known _ _ _ _ _ _ Hdom) in Hout.
  rewrite (validate_recommendations_known _ _ _ _ _ _ Hdom) in Hout'.
  apply Ok_inj in Hout, Hout'. subst out out'.
  cbn [missing_topics additional_recommendations rv_valid].
  set (fired := r_name <$> filter (λ r, fires data r = true ∧ r_action r = require) rs).
  assert (filter (λ t, ¬ covered t recommendations') fired
          ⊆ filter (λ t, ¬ covered t recommendations) fired) as Hmiss.
  { intros t Ht. apply list_elem_of_filter in Ht as [Hn Ht].
    apply list_elem_of_filter. split; [|exact Ht].
    intros Hc. apply Hn. exact (covered_mono t _ _ Hsub Hc). }
  split_and!.
  - exact Hmiss.
  - intros t Ht. apply list_elem_of_fmap in Ht as (r & -> & Hr).
    apply list_elem_of_filter in Hr as [[Hf Ha] Hr].
    apply list_elem_of_fmap. exists r. split; [reflexivity|].
    apply list_elem_of_filter. split; [|exact Hr]. split; [exact Hf|].
    destruct Ha as [Ha | [Ha Hn]]; [left; exact Ha|].
    right. split; [exact Ha|]. apply Hmiss. exact Hn.
  - intros Hv. apply bool_decide_eq_true in Hv. apply bool_decide_eq_true.
    apply length_zero_iff_nil in Hv. apply length_zero_iff_nil.
    destruct (filter (λ t, ¬ covered t recommendations') fired) as [|t l] eqn:E;
      [reflexivity|].
    assert (t ∈ filter (λ t, ¬ covered t recommendations) fired) as Ht
      by (apply Hmiss; left).
    rewrite Hv in Ht. by apply elem_of_nil in Ht.
Qed.

End RecommendationFacts.

Lemma recommendations_for_unknown_domain_raise_witness :
  ∃ m, PMBOKGuardRails.validate_recommendations (H := Latin1.latin1)
         (py "qualidade") [] ∅ [] [] = Raise (TypeError m).
Proof.
  apply (recommendations_for_unknown_domain_raise (H := Latin1.latin1)
           (py "qualidade") [] ∅ [] []).
  unfold GuardRailSpec.known_domains. intros Hin.
  repeat (apply elem_of_cons in Hin as [Hin | Hin];
          [vm_compute in Hin; discriminate Hin|]).
  by apply elem_of_nil in Hin.
Defined.

Lemma more_recommendations_cover_more_witness :
  ∃ out out',
    PMBOKGuardRails.validate_recommendations (H := Latin1.latin1)
      (py "cronograma") [] GuardRailSpec.schedule_data [] [] = Ok out ∧
    PMBOKGuardRails.validate_recommendations (H := Latin1.latin1)
      (py "cronograma") GuardRailSpec.schedule_recommendations
      GuardRailSpec.schedule_data [] [] = Ok out' ∧
    PMBOKGuardRails.missing_topics out' ⊆ PMBOKGuardRails.missing_topics out ∧
    PMBOKGuardRails.additional_recommendations out'
      ⊆ PMBOKGuardRails.additional_recommendations out ∧
    (PMBOKGuardRails.rv_valid out = true → PMBOKGuardRails.rv_valid out' = true).
Proof.
  pose proof (validate_recommendations_known (H := Latin1.latin1)
                (py "cronograma") PMBOKGuardRails._load_schedule_rules []
                GuardRailSpec.schedule_data [] [] eq_refl) as Hout.
  pose proof (validate_recommendations_known (H := Latin1.latin1)
                (py "cronograma") PMBOKGuardRails._load_schedule_rules
                GuardRailSpec.schedule_recommendations
                GuardRailSpec.schedule_data [] [] eq_refl) as Hout'.
  cbv zeta in Hout, Hout'.
  eexists _, _. split; [exact Hout|]. split; [exact Hout'|].
  apply (more_recommendations_cover_more (H := Latin1.latin1)
           (py "cronograma") PMBOKGuardRails._load_schedule_rules []
           GuardRailSpec.schedule_recommendations GuardRailSpec.schedule_data
           [] [] _ _ eq_refl (list_subseteq_nil _) Hout Hout').
Defined.

(** ** Keyword detection in [process_status_file] *)

Lemma startswith_elem (p s : str) (c : N) :
  startswith p s = true → c ∈ p → c ∈ s.
Proof.
  revert s. induction p as [|a p IH]; intros s Hs Hc.
  - by apply elem_of_nil in Hc.
  - destruct s as [|b s]; [discriminate Hs|]. cbn [startswith] in Hs.
    apply andb_true_iff in Hs as [Hab Hs]. apply N.eqb_eq in Hab. subst b.
    apply elem_of_cons in Hc as [-> | Hc]; [left|right; exact (IH s Hs Hc)].
Qed.

Lemma contains_elem (sub s : str) (c : N) :
  contains sub s = true → c ∈ sub → c ∈ s.
Proof.
  induction s as [|b s IH]; intros Hs Hc.
  - cbn [contains] in Hs. rewrite orb_false_r in Hs.
    exact (startswith_elem sub [] c Hs Hc).
  - cbn [contains] in Hs. apply orb_true_iff in Hs as [Hs | Hs].
    + exact (startswith_elem sub (b :: s) c Hs Hc).
    + right. exact (IH Hs Hc).
Qed.

Lemma contains_bracket (kw s : str) :
  91%N ∈ kw → 91%N ∉ s → contains kw s = false.
Proof.
  intros Hkw Hs. destruct (contains kw s) eqn:E; [|reflexivity].
  destruct Hs. exact (contains_elem kw s 91%N E Hkw).
Qed.

Section LiteralKeywords.
Context `{Runtime}.
Import StatusTextProcessor ProcessorSpec.

(** X9. The keywords written like patterns ([mudan[cç]a de escopo],
    [altera[cç][aã]o de escopo], [amea[cç]a]) are tested as plain
    substrings. For every text whose lower-cased form has no opening square
    bracket, [scope_change_detected] is true only for the literal phrase
    "escopo alterado", and [risk_detected] only for "risco identificado",
    "novo risco" or "problema potencial": the phrases "mudança de escopo",
    "alteração de escopo" and "ameaça" are never detected. *)
Theorem pattern_like_keywords_are_literal (text : str) (out : processed)
    (Hplain : 91%N ∉ py_lower text)
    (Hok : process_status_file text = Ok out) :
  metrics out !! py "scope_change_detected"
    = Some (VBool (contains (py "escopo alterado") (py_lower text))) ∧
  metrics out !! py "risk_detected"
    = Some (VBool (contains (py "risco identificado") (py_lower text)
                   || contains (py "novo risco") (py_lower text)
                   || contains (py "problema potencial") (py_lower text))).
Proof.
  unfold process_status_file in Hok.
  destruct (_extract_with_regex text k_project_id) as [pid|]; [|discriminate Hok].
  destruct (metrics_of text) as [m|] eqn:Hm; [|discriminate Hok].
  apply Ok_inj in Hok. subst out. cbn [metrics].
  destruct (metrics_of_lookups text m Hm) as (Hs & Hr & _).
  rewrite Hs, Hr. unfold any_keyword, scope_change_keywords, risk_keywords.
  cbn [existsb].
  rewrite (contains_bracket (py "mudan[cç]a de escopo") (py_lower text))
    by (first [exact Hplain | apply (bool_decide_unpack _); vm_compute; exact I]).
  rewrite (contains_bracket (py "altera[cç][aã]o de escopo") (py_lower text))
    by (first [exact Hplain | apply (bool_decide_unpack _); vm_compute; exact I]).
  rewrite (contains_bracket (py "amea[cç]a") (py_lower text))
    by (first [exact Hplain | apply (bool_decide_unpack _); vm_compute; exact I]).
  cbn [orb]. rewrite !orb_false_r. split; [reflexivity|].
  do 2 f_equal.
  destruct (contains (py "risco identificado") (py_lower text));
    destruct (contains (py "novo risco") (py_lower text)); reflexivity.
Qed.

End LiteralKeywords.

Lemma pattern_like_keywords_are_literal_witness :
  ∃ out,
    StatusTextProcessor.process_status_file (H := Latin1.latin1)
      scope_change_report = Ok out ∧
    StatusTextProcessor.metrics out !! py "scope_change_detected"
      = Some (VBool false) ∧
    StatusTextProcessor.metrics out !! py "risk_detected" = Some (VBool false).
Proof.
  destruct (StatusTextProcessor.process_status_file (H := Latin1.latin1)
              scope_change_report) as [out|e] eqn:E;
    [|vm_compute in E; discriminate E].
  exists out. split; [reflexivity|].
  assert (91%N ∉ py_lower (Runtime := Latin1.latin1) scope_change_report) as Hplain
    by (apply (bool_decide_unpack _); vm_compute; exact I).
  destruct (pattern_like_keywords_are_literal (H := Latin1.latin1)
              scope_change_report out Hplain E) as [Hs Hr].
  split; [exact Hs | exact Hr].
Defined.

(** ** The project header *)

Lemma split_go_first (sep : str) (s : str) :
  ∀ skip cur, ∃ part, split_go sep skip cur s !! 0%nat = Some part.
Proof.
  induction s as [|c s IH]; intros skip cur; cbn [split_go].
  - eexists. reflexivity.
  - destruct skip as [|k]; [|apply IH].
    destruct (startswith sep (c :: s)); [eexists; reflexivity | apply IH].
Qed.

Lemma split_on_first (sep s : str) : ∃ part, index (split_on sep s) 0 = Ok part.
Proof.
  destruct (split_go_first sep s 0 []) as [part Hp]. exists part.
  unfold index, split_on. rewrite Hp. reflexivity.
Qed.

Lemma for_each_invariant {S} (P : S → Prop) (step : str → S → res S)
    (lines : list str) :
  (∀ l st, P st → ∃ st', step l st = Ok st' ∧ P st') →
  ∀ st, P st → ∃ st', for_each step lines st = Ok st' ∧ P st'.
Proof.
  intros Hstep. induction lines as [|l lines IH]; intros st Hst.
  - exists st. split; [reflexivity | exact Hst].
  - destruct (Hstep l st Hst) as (st1 & Hs & H1).
    destruct (IH st1 H1) as (st2 & Hf & H2).
    exists st2. split; [|exact H2]. cbn [for_each]. rewrite Hs. exact Hf.
Qed.

Lemma header_shaped_insert (info : dict) (k s : str) :
  k ∈ project_keys → k ≠ py "id" → header_shaped info →
  header_shaped (<[k := VStr s]> info).
Proof.
  intros Hk Hid [Hkeys Hnome]. split.
  - intros k' v Hl. apply lookup_insert_Some in Hl as [[<- <-] | [_ Hl]].
    + split; [exact Hk | eexists; reflexivity].
    + exact (Hkeys k' v Hl).
  - rewrite lookup_insert_ne by exact Hid. intros Hi.
    destruct (decide (k = py "nome")) as [-> | Hne].
    + rewrite lookup_insert_eq. eexists. reflexivity.
    + rewrite lookup_insert_ne by exact Hne. exact (Hnome Hi).
Qed.

Lemma header_shaped_both (info : dict) (n i : str) :
  header_shaped info →
  header_shaped (<[py "id" := VStr i]> (<[py "nome" := VStr n]> info)).
Proof.
  intros [Hkeys Hnome]. split.
  - intros k' v Hl. apply lookup_insert_Some in Hl as [[<- <-] | [_ Hl]].
    { split; [|eexists; reflexivity].
      apply (bool_decide_unpack _). vm_compute. exact I. }
    apply lookup_insert_Some in Hl as [[<- <-] | [_ Hl]].
    { split; [|eexists; reflexivity].
      apply (bool_decide_unpack _). vm_compute. exact I. }
    exact (Hkeys k' v Hl).
  - intros _. rewrite lookup_insert_ne
      by (let E := fresh in intros E; vm_compute in E; discriminate E).
    rewrite lookup_insert_eq. eexists. reflexivity.
Qed.

Ltac label_nonempty :=
  let E := fresh in intros E; vm_compute in E; discriminate E.
Ltac project_key :=
  apply (bool_decide_unpack _); vm_compute; exact I.

Lemma project_step_shaped (line : str) (info : dict) :
  header_shaped info →
  ∃ info', project_step line info = Ok info' ∧ header_shaped info'.
Proof.
  intros Hinfo. unfold project_step.
  destruct (contains (py "Projeto:") line) eqn:Hp.
  { destruct (split_on_second (py "Projeto:") line ltac:(label_nonempty) Hp)
      as [p Hpart].
    rewrite Hpart. cbn [mbind res_bind].
    destruct (split_on_first (py "(") (strip p)) as [p0 Hp0].
    case_decide as Hlen.
    - rewrite Hp0. cbn [mbind res_bind].
      destruct (lookup_lt_is_Some_2 (split_on (py "(") (strip p)) 1 Hlen)
        as [p1 Hp1].
      unfold index at 1. rewrite Hp1. cbn [mbind res_bind mret res_ret].
      eexists. split; [reflexivity|]. apply header_shaped_both. exact Hinfo.
    - rewrite Hp0. cbn [mbind res_bind mret res_ret].
      eexists. split; [reflexivity|].
      apply header_shaped_insert; [project_key | label_nonempty | exact Hinfo]. }
  destruct (contains (py "Data:") line) eqn:Hd.
  { destruct (split_on_second (py "Data:") line ltac:(label_nonempty) Hd)
      as [p Hpart].
    rewrite Hpart. cbn [mbind res_bind mret res_ret].
    eexists. split; [reflexivity|].
    apply header_shaped_insert; [project_key | label_nonempty | exact Hinfo]. }
  destruct (contains (py "Gerente:") line) eqn:Hg.
  { destruct (split_on_second (py "Gerente:") line ltac:(label_nonempty) Hg)
      as [p Hpart].
    rewrite Hpart. cbn [mbind res_bind mret res_ret].
    eexists. split; [reflexivity|].
    apply header_shaped_insert; [project_key | label_nonempty | exact Hinfo]. }
  exists info. split; [reflexivity | exact Hinfo].
Qed.

Lemma _extract_project_info_returns (content : str) :
  ∃ info, _extract_project_info content = Ok info ∧ header_shaped info.
Proof.
  unfold _extract_project_info.
  apply (for_each_invariant header_shaped project_step).
  - intros l st Hst. exact (project_step_shaped l st Hst).
  - split.
    + intros k v Hl. rewrite lookup_empty in Hl. discriminate Hl.
    + rewrite lookup_empty. intros [x Hx]. discriminate Hx.
Qed.

(** X10. The header extraction of both agents is total: for every content
    [_extract_project_info] returns a mapping; its keys are among [nome],
    [id], [data_relatorio] and [gerente], every value is a string, and [id]
    is present only together with [nome]. *)
Theorem project_header_returns (content : str) :
  ∃ info, _extract_project_info content = Ok info ∧
    (∀ k v, info !! k = Some v → k ∈ project_keys ∧ ∃ s, v = VStr s) ∧
    (is_Some (info !! py "id") → is_Some (info !! py "nome")).
Proof. exact (_extract_project_info_returns content). Qed.

(** ** Recommendations read from an LLM answer *)

Lemma startswith_length (p s : str) :
  startswith p s = true → (length p ≤ length s)%nat.
Proof.
  revert s. induction p as [|a p IH]; intros s Hs; [cbn; lia|].
  destruct s as [|b s]; [discriminate Hs|]. cbn [startswith] in Hs.
  apply andb_true_iff in Hs as [_ Hs]. cbn [length]. specialize (IH s Hs). lia.
Qed.

Lemma numbered_or_bullet_second (line : str) :
  numbered_or_bullet line = true → line ≠ [45%N] →
  ∃ c, line !! 1%nat = Some c.
Proof.
  intros Hn Hne. apply lookup_lt_is_Some_2.
  unfold numbered_or_bullet in Hn.
  repeat (apply orb_true_iff in Hn as [Hn | Hn]);
    try (match type of Hn with
         | startswith ?p _ = true =>
             let n := eval vm_compute in (length p) in
             pose proof (startswith_length p _ Hn) as Hlen;
             change (length p) with n in Hlen
         end; lia).
  destruct line as [|a [|b line]]; cbn [length]; try lia.
  - discriminate Hn.
  - change (py "-") with [45%N] in Hn. cbn [startswith] in Hn.
    apply andb_true_iff in Hn as [Hn _]. apply N.eqb_eq in Hn. subst a.
    destruct Hne. reflexivity.
Qed.

Lemma recommendation_step_hyphen (l : str) (acc : list str) :
  strip l = [45%N] →
  recommendation_step l acc = Raise (IndexError (py "string index out of range")).
Proof. intros Hl. unfold recommendation_step. rewrite Hl. reflexivity. Qed.

Lemma recommendation_step_item (l : str) (acc : list str) :
  strip l ≠ [45%N] → numbered_or_bullet (strip l) = true →
  recommendation_step l acc = Ok (acc ++ [clean_item (strip l)]).
Proof.
  intros Hl Hn. unfold recommendation_step. cbv zeta. rewrite Hn.
  destruct (numbered_or_bullet_second (strip l) Hn Hl) as [c Hc].
  unfold char_at, clean_item. rewrite Hc. reflexivity.
Qed.

Lemma recommendation_step_other (l : str) (acc : list str) :
  numbered_or_bullet (strip l) = false → recommendation_step l acc = Ok acc.
Proof. intros Hn. unfold recommendation_step. cbv zeta. rewrite Hn. reflexivity. Qed.

Lemma recommendation_loop (lines : list str) :
  ∀ acc,
    for_each recommendation_step lines acc
    = if decide ([45%N] ∈ strip <$> lines)
      then Raise (IndexError (py "string index out of range"))
      else Ok (acc ++ (clean_item <$>
                 filter (λ l, numbered_or_bullet l = true) (strip <$> lines))).
Proof.
  induction lines as [|l lines IH]; intros acc.
  - cbn [for_each fmap list_fmap]. rewrite decide_False by (apply not_elem_of_nil).
    rewrite filter_nil. cbn [fmap list_fmap]. rewrite app_nil_r. reflexivity.
  - cbn [for_each]. rewrite fmap_cons, filter_cons.
    destruct (decide (strip l = [45%N])) as [Hl | Hl].
    + rewrite (recommendation_step_hyphen l acc Hl).
      rewrite decide_True by (rewrite Hl; left). reflexivity.
    + assert (∀ P : Prop, ([45%N] ∈ strip <$> lines → P) →
                [45%N] ∈ strip l :: (strip <$> lines) → P) as Hcons.
      { intros P HP Hc. apply elem_of_cons in Hc as [Hc | Hc];
          [destruct Hl; symmetry; exact Hc | exact (HP Hc)]. }
      destruct (numbered_or_bullet (strip l)) eqn:Hn.
      * rewrite (recommendation_step_item l acc Hl Hn).
        cbn [mbind res_bind]. rewrite IH.
        rewrite (decide_True (P := true = true)) by reflexivity.
        destruct (decide ([45%N] ∈ strip <$> lines)) as [Hin | Hin].
        -- rewrite decide_True by (right; exact Hin). reflexivity.
        -- rewrite decide_False by (exact (Hcons False Hin)).
           rewrite fmap_cons, <- app_assoc. reflexivity.
      * rewrite (recommendation_step_other l acc Hn).
        cbn [mbind res_bind]. rewrite IH.
        rewrite (decide_False (P := false = true)) by discriminate.
        destruct (decide ([45%N] ∈ strip <$> lines)) as [Hin | Hin].
        -- rewrite decide_True by (right; exact Hin). reflexivity.
        -- rewrite decide_False by (exact (Hcons False Hin)). reflexivity.
Qed.

(** X11. What [_extract_recommendations_from_llm] does with every answer.
    If some line of the answer, stripped, is a single hyphen, the call
    raises [IndexError] (the character after the hyphen is read); this is
    the only failure. Otherwise it returns, in order, the lines that,
    stripped, begin with [1.] to [5.] or with a hyphen, each without its
    marker and stripped again. *)
Theorem lone_hyphen_raises (llm_response : str) :
  let stripped := strip <$> lines_of llm_response in
  _extract_recommendations_from_llm llm_response
  = if decide (py "-" ∈ stripped)
    then Raise (IndexError (py "string index out of range"))
    else Ok (clean_item <$>
               filter (λ l, numbered_or_bullet l = true) stripped).
Proof.
  cbv zeta. unfold _extract_recommendations_from_llm.
  rewrite recommendation_loop. reflexivity.
Qed.

(** ** Recommendations without an LLM *)

Section ScheduleAdvice.
Context `{Runtime} `{Services}.

Lemma below_threshold (q c : Qc) :
  bool_decide (q < c)%Qc = negb (bool_decide (c ≤ q)%Qc).
Proof.
  case_bool_decide as H1; case_bool_decide as H2; try reflexivity.
  - exfalso. exact (Qclt_not_le _ _ H1 H2).
  - exfalso. apply H1. apply Qcnot_le_lt. exact H2.
Qed.

Lemma schedule_advice_band (q : Qc) :
  ScheduleAgent.advice (VFloat q)
  = Returns (schedule_advice_of (status (_evaluate_schedule_health (Some q)))).
Proof.
  unfold ScheduleAgent.advice, _evaluate_schedule_health, py_lt.
  cbn [is_None as_number lift mbind outcome_bind mret outcome_ret].
  rewrite !below_threshold.
  destruct (decide (fl 1.05 ≤ q)%Qc) as [H1|H1].
  { rewrite (bool_decide_eq_true_2 (fl 0.7 ≤ q)%Qc) by threshold_order.
    rewrite (bool_decide_eq_true_2 (fl 0.85 ≤ q)%Qc) by threshold_order.
    rewrite (bool_decide_eq_true_2 (fl 0.95 ≤ q)%Qc) by threshold_order.
    rewrite (bool_decide_eq_true_2 (fl 1.05 ≤ q)%Qc) by exact H1.
    reflexivity. }
  rewrite (bool_decide_eq_false_2 (fl 1.05 ≤ q)%Qc) by exact H1.
  destruct (decide (fl 0.95 ≤ q)%Qc) as [H2|H2].
  { rewrite (bool_decide_eq_true_2 (fl 0.7 ≤ q)%Qc) by threshold_order.
    rewrite (bool_decide_eq_true_2 (fl 0.85 ≤ q)%Qc) by threshold_order.
    rewrite (bool_decide_eq_true_2 (fl 0.95 ≤ q)%Qc) by exact H2.
    reflexivity. }
  rewrite (bool_decide_eq_false_2 (fl 0.95 ≤ q)%Qc) by exact H2.
  destruct (decide (fl 0.85 ≤ q)%Qc) as [H3|H3].
  { rewrite (bool_decide_eq_true_2 (fl 0.7 ≤ q)%Qc) by threshold_order.
    rewrite (bool_decide_eq_true_2 (fl 0.85 ≤ q)%Qc) by exact H3.
    reflexivity. }
  rewrite (bool_decide_eq_false_2 (fl 0.85 ≤ q)%Qc) by exact H3.
  destruct (decide (fl 0.7 ≤ q)%Qc) as [H4|H4].
  { rewrite (bool_decide_eq_true_2 (fl 0.7 ≤ q)%Qc) by exact H4.
    reflexivity. }
  rewrite (bool_decide_eq_false_2 (fl 0.7 ≤ q)%Qc) by exact H4.
  reflexivity.
Qed.

Lemma focus_on_delayed_note (st : dict) (recs : list str) :
  (∀ v, st !! py "tarefas_atrasadas" = Some v → ∃ l, v = VList l) →
  ScheduleAgent.focus_on_delayed st recs = Returns (recs ++ delayed_note st).
Proof.
  intros Htasks. unfold ScheduleAgent.focus_on_delayed, delayed_note, get.
  cbv zeta. destruct (st !! py "tarefas_atrasadas") as [v|] eqn:E.
  - destruct (Htasks v eq_refl) as [l ->]. cbn [default from_option id].
    destruct l as [|t ts].
    + cbn. rewrite app_nil_r. reflexivity.
    + reflexivity.
  - cbn. rewrite app_nil_r. reflexivity.
Qed.




End ScheduleAdvice.


Section CostAdvice.
Context `{Runtime} `{Services}.

Lemma cost_advice_band (q : Qc) :
  CostAgent.advice (VFloat q)
  = Returns (cost_advice_of (status (_evaluate_cost_health (Some q))) q).
Proof.
  unfold CostAgent.advice, _evaluate_cost_health, py_lt.
  cbn [is_None as_number lift mbind outcome_bind mret outcome_ret].
  rewrite !below_threshold.
  destruct (decide (fl 1.1 ≤ q)%Qc) as [H1|H1].
  { rewrite (bool_decide_eq_true_2 (fl 0.7 ≤ q)%Qc) by threshold_order.
    rewrite (bool_decide_eq_true_2 (fl 0.8 ≤ q)%Qc) by threshold_order.
    rewrite (bool_decide_eq_true_2 (fl 0.9 ≤ q)%Qc) by threshold_order.
    rewrite (bool_decide_eq_true_2 (fl 1.0 ≤ q)%Qc) by threshold_order.
    rewrite (bool_decide_eq_true_2 (fl 1.1 ≤ q)%Qc) by exact H1.
    reflexivity. }
  rewrite (bool_decide_eq_false_2 (fl 1.1 ≤ q)%Qc) by exact H1.
  destruct (decide (fl 1.0 ≤ q)%Qc) as [H2|H2].
  { rewrite (bool_decide_eq_true_2 (fl 0.7 ≤ q)%Qc) by threshold_order.
    rewrite (bool_decide_eq_true_2 (fl 0.8 ≤ q)%Qc) by threshold_order.
    rewrite (bool_decide_eq_true_2 (fl 0.9 ≤ q)%Qc) by threshold_order.
    rewrite (bool_decide_eq_true_2 (fl 1.0 ≤ q)%Qc) by exact H2.
    reflexivity. }
  rewrite (bool_decide_eq_false_2 (fl 1.0 ≤ q)%Qc) by exact H2.
  destruct (decide (fl 0.9 ≤ q)%Qc) as [H3|H3].
  { rewrite (bool_decide_eq_true_2 (fl 0.7 ≤ q)%Qc) by threshold_order.
    rewrite (bool_decide_eq_true_2 (fl 0.8 ≤ q)%Qc) by threshold_order.
    rewrite (bool_decide_eq_true_2 (fl 0.9 ≤ q)%Qc) by exact H3.
    reflexivity. }
  rewrite (bool_decide_eq_false_2 (fl 0.9 ≤ q)%Qc) by exact H3.
  destruct (decide (fl 0.8 ≤ q)%Qc) as [H4|H4].
  { rewrite (bool_decide_eq_true_2 (fl 0.7 ≤ q)%Qc) by threshold_order.
    rewrite (bool_decide_eq_true_2 (fl 0.8 ≤ q)%Qc) by exact H4.
    reflexivity. }
  rewrite (bool_decide_eq_false_2 (fl 0.8 ≤ q)%Qc) by exact H4.
  cbn [status cost_advice_of negb].
  destruct (decide (q < fl 0.7)%Qc) as [H5|H5].
  - rewrite (bool_decide_eq_false_2 (fl 0.7 ≤ q)%Qc)
      by (intros H6; exact (Qclt_not_le _ _ H5 H6)).
    reflexivity.
  - rewrite (bool_decide_eq_true_2 (fl 0.7 ≤ q)%Qc)
      by (apply Qcnot_lt_le; exact H5).
    reflexivity.
Qed.


Lemma focus_on_category_closed (st : dict) (cpi : value) (recs : list str) :
  (∀ v, st !! py "categorias_custos" = Some v → ∃ m, v = VCats m) →
  CostAgent.focus_on_category st cpi recs
  = match named_largest st with
    | Some name =>
        b ← lift (py_lt cpi (VFloat (fl 0.9)));
        if (b : bool) then Returns (recs ++ category_note name)
        else Returns recs
    | None => Returns recs
    end.
Proof.
  intros Hcats. unfold CostAgent.focus_on_category, named_largest, get.
  cbv zeta. destruct (st !! py "categorias_custos") as [v|] eqn:E.
  - destruct (Hcats v eq_refl) as [m ->].
    cbn [default from_option id truthy CostAgent.items_of mbind outcome_bind].
    destruct (decide (m = ∅)) as [Hm | Hm].
    + rewrite bool_decide_eq_true_2 by exact Hm. reflexivity.
    + rewrite bool_decide_eq_false_2 by exact Hm. cbn [negb].
      destruct (CostAgent.largest_category (items m)).1 as [name|];
        [|reflexivity].
      destruct (decide (name = [])) as [Hn | Hn].
      * rewrite bool_decide_eq_false_2 by (intros Hc; exact (Hc Hn)).
        reflexivity.
      * rewrite bool_decide_eq_true_2 by exact Hn. reflexivity.
  - reflexivity.
Qed.



Lemma largest_category_loop (l : list (str * (Qc * option Qc))) :
  ∀ acc : option str * Qc,
    (0 ≤ acc.2)%Qc →
    let r := foldl (λ acc entry,
                      if bool_decide (acc.2 < entry.2.1)%Qc
                      then (Some entry.1, entry.2.1) else acc) acc l in
    (acc.2 ≤ r.2)%Qc ∧ (∀ e, e ∈ l → (e.2.1 ≤ r.2)%Qc) ∧
    (r = acc ∨ ∃ e, e ∈ l ∧ r = (Some e.1, e.2.1) ∧ (acc.2 < e.2.1)%Qc).
Proof.
  induction l as [|e l IH]; intros acc Hacc; cbn [foldl].
  - split; [apply Qcle_refl|]. split; [|left; reflexivity].
    intros e He. by apply elem_of_nil in He.
  - case_bool_decide as Hlt.
    + destruct (IH (Some e.1, e.2.1)) as (Hle & Hall & Hr).
      { cbn. apply Qclt_le_weak. eapply Qcle_lt_trans; [exact Hacc | exact Hlt]. }
      cbn [snd] in Hle. split_and!.
      * apply Qclt_le_weak. eapply Qclt_le_trans; [exact Hlt | exact Hle].
      * intros e' He'. apply elem_of_cons in He' as [-> | He'];
          [exact Hle | exact (Hall e' He')].
      * right. destruct Hr as [Hr | (e' & He' & Hr & Hlt')].
        -- exists e. split; [left|]. split; [exact Hr | exact Hlt].
        -- exists e'. split; [right; exact He'|]. split; [exact Hr|].
           cbn [snd] in Hlt'. eapply Qclt_trans; [exact Hlt | exact Hlt'].
    + destruct (IH acc Hacc) as (Hle & Hall & Hr). split_and!.
      * exact Hle.
      * intros e' He'. apply elem_of_cons in He' as [-> | He'];
          [|exact (Hall e' He')].
        eapply Qcle_trans; [|exact Hle]. apply Qcnot_lt_le. exact Hlt.
      * destruct Hr as [Hr | (e' & He' & Hr & Hlt')]; [left; exact Hr|].
        right. exists e'. split; [right; exact He'|]. split; [exact Hr | exact Hlt'].
Qed.

End CostAdvice.

Section CostTheorems.
Context `{Runtime} `{Services}.


(** X14. The loop over the cost categories, for every list of entries in
    whatever order the dict yields them: the value it ends with bounds the
    value of every category; it names no category exactly when no value is
    positive; and a category it names is in the list, with that positive
    value. *)
Theorem largest_category_spec (categories : list (str * (Qc * option Qc))) :
  let r := CostAgent.largest_category categories in
  (∀ e, e ∈ categories → (e.2.1 ≤ r.2)%Qc) ∧
  (r.1 = None ↔ ∀ e, e ∈ categories → (e.2.1 ≤ 0)%Qc) ∧
  (∀ name, r.1 = Some name →
     ∃ info, (name, info) ∈ categories ∧ info.1 = r.2 ∧ (0 < r.2)%Qc).
Proof.
  cbv zeta. unfold CostAgent.largest_category.
  pose proof (largest_category_loop categories (None, 0%Qc) (Qcle_refl 0))
    as Hloop.
  cbv zeta in Hloop. cbn [fst snd] in Hloop.
  set (r := foldl _ (None, 0%Qc) categories) in *.
  destruct Hloop as (Hle & Hall & Hr).
  split; [exact Hall|]. split.
  - destruct Hr as [Hr | (e & He & Hr & Hlt)].
    + split; [|rewrite Hr; reflexivity].
      intros _ e He. pose proof (Hall e He) as Hb. rewrite Hr in Hb. exact Hb.
    + split; [rewrite Hr; discriminate|]. intros Hno. exfalso.
      exact (Qclt_not_le _ _ Hlt (Hno e He)).
  - intros name Hname. destruct Hr as [Hr | (e & He & Hr & Hlt)].
    + rewrite Hr in Hname. discriminate Hname.
    + rewrite Hr in Hname |- *. cbn [fst snd] in Hname |- *.
      injection Hname as <-. exists e.2.
      split; [destruct e as [n i]; exact He|]. split; [reflexivity | exact Hlt].
Qed.

End CostTheorems.


(** ** The LLM branch *)

Section Enrichment.
Context `{Runtime} `{Services}.

Lemma schedule_template_raises (domain c k : str) :
  str_format ScheduleAgent.template
    (<[py "knowledge" := VStr k]>
       (<[py "query" := VStr c]> (<[py "domain" := VStr domain]> ∅)))
  = Raises (KeyError (py "spi")).
Proof.
  unfold ScheduleAgent.template. cbn [str_format]. unfold subscript.
  rewrite (lookup_insert_ne _ (py "knowledge") (py "query"))
    by (let E := fresh in intros E; vm_compute in E; discriminate E).
  rewrite !lookup_insert_eq.
  rewrite !(lookup_insert_ne _ _ (py "spi"))
    by (let E := fresh in intros E; vm_compute in E; discriminate E).
  rewrite lookup_empty. reflexivity.
Qed.

Lemma cost_template_raises (domain c k : str) :
  str_format CostAgent.template
    (<[py "knowledge" := VStr k]>
       (<[py "query" := VStr c]> (<[py "domain" := VStr domain]> ∅)))
  = Raises (KeyError (py "cpi")).
Proof.
  unfold CostAgent.template. cbn [str_format]. unfold subscript.
  rewrite (lookup_insert_ne _ (py "knowledge") (py "query"))
    by (let E := fresh in intros E; vm_compute in E; discriminate E).
  rewrite !lookup_insert_eq.
  rewrite !(lookup_insert_ne _ _ (py "cpi"))
    by (let E := fresh in intros E; vm_compute in E; discriminate E).
  rewrite lookup_empty. reflexivity.
Qed.

Lemma knowledge_of_titled (docs : list dict) :
  Forall titled docs → ∀ k, ∃ k', knowledge_of docs k = Returns k'.
Proof.
  induction 1 as [|doc docs [[t Ht] [c Hc]] _ IH]; intros k.
  - eexists. reflexivity.
  - cbn [knowledge_of]. unfold subscript. rewrite Ht, Hc.
    cbn [mbind outcome_bind]. apply IH.
Qed.

Lemma augment_prompt_schedule (c : str) :
  (∃ f, augment_prompt (py "cronograma") c (Some ScheduleAgent.template)
        = Raises f) ∧
  (∀ docs, query c = Returns docs → Forall titled docs →
     augment_prompt (py "cronograma") c (Some ScheduleAgent.template)
     = Raises (KeyError (py "spi"))).
Proof.
  unfold augment_prompt. cbn [default from_option id]. split.
  - destruct (query c) as [docs|f]; [|eexists; reflexivity].
    cbn [mbind outcome_bind].
    destruct (knowledge_of docs []) as [k|f]; [|eexists; reflexivity].
    cbn [mbind outcome_bind]. rewrite schedule_template_raises.
    eexists. reflexivity.
  - intros docs Hq Hdocs. rewrite Hq. cbn [mbind outcome_bind].
    destruct (knowledge_of_titled docs Hdocs []) as [k Hk]. rewrite Hk.
    cbn [mbind outcome_bind]. apply schedule_template_raises.
Qed.

Lemma augment_prompt_cost (c : str) :
  (∃ f, augment_prompt (py "custos") c (Some CostAgent.template) = Raises f) ∧
  (∀ docs, query c = Returns docs → Forall titled docs →
     augment_prompt (py "custos") c (Some CostAgent.template)
     = Raises (KeyError (py "cpi"))).
Proof.
  unfold augment_prompt. cbn [default from_option id]. split.
  - destruct (query c) as [docs|f]; [|eexists; reflexivity].
    cbn [mbind outcome_bind].
    destruct (knowledge_of docs []) as [k|f]; [|eexists; reflexivity].
    cbn [mbind outcome_bind]. rewrite cost_template_raises.
    eexists. reflexivity.
  - intros docs Hq Hdocs. rewrite Hq. cbn [mbind outcome_bind].
    destruct (knowledge_of_titled docs Hdocs []) as [k Hk]. rewrite Hk.
    cbn [mbind outcome_bind]. apply cost_template_raises.
Qed.

Lemma present_not_None (st : dict) (k : str) (v : value) :
  st !! k = Some v → v ≠ VNone → get st k = v ∧ is_None v = false.
Proof.
  intros Hk Hv. unfold get. rewrite Hk. split; [reflexivity|].
  destruct v; try reflexivity. destruct Hv. reflexivity.
Qed.

Lemma schedule_enrichment_fails (generate_text : str → outcome str)
    (st info : dict) (v : value)
    (Hspi : st !! py "spi" = Some v) (Hv : v ≠ VNone) :
  (∃ f, ScheduleAgent._generate_recommendations (Some generate_text) st info
        = Raises f) ∧
  (∀ q, v = VFloat q →
     (∀ t, st !! py "tarefas_atrasadas" = Some t → ∃ l, t = VList l) →
     (∀ c, ∃ docs, query c = Returns docs ∧ Forall titled docs) →
     ScheduleAgent._generate_recommendations (Some generate_text) st info
     = Raises (KeyError (py "spi"))).
Proof.
  destruct (present_not_None st (py "spi") v Hspi Hv) as [Hget Hnone].
  unfold ScheduleAgent._generate_recommendations. cbv zeta. rewrite Hget.
  split.
  - destruct (ScheduleAgent.advice v) as [recs|f]; [|eexists; reflexivity].
    cbn [mbind outcome_bind].
    destruct (ScheduleAgent.focus_on_delayed st recs) as [recs'|f];
      [|eexists; reflexivity].
    cbn [mbind outcome_bind]. rewrite Hnone. cbn [negb].
    destruct (ScheduleAgent.context v st info) as [c|f]; [|eexists; reflexivity].
    cbn [mbind outcome_bind].
    destruct (proj1 (augment_prompt_schedule c)) as [f Hf]. rewrite Hf.
    eexists. reflexivity.
  - intros q -> Htasks Hquery. rewrite schedule_advice_band.
    cbn [mbind outcome_bind]. rewrite (focus_on_delayed_note _ _ Htasks).
    cbn [mbind outcome_bind negb is_None].
    unfold ScheduleAgent.context. cbv zeta.
    cbn [to_fixed2 mbind outcome_bind mret outcome_ret].
    match goal with
    | |- context [augment_prompt _ ?c _] =>
        destruct (Hquery c) as (docs & Hq & Hdocs);
        rewrite (proj2 (augment_prompt_schedule c) docs Hq Hdocs)
    end.
    reflexivity.
Qed.

(** X15. With an LLM interface configured, the recommendations of the
    schedule agent never come back when the record has an SPI: the template
    handed to [augment_prompt] holds the field [{spi:.2f}], and
    [augment_prompt] formats it with [domain], [query] and [knowledge]
    only. For every record with an SPI other than [None], every project
    header and every LLM, [_generate_recommendations] raises; when the SPI
    is a float, the delayed tasks are a list (or absent) and the retrieval
    returns documents with title and content, what it raises is
    [KeyError] on [spi]. *)
Theorem schedule_enrichment_raises (generate_text : str → outcome str)
    (st info : dict) (v : value)
    (Hspi : st !! py "spi" = Some v) (Hv : v ≠ VNone) :
  (∃ f, ScheduleAgent._generate_recommendations (Some generate_text) st info
        = Raises f) ∧
  (∀ q, v = VFloat q →
     (∀ t, st !! py "tarefas_atrasadas" = Some t → ∃ l, t = VList l) →
     (∀ c, ∃ docs, query c = Returns docs ∧ Forall titled docs) →
     ScheduleAgent._generate_recommendations (Some generate_text) st info
     = Raises (KeyError (py "spi"))).
Proof.
  exact (schedule_enrichment_fails generate_text st info v Hspi Hv).
Qed.

Lemma cost_enrichment_fails (generate_text : str → outcome str)
    (st info : dict) (v : value)
    (Hcpi : st !! py "cpi" = Some v) (Hv : v ≠ VNone) :
  (∃ f, CostAgent._generate_recommendations (Some generate_text) st info
        = Raises f) ∧
  (∀ q, v = VFloat q →
     (∀ t, st !! py "categorias_custos" = Some t → ∃ m, t = VCats m) →
     (∀ c, ∃ docs, query c = Returns docs ∧ Forall titled docs) →
     CostAgent._generate_recommendations (Some generate_text) st info
     = Raises (KeyError (py "cpi"))).
Proof.
  destruct (present_not_None st (py "cpi") v Hcpi Hv) as [Hget Hnone].
  unfold CostAgent._generate_recommendations. cbv zeta. rewrite Hget.
  split.
  - destruct (CostAgent.advice v) as [recs|f]; [|eexists; reflexivity].
    cbn [mbind outcome_bind].
    destruct (CostAgent.focus_on_category st v recs) as [recs'|f];
      [|eexists; reflexivity].
    cbn [mbind outcome_bind]. rewrite Hnone. cbn [negb].
    destruct (CostAgent.context v st info) as [c|f]; [|eexists; reflexivity].
    cbn [mbind outcome_bind].
    destruct (proj1 (augment_prompt_cost c)) as [f Hf]. rewrite Hf.
    eexists. reflexivity.
  - intros q -> Hcats Hquery. rewrite cost_advice_band.
    cbn [mbind outcome_bind]. rewrite (focus_on_category_closed _ _ _ Hcats).
    assert (∃ recs', match named_largest st with
                     | Some name =>
                         b ← lift (py_lt (VFloat q) (VFloat (fl 0.9)));
                         if (b : bool)
                         then Returns (cost_advice_of
                                (status (_evaluate_cost_health (Some q))) q
                                ++ category_note name)
                         else Returns (cost_advice_of
                                (status (_evaluate_cost_health (Some q))) q)
                     | None => Returns (cost_advice_of
                                (status (_evaluate_cost_health (Some q))) q)
                     end = Returns recs') as [recs' ->].
    { destruct (named_largest st) as [name|]; [|eexists; reflexivity].
      unfold py_lt. cbn [as_number lift mbind outcome_bind].
      destruct (bool_decide _); eexists; reflexivity. }
    cbn [mbind outcome_bind negb is_None].
    unfold CostAgent.context. cbv zeta.
    cbn [to_fixed2 mbind outcome_bind mret outcome_ret].
    match goal with
    | |- context [augment_prompt _ ?c _] =>
        destruct (Hquery c) as (docs & Hq & Hdocs);
        rewrite (proj2 (augment_prompt_cost c) docs Hq Hdocs)
    end.
    reflexivity.
Qed.

(** X16. The same for the cost agent and its field [{cpi:.2f}]: for every
    record with a CPI other than [None], every project header and every
    LLM, [_generate_recommendations] raises; when the CPI is a float, the
    categories are a dict (or absent) and the retrieval returns documents
    with title and content, what it raises is [KeyError] on [cpi]. *)
Theorem cost_enrichment_raises (generate_text : str → outcome str)
    (st info : dict) (v : value)
    (Hcpi : st !! py "cpi" = Some v) (Hv : v ≠ VNone) :
  (∃ f, CostAgent._generate_recommendations (Some generate_text) st info
        = Raises f) ∧
  (∀ q, v = VFloat q →
     (∀ t, st !! py "categorias_custos" = Some t → ∃ m, t = VCats m) →
     (∀ c, ∃ docs, query c = Returns docs ∧ Forall titled docs) →
     CostAgent._generate_recommendations (Some generate_text) st info
     = Raises (KeyError (py "cpi"))).
Proof.
  exact (cost_enrichment_fails generate_text st info v Hcpi Hv).
Qed.

End Enrichment.

Lemma schedule_enrichment_raises_witness :
  ScheduleAgent._generate_recommendations (H := Latin1.latin1)
    (H0 := plain_services) (Some canned_answer) delayed_record ∅
  = Raises (KeyError (py "spi")).
Proof.
  assert (delayed_record !! py "spi" = Some (VFloat (fl 0.8))) as Hspi.
  { unfold delayed_record.
    rewrite lookup_insert_ne
      by (let E := fresh in intros E; vm_compute in E; discriminate E).
    apply lookup_insert_eq. }
  assert (VFloat (fl 0.8) ≠ VNone) as Hv by discriminate.
  apply (proj2 (schedule_enrichment_raises (H := Latin1.latin1)
                  (H0 := plain_services) canned_answer delayed_record ∅
                  (VFloat (fl 0.8)) Hspi Hv) (fl 0.8) eq_refl).
  - intros t Ht. unfold delayed_record in Ht. rewrite lookup_insert_eq in Ht.
    injection Ht as <-. eexists. reflexivity.
  - intros c. exists []. split; [reflexivity | apply List.Forall_nil].
Defined.

Lemma cost_enrichment_raises_witness :
  CostAgent._generate_recommendations (H := Latin1.latin1)
    (H0 := plain_services) (Some canned_answer) over_budget_record ∅
  = Raises (KeyError (py "cpi")).
Proof.
  assert (over_budget_record !! py "cpi" = Some (VFloat (fl 0.85))) as Hcpi
    by (unfold over_budget_record; apply lookup_insert_eq).
  assert (VFloat (fl 0.85) ≠ VNone) as Hv by discriminate.
  apply (proj2 (cost_enrichment_raises (H := Latin1.latin1)
                  (H0 := plain_services) canned_answer over_budget_record ∅
                  (VFloat (fl 0.85)) Hcpi Hv) (fl 0.85) eq_refl).
  - intros t Ht. unfold over_budget_record, categories_record in Ht.
    rewrite lookup_insert_ne in Ht
      by (let E := fresh in intros E; vm_compute in E; discriminate E).
    rewrite lookup_insert_eq in Ht. injection Ht as <-. eexists. reflexivity.
  - intros c. exists []. split; [reflexivity | apply List.Forall_nil].
Defined.

(** ** The analyses end to end *)


Section Analyses.
Context `{Runtime} `{Services}.








End Analyses.
